(** * Fixed-point exchange-rate arithmetic of the DAO-coin limit-order routes

    A shallow embedding of [routes/dao_coin_exchange.go] (module [Current])
    and of its earlier revision (module [Legacy]), followed by the properties
    of the decimal and exchange-rate arithmetic.

    Conventions of the embedding:
    - a [*big.Int] is a [Z]; a [*uint256.Int] is a [Z] meant in [0, 2^256),
      the wrap-around of its operations written out;
    - a Go [string] is a [string], a [float64] is a [float64] (sign, integer
      mantissa, binary exponent);
    - a Go function returning [(T, error)] returns a [result T];
    - a Go function that may fail to return (a run-time panic, or a loop
      that never exits) returns an [option]: [None] stands for "no value is
      returned". *)

From Stdlib Require Import ZArith Lia List String Ascii Bool.
Import ListNotations.

Local Open Scope string_scope.
Local Open Scope Z_scope.

(** * Part I: the embedding *)

(** ** Errors and results *)

(** The error values built by [errors.Errorf] in the routes, classified by
    their message template. *)
Inductive error : Type :=
| InvalidFormat     (* the decimal string could not be parsed *)
| Overflow          (* "Overflow when converting ... to a scaled exchange rate" *)
| Underflow         (* "... is too small to produce a scaled exchange rate",
                       "... produces a scaled exchange rate that is too small" *)
| UnknownEnumValue  (* "Unknown DAOCoinLimitOrderOperationType ..." *)
| ParseFloatError.  (* an error of strconv.ParseFloat *)

Inductive result (A : Type) : Type :=
| Ok (a : A)
| Err (e : error).
Arguments Ok {A} a.
Arguments Err {A} e.

(** Sequencing of computations that may fail to return. *)
Definition obind {A B} (m : option A) (k : A -> option B) : option B :=
  match m with Some a => k a | None => None end.

Notation "x <- m ;; k" := (obind m (fun x => k))
  (at level 61, m at next level, right associativity).

(** ** Strings *)

Module Str.

(** Every character of [s] satisfies [p]. *)
Fixpoint all (p : ascii -> bool) (s : string) : bool :=
  match s with
  | EmptyString => true
  | String c s' => p c && all p s'
  end.

(** [strings.Repeat(c, n)] for a one-character [c] and a count that is not
    negative. *)
Fixpoint replicate (n : nat) (c : ascii) : string :=
  match n with
  | O => EmptyString
  | S n' => String c (replicate n' c)
  end.

(** The character [c] is not the decimal point. *)
Definition notPoint (c : ascii) : bool := negb (Ascii.eqb c "."%char).

(** What follows the first ['.'] of [s], if there is one. *)
Fixpoint afterPoint (s : string) : option string :=
  match s with
  | EmptyString => None
  | String c s' => if Ascii.eqb c "."%char then Some s' else afterPoint s'
  end.

(** What precedes the first ['.'] of [s] (all of [s] if there is none). *)
Fixpoint beforePoint (s : string) : string :=
  match s with
  | EmptyString => EmptyString
  | String c s' => if Ascii.eqb c "."%char then EmptyString
                   else String c (beforePoint s')
  end.

(** The number that a string of decimal digits denotes, continuing from
    [acc]. *)
Fixpoint digitsValue (s : string) (acc : Z) : Z :=
  match s with
  | EmptyString => acc
  | String c s' => digitsValue s' (10 * acc + (Z.of_nat (nat_of_ascii c) - 48))
  end.

Definition decimalValue (s : string) : Z := digitsValue s 0.

End Str.

(** ** math/big *)

Module Big.

(** [big.Int.Div] and [big.Int.Mod] implement Euclidean division (the
    remainder is never negative) and panic on a zero divisor. *)
Definition ediv (x y : Z) : Z := Z.sgn y * (x / Z.abs y).
Definition emod (x y : Z) : Z := x mod Z.abs y.

Definition Div (x y : Z) : option Z :=
  if y =? 0 then None else Some (ediv x y).

Definition Mod (x y : Z) : option Z :=
  if y =? 0 then None else Some (emod x y).

(** [x.IsUint64()] and [x.Uint64()] *)
Definition IsUint64 (x : Z) : bool := (0 <=? x) && (x <? 2 ^ 64).
Definition Uint64 (x : Z) : Z := Z.abs x mod 2 ^ 64.

End Big.

(** ** holiman/uint256 *)

Module U256.

Definition modulus : Z := 2 ^ 256.

Definition inRange (x : Z) : Prop := 0 <= x < modulus.

(** [z.MulOverflow(x, y)]: [z] is the product modulo [2^256], the flag tells
    whether the product did not fit. *)
Definition MulOverflow (x y : Z) : Z * bool :=
  ((x * y) mod modulus, modulus <=? x * y).

(** [z.Div(x, y)]: the quotient, and zero when [y] is zero. *)
Definition Div (x y : Z) : Z := if y =? 0 then 0 else x / y.

(** [z.Mod(x, y)]: the remainder, and zero when [y] is zero. *)
Definition Mod (x y : Z) : Z := if y =? 0 then 0 else x mod y.

(** [uint256.FromBig(b)]: [b] modulo [2^256], and whether it did not fit. *)
Definition FromBig (b : Z) : Z * bool :=
  (b mod modulus, modulus <=? Z.abs b).

Definition IsZero (x : Z) : bool := x =? 0.

(** [x.Eq(y)] *)
Definition Eq (x y : Z) : bool := x =? y.

(** [x.ToBig()] *)
Definition ToBig (x : Z) : Z := x.

(** [uint256.NewInt().SetUint64(x)] *)
Definition SetUint64 (x : Z) : Z := x mod 2 ^ 64.

End U256.

(** ** Constants of the core library *)

(** Modelled from the spec: the constants [lib.NanosPerUnit] (10^9 base units
    per native coin), [lib.BaseUnitsPerCoin] (10^18 base units per DAO coin)
    and [lib.OneE38] (the 10^38 precision of a scaled exchange rate), and the
    operation-type enumeration, are declared in the core library, outside
    this repository. *)
Module Lib.

Definition NanosPerUnit : Z := 1000000000.
Definition BaseUnitsPerCoin : Z := 1000000000000000000.
Definition OneE38 : Z := 100000000000000000000000000000000000000.

(** [lib.DAOCoinLimitOrderOperationType]: the two operation types the routes
    compare against, and any other value of the underlying integer type. *)
Inductive DAOCoinLimitOrderOperationType : Type :=
| DAOCoinLimitOrderOperationTypeASK
| DAOCoinLimitOrderOperationTypeBID
| DAOCoinLimitOrderOperationTypeOther (code : Z).

End Lib.

(** ** getNumDigits *)

(** The loop of [getNumDigits]:
    [for quotient.Cmp(zero) != 0 { numDigits += 1; quotient.Div(quotient, ten) }].
    The fuel bounds the number of times the loop condition is evaluated. *)
Fixpoint getNumDigits_loop (fuel : nat) (quotient numDigits : Z) : option Z :=
  match fuel with
  | O => None
  | S fuel' =>
      if quotient =? 0 then Some numDigits
      else getNumDigits_loop fuel' (Big.ediv quotient 10) (numDigits + 1)
  end.

(** Enough fuel for every value on which the loop exits. *)
Definition getNumDigits_fuel (val : Z) : nat :=
  S (S (Z.to_nat (Z.log2 (Z.abs val)))).

(** [getNumDigits(val)], the same function in both revisions of the file. *)
Definition getNumDigits (val : Z) : option Z :=
  getNumDigits_loop (getNumDigits_fuel val) val 0.

(** [d] is the number of decimal digits of [n]: none for zero, and the decade
    [10^(d-1) <= n < 10^d] for a positive [n]. *)
Definition isDigitCount (n d : Z) : Prop :=
  (n = 0 /\ d = 0) \/ (0 < n /\ 0 < d /\ 10 ^ (d - 1) <= n < 10 ^ d).

(** ** float64 *)

Module Float64.

(** An IEEE-754 double: a signed zero, a finite non-zero value
    [(-1)^neg * m * 2^e], an infinity or a NaN. *)
Inductive float64 : Type :=
| Zero (neg : bool)
| Finite (neg : bool) (m : positive) (e : Z)
| Inf (neg : bool)
| NaN.

(** The integer part of [m * 2^e]. *)
Definition truncMagnitude (m : positive) (e : Z) : Z :=
  if 0 <=? e then Z.pos m * 2 ^ e else Z.pos m / 2 ^ (- e).

(** [big.NewFloat(0).SetFloat64(f).Int(nil)]: the value truncated towards
    zero. [SetFloat64] panics on a NaN; on an infinity [Int] yields a nil
    pointer, which the caller [getNumDigits] dereferences: no value in
    either case. *)
Definition bigFloatInt (f : float64) : option Z :=
  match f with
  | Zero _ => Some 0
  | Finite neg m e =>
      Some (if neg then - truncMagnitude m e else truncMagnitude m e)
  | Inf _ => None
  | NaN => None
  end.

(** [int64(f)]: the value truncated towards zero when it fits in 64 bits.
    Otherwise (also on an infinity and on a NaN) the conversion does not
    fail, and its value is implementation-dependent: [None] stands for that
    unknown value, not for a program that stops, and every statement on the
    earlier revision, the only caller, is made of floats whose integer part
    is within the int64 range. *)
Definition toInt64 (f : float64) : option Z :=
  match f with
  | Zero _ => Some 0
  | Finite neg m e =>
      let i := if neg then - truncMagnitude m e else truncMagnitude m e in
      if (- 2 ^ 63 <=? i) && (i <? 2 ^ 63) then Some i else None
  | Inf _ => None
  | NaN => None
  end.

(** [num / den] rounded to the nearest integer, ties to even, for [0 <= num]
    and [0 < den]. *)
Definition roundHalfEven (num den : Z) : Z :=
  let q := num / den in
  let r := num mod den in
  if 2 * r <? den then q
  else if den <? 2 * r then q + 1
  else if Z.even q then q else q + 1.

(** [m * 2^e * 10^prec] rounded to the nearest integer: the digits that the
    verb [%.<prec>f] prints. *)
Definition scaledDecimal (m : positive) (e : Z) (prec : Z) : Z :=
  if 0 <=? e then Z.pos m * 2 ^ e * 10 ^ prec
  else roundHalfEven (Z.pos m * 10 ^ prec) (2 ^ (- e)).

End Float64.

Abbreviation float64 := Float64.float64.

(** ** fmt and strings *)

Module Fmt.

Definition digitChar (d : Z) : ascii := ascii_of_nat (48 + Z.to_nat d).

Definition isDigit (c : ascii) : bool :=
  let n := Z.of_nat (nat_of_ascii c) in (48 <=? n) && (n <=? 57).

(** The decimal digits of a positive [n], most significant first, put in
    front of [acc]; nothing for [n <= 0]. *)
Fixpoint showDigits (fuel : nat) (n : Z) (acc : string) : string :=
  match fuel with
  | O => acc
  | S fuel' =>
      if n <=? 0 then acc
      else showDigits fuel' (n / 10) (String (digitChar (n mod 10)) acc)
  end.

Definition showPos (n : Z) : string :=
  showDigits (S (Z.to_nat (Z.log2 n))) n EmptyString.

(** [fmt.Sprintf("%d", n)] for an integer [n]. *)
Definition Sprintf_d (n : Z) : string :=
  if n =? 0 then "0"
  else if n <? 0 then "-" ++ showPos (- n)
  else showPos n.

(** [len(s)] as a Go [int]. *)
Definition len (s : string) : Z := Z.of_nat (String.length s).

(** [strings.Repeat("0", count)]: panics when [count] is negative. *)
Definition Repeat0 (count : Z) : option string :=
  if count <? 0 then None else Some (Str.replicate (Z.to_nat count) "0"%char).

(** The fixed-point notation of [K / 10^prec] with [prec] digits after the
    decimal point, and no decimal point when [prec] is zero. *)
Definition fixedPoint (prec : Z) (K : Z) : string :=
  let whole := K / 10 ^ prec in
  let frac := K mod 10 ^ prec in
  Sprintf_d whole ++
  (if prec <=? 0 then EmptyString
   else "." ++ Str.replicate (Z.to_nat (prec - len (showPos frac))) "0"%char
            ++ showPos frac).

(** [fmt.Sprintf("%.<prec>f", f)]: the exact value of [f] rounded to [prec]
    decimal places, ties to even. *)
Definition Sprintf_f (prec : Z) (f : float64) : string :=
  match f with
  | Float64.Zero neg => (if neg then "-" else EmptyString) ++ fixedPoint prec 0
  | Float64.Finite neg m e =>
      (if neg then "-" else EmptyString) ++ fixedPoint prec (Float64.scaledDecimal m e prec)
  | Float64.Inf neg => if neg then "-Inf" else "+Inf"
  | Float64.NaN => "NaN"
  end.

(** The number of characters after the decimal point of [s]. *)
Definition fracDigits (s : string) : Z :=
  match Str.afterPoint s with
  | None => 0
  | Some t => len t
  end.

End Fmt.

(** ** Formatting of scaled integers *)

(** [formatScaledUint256AsDecimalString(v, scalingFactor)] *)
Definition formatScaledUint256AsDecimalString (v scalingFactor : Z)
  : option string :=
  wholeNumber <- Big.Div v scalingFactor ;;
  decimalPart <- Big.Mod v scalingFactor ;;
  scalingFactorDigits <- getNumDigits scalingFactor ;;
  let decimalPartAsString := Fmt.Sprintf_d decimalPart in
  decimalPartAsString <-
    (if negb (Big.IsUint64 decimalPart && (Big.Uint64 decimalPart =? 0))
        && negb (Fmt.len decimalPartAsString =? scalingFactorDigits)
     then
       decimalLeadingZeros <-
         Fmt.Repeat0 (scalingFactorDigits - Fmt.len decimalPartAsString - 1) ;;
       Some (decimalLeadingZeros ++ decimalPartAsString)%string
     else Some decimalPartAsString) ;;
  Some (Fmt.Sprintf_d wholeNumber ++ "." ++ decimalPartAsString)%string.

(** Sequencing of Go calls [v, err := f(...); if err != nil { return nil, err }]. *)
Definition rbind {A B} (m : option (result A)) (k : A -> option (result B))
  : option (result B) :=
  match m with
  | None => None
  | Some (Err e) => Some (Err e)
  | Some (Ok a) => k a
  end.

Notation "x <-- m ;; k" := (rbind m (fun x => k))
  (at level 61, m at next level, right associativity).

(** ** routes/dao_coin_exchange.go *)

Module Current.

Definition DESOCoinIdentifierString : string := "DESO".

(** [type DAOCoinLimitOrderOperationTypeString string] *)
Definition DAOCoinLimitOrderOperationTypeString : Type := string.
Definition DAOCoinLimitOrderOperationTypeStringASK
  : DAOCoinLimitOrderOperationTypeString := "ASK".
Definition DAOCoinLimitOrderOperationTypeStringBID
  : DAOCoinLimitOrderOperationTypeString := "BID".

Definition orderOperationTypeToString
  (operationType : Lib.DAOCoinLimitOrderOperationType)
  : result DAOCoinLimitOrderOperationTypeString :=
  match operationType with
  | Lib.DAOCoinLimitOrderOperationTypeASK =>
      Ok DAOCoinLimitOrderOperationTypeStringASK
  | Lib.DAOCoinLimitOrderOperationTypeBID =>
      Ok DAOCoinLimitOrderOperationTypeStringBID
  | Lib.DAOCoinLimitOrderOperationTypeOther _ => Err UnknownEnumValue
  end.

(** [orderOperationTypeToUint64] *)
Definition orderOperationTypeToUint64
  (operationType : DAOCoinLimitOrderOperationTypeString)
  : result Lib.DAOCoinLimitOrderOperationType :=
  if String.eqb operationType DAOCoinLimitOrderOperationTypeStringASK then
    Ok Lib.DAOCoinLimitOrderOperationTypeASK
  else if String.eqb operationType DAOCoinLimitOrderOperationTypeStringBID then
    Ok Lib.DAOCoinLimitOrderOperationTypeBID
  else Err UnknownEnumValue.

(** [getDESOToDAOCoinBaseUnitsScalingFactor()]: (1e18 / 1e9). *)
Definition getDESOToDAOCoinBaseUnitsScalingFactor : Z :=
  U256.Div Lib.BaseUnitsPerCoin (U256.SetUint64 Lib.NanosPerUnit).

(** [isCoinToFillDESO] *)
Definition isCoinToFillDESO
  (buyingCoinPublicKeyBase58Check sellingCoinPublicKeyBase58Check : string)
  (operationTypeString : DAOCoinLimitOrderOperationTypeString) : bool :=
  (String.eqb buyingCoinPublicKeyBase58Check DESOCoinIdentifierString
   && String.eqb operationTypeString DAOCoinLimitOrderOperationTypeStringBID)
  || (String.eqb sellingCoinPublicKeyBase58Check DESOCoinIdentifierString
      && String.eqb operationTypeString DAOCoinLimitOrderOperationTypeStringASK).

(** [formatFloatAsString(f)] *)
Definition formatFloatAsString (f : float64) : option string :=
  fAsBigInt <- Float64.bigFloatInt f ;;
  let supportedPrecisionDigits := 15 in
  numWholeNumberDigits <- getNumDigits fAsBigInt ;;
  if numWholeNumberDigits <=? supportedPrecisionDigits then
    Some (Fmt.Sprintf_f (supportedPrecisionDigits - numWholeNumberDigits) f)
  else
    let divisorToDropDigits :=
      10 ^ (numWholeNumberDigits - supportedPrecisionDigits) in
    fAsBigInt <- Big.Div fAsBigInt divisorToDropDigits ;;
    let fAsBigInt := fAsBigInt * divisorToDropDigits in
    Some (Fmt.Sprintf_d fAsBigInt ++ ".0")%string.

(** [CalculateStringPriceFromScaledExchangeRate] *)
Definition CalculateStringPriceFromScaledExchangeRate
  (buyingCoinPublicKeyBase58Check sellingCoinPublicKeyBase58Check : string)
  (scaledValue : Z)
  (operationTypeString : DAOCoinLimitOrderOperationTypeString)
  : option (result string) :=
  let scaledValueAsBigInt := U256.ToBig scaledValue in
  scaledValueAsBigInt <-
    (if String.eqb buyingCoinPublicKeyBase58Check DESOCoinIdentifierString then
       Big.Div scaledValueAsBigInt
               (U256.ToBig getDESOToDAOCoinBaseUnitsScalingFactor)
     else if String.eqb sellingCoinPublicKeyBase58Check DESOCoinIdentifierString then
       Some (scaledValueAsBigInt
             * U256.ToBig getDESOToDAOCoinBaseUnitsScalingFactor)
     else Some scaledValueAsBigInt) ;;
  str <- formatScaledUint256AsDecimalString
           scaledValueAsBigInt (U256.ToBig Lib.OneE38) ;;
  Some (Ok str).

(** [CalculateQuantityAsString] *)
Definition CalculateQuantityAsString
  (buyingCoinPublicKeyBase58Check sellingCoinPublicKeyBase58Check : string)
  (operationTypeString : DAOCoinLimitOrderOperationTypeString)
  (quantityToFillInBaseUnits : Z) : option (result string) :=
  if isCoinToFillDESO buyingCoinPublicKeyBase58Check
       sellingCoinPublicKeyBase58Check operationTypeString
  then
    str <- formatScaledUint256AsDecimalString
             (U256.ToBig quantityToFillInBaseUnits) Lib.NanosPerUnit ;;
    Some (Ok str)
  else
    str <- formatScaledUint256AsDecimalString
             (U256.ToBig quantityToFillInBaseUnits)
             (U256.ToBig Lib.BaseUnitsPerCoin) ;;
    Some (Ok str).

Section Routes.

(** Functions of the core library and of [strconv] that the routes call. *)
Variable CalculateScaledExchangeRateFromString : string -> result Z.
Variable ScaleFloatFormatStringToUint256 : string -> Z -> result Z.
Variable ParseFloat : string -> result float64.

(** [CalculateScaledExchangeRateFromPriceString] *)
Definition CalculateScaledExchangeRateFromPriceString
  (buyingCoinPublicKeyBase58Check sellingCoinPublicKeyBase58Check : string)
  (price : string)
  (operationType : Lib.DAOCoinLimitOrderOperationType)
  : option (result Z) :=
  rawScaledPRice <-- Some (CalculateScaledExchangeRateFromString price) ;;
  if U256.IsZero rawScaledPRice then Some (Err Underflow)
  else
    rawScaledExchangeRate <--
      (match operationType with
       | Lib.DAOCoinLimitOrderOperationTypeASK =>
           let oneE72 := U256.ToBig Lib.OneE38 * U256.ToBig Lib.OneE38 in
           rawScaledExchangeRateAsBigInt <-
             Big.Div oneE72 (U256.ToBig rawScaledPRice) ;;
           let '(rawScaledExchangeRateWithPossibleOverflow, overflows) :=
             U256.FromBig rawScaledExchangeRateAsBigInt in
           if overflows then Some (Err Overflow)
           else Some (Ok rawScaledExchangeRateWithPossibleOverflow)
       | _ => Some (Ok rawScaledPRice)
       end) ;;
    if String.eqb buyingCoinPublicKeyBase58Check DESOCoinIdentifierString then
      let '(product, overflow) :=
        U256.MulOverflow rawScaledExchangeRate
                         getDESOToDAOCoinBaseUnitsScalingFactor in
      if overflow then Some (Err Overflow) else Some (Ok product)
    else if String.eqb sellingCoinPublicKeyBase58Check DESOCoinIdentifierString then
      let quotient :=
        U256.Div rawScaledExchangeRate getDESOToDAOCoinBaseUnitsScalingFactor in
      if U256.IsZero quotient then Some (Err Underflow) else Some (Ok quotient)
    else Some (Ok rawScaledExchangeRate).

(** [CalculateScaledExchangeRateFromFloat] *)
Definition CalculateScaledExchangeRateFromFloat
  (buyingCoinPublicKeyBase58Check sellingCoinPublicKeyBase58Check : string)
  (exchangeRateCoinsToSellPerCoinToBuy : float64) : option (result Z) :=
  str <- formatFloatAsString exchangeRateCoinsToSellPerCoinToBuy ;;
  rawScaledExchangeRate <-- Some (CalculateScaledExchangeRateFromString str) ;;
  if U256.IsZero rawScaledExchangeRate then Some (Err Underflow)
  else if String.eqb buyingCoinPublicKeyBase58Check DESOCoinIdentifierString then
    let '(product, overflow) :=
      U256.MulOverflow rawScaledExchangeRate
                       getDESOToDAOCoinBaseUnitsScalingFactor in
    if overflow then Some (Err Overflow) else Some (Ok product)
  else if String.eqb sellingCoinPublicKeyBase58Check DESOCoinIdentifierString then
    let quotient :=
      U256.Div rawScaledExchangeRate getDESOToDAOCoinBaseUnitsScalingFactor in
    if U256.IsZero quotient then Some (Err Underflow) else Some (Ok quotient)
  else Some (Ok rawScaledExchangeRate).

(** [CalculateExchangeRateAsFloat] *)
Definition CalculateExchangeRateAsFloat
  (buyingCoinPublicKeyBase58Check sellingCoinPublicKeyBase58Check : string)
  (scaledValue : Z) : option (result float64) :=
  let scaledValueAsBigInt := U256.ToBig scaledValue in
  scaledValueAsBigInt <-
    (if String.eqb buyingCoinPublicKeyBase58Check DESOCoinIdentifierString then
       Big.Div scaledValueAsBigInt
               (U256.ToBig getDESOToDAOCoinBaseUnitsScalingFactor)
     else if String.eqb sellingCoinPublicKeyBase58Check DESOCoinIdentifierString then
       Some (scaledValueAsBigInt
             * U256.ToBig getDESOToDAOCoinBaseUnitsScalingFactor)
     else Some scaledValueAsBigInt) ;;
  let oneE38AsBigInt := U256.ToBig Lib.OneE38 in
  whole <- Big.Div scaledValueAsBigInt oneE38AsBigInt ;;
  decimal <- Big.Mod scaledValueAsBigInt oneE38AsBigInt ;;
  n1 <- getNumDigits oneE38AsBigInt ;;
  n2 <- getNumDigits decimal ;;
  decimalLeadingZeros <- Fmt.Repeat0 (n1 - n2 - 1) ;;
  let str := (Fmt.Sprintf_d whole ++ "." ++ decimalLeadingZeros
              ++ Fmt.Sprintf_d decimal)%string in
  Some (ParseFloat str).

(** [calculateQuantityToFillAsFloatWithScalingFactor] *)
Definition calculateQuantityToFillAsFloatWithScalingFactor
  (quantityAsScaledValue scalingFactor : Z) : option (result float64) :=
  let whole := U256.Div quantityAsScaledValue scalingFactor in
  let decimal := U256.Mod quantityAsScaledValue scalingFactor in
  n1 <- getNumDigits (U256.ToBig scalingFactor) ;;
  n2 <- getNumDigits (U256.ToBig decimal) ;;
  decimalLeadingZeros <- Fmt.Repeat0 (n1 - n2 - 1) ;;
  let str := (Fmt.Sprintf_d whole ++ "." ++ decimalLeadingZeros
              ++ Fmt.Sprintf_d decimal)%string in
  Some (ParseFloat str).

(** [calculateQuantityToFillFromDAOCoinBaseUnitsToFloat] *)
Definition calculateQuantityToFillFromDAOCoinBaseUnitsToFloat
  (quantityInBaseUnits : Z) : option (result float64) :=
  calculateQuantityToFillAsFloatWithScalingFactor
    quantityInBaseUnits Lib.BaseUnitsPerCoin.

(** [calculateQuantityToFillFromDESONanosToFloat] *)
Definition calculateQuantityToFillFromDESONanosToFloat
  (quantityInNanos : Z) : option (result float64) :=
  calculateQuantityToFillAsFloatWithScalingFactor
    quantityInNanos (U256.SetUint64 Lib.NanosPerUnit).

(** [CalculateQuantityToFillAsFloat] *)
Definition CalculateQuantityToFillAsFloat
  (buyingCoinPublicKeyBase58Check sellingCoinPublicKeyBase58Check : string)
  (operationTypeString : DAOCoinLimitOrderOperationTypeString)
  (quantityToFillInBaseUnits : Z) : option (result float64) :=
  if isCoinToFillDESO buyingCoinPublicKeyBase58Check
       sellingCoinPublicKeyBase58Check operationTypeString
  then calculateQuantityToFillFromDESONanosToFloat quantityToFillInBaseUnits
  else calculateQuantityToFillFromDAOCoinBaseUnitsToFloat
         quantityToFillInBaseUnits.

(** [calculateQuantityToFillToBaseUnitsWithScalingFactor] *)
Definition calculateQuantityToFillToBaseUnitsWithScalingFactor
  (quantityToFill : string) (scalingFactor : Z) : result Z :=
  ScaleFloatFormatStringToUint256 quantityToFill scalingFactor.

(** [calculateQuantityToFillAsDAOCoinBaseUnits]: (quantityToFill * 10^18) *)
Definition calculateQuantityToFillAsDAOCoinBaseUnits
  (quantityToFill : string) : result Z :=
  calculateQuantityToFillToBaseUnitsWithScalingFactor
    quantityToFill Lib.BaseUnitsPerCoin.

(** [calculateQuantityToFillAsDESONanos]: (quantityToFill * 10^9) *)
Definition calculateQuantityToFillAsDESONanos
  (quantityToFill : string) : result Z :=
  calculateQuantityToFillToBaseUnitsWithScalingFactor
    quantityToFill (U256.SetUint64 Lib.NanosPerUnit).

(** [CalculateQuantityToFillAsBaseUnits] *)
Definition CalculateQuantityToFillAsBaseUnits
  (buyingCoinPublicKeyBase58Check sellingCoinPublicKeyBase58Check : string)
  (operationTypeString : DAOCoinLimitOrderOperationTypeString)
  (quantityToFill : string) : result Z :=
  if isCoinToFillDESO buyingCoinPublicKeyBase58Check
       sellingCoinPublicKeyBase58Check operationTypeString
  then calculateQuantityToFillAsDESONanos quantityToFill
  else calculateQuantityToFillAsDAOCoinBaseUnits quantityToFill.

(** *** The order-book responses *)

(** The view of the chain state: [lib.PKID], its test [IsZeroPKID], and the
    composition [lib.Base58CheckEncode(utxoView.GetPublicKeyForPKID(pkid),
    false, fes.Params)]. *)
Variable PKID : Type.
Variable IsZeroPKID : PKID -> bool.
Variable Base58CheckEncodePublicKeyForPKID : PKID -> string.

(** [lib.DAOCoinLimitOrderEntry]; [OrderID] holds [order.OrderID.String()]. *)
Record DAOCoinLimitOrderEntry : Type := {
  OrderID : string;
  TransactorPKID : PKID;
  BuyingDAOCoinCreatorPKID : PKID;
  SellingDAOCoinCreatorPKID : PKID;
  ScaledExchangeRateCoinsToSellPerCoinToBuy : Z;
  QuantityToFillInBaseUnits : Z;
  OperationType : Lib.DAOCoinLimitOrderOperationType
}.

(** [DAOCoinLimitOrderEntryResponse] *)
Record DAOCoinLimitOrderEntryResponse : Type := {
  resp_TransactorPublicKeyBase58Check : string;
  resp_BuyingDAOCoinCreatorPublicKeyBase58Check : string;
  resp_SellingDAOCoinCreatorPublicKeyBase58Check : string;
  resp_Price : string;
  resp_Quantity : string;
  resp_ExchangeRateCoinsToSellPerCoinToBuy : float64;
  resp_QuantityToFill : float64;
  resp_OperationType : DAOCoinLimitOrderOperationTypeString;
  resp_OrderID : string
}.

(** [buildDAOCoinLimitOrderResponse] *)
Definition buildDAOCoinLimitOrderResponse
  (transactorPublicKeyBase58Check : string)
  (buyingCoinPublicKeyBase58Check sellingCoinPublicKeyBase58Check : string)
  (order : DAOCoinLimitOrderEntry)
  : option (result DAOCoinLimitOrderEntryResponse) :=
  operationTypeString <--
    Some (orderOperationTypeToString (OperationType order)) ;;
  price <--
    CalculateStringPriceFromScaledExchangeRate
      buyingCoinPublicKeyBase58Check sellingCoinPublicKeyBase58Check
      (ScaledExchangeRateCoinsToSellPerCoinToBuy order) operationTypeString ;;
  quantity <--
    CalculateQuantityAsString
      buyingCoinPublicKeyBase58Check sellingCoinPublicKeyBase58Check
      operationTypeString (QuantityToFillInBaseUnits order) ;;
  exchangeRate <--
    CalculateExchangeRateAsFloat
      buyingCoinPublicKeyBase58Check sellingCoinPublicKeyBase58Check
      (ScaledExchangeRateCoinsToSellPerCoinToBuy order) ;;
  quantityToFill <--
    CalculateQuantityToFillAsFloat
      buyingCoinPublicKeyBase58Check sellingCoinPublicKeyBase58Check
      operationTypeString (QuantityToFillInBaseUnits order) ;;
  Some (Ok {|
    resp_TransactorPublicKeyBase58Check := transactorPublicKeyBase58Check;
    resp_BuyingDAOCoinCreatorPublicKeyBase58Check :=
      buyingCoinPublicKeyBase58Check;
    resp_SellingDAOCoinCreatorPublicKeyBase58Check :=
      sellingCoinPublicKeyBase58Check;
    resp_Price := price;
    resp_Quantity := quantity;
    resp_ExchangeRateCoinsToSellPerCoinToBuy := exchangeRate;
    resp_QuantityToFill := quantityToFill;
    resp_OperationType := operationTypeString;
    resp_OrderID := OrderID order
  |}).

(** [getPublicKeyBase58CheckOrCoinIdentifierForPKID] *)
Definition getPublicKeyBase58CheckOrCoinIdentifierForPKID (pkid : PKID)
  : string :=
  let base58Check := DESOCoinIdentifierString in
  if negb (IsZeroPKID pkid) then Base58CheckEncodePublicKeyForPKID pkid
  else base58Check.

(** What [glog.Errorf] has written: the [OrderID] of the message
    "Unable to build DAO coin limit order response for limit order with
    OrderID: ...". *)
Definition logLine : Type := string.

(** The state of the loop of a bulk builder: the slice [responses] and the
    lines logged so far. *)
Definition builderState : Type :=
  (list DAOCoinLimitOrderEntryResponse * list logLine)%type.

(** The loop body of [buildDAOCoinLimitOrderResponsesFromEntriesForCoinPair]. *)
Definition coinPairStep
  (buyingCoinPublicKeyBase58Check sellingCoinPublicKeyBase58Check : string)
  (st : builderState) (order : DAOCoinLimitOrderEntry)
  : option builderState :=
  let '(responses, log) := st in
  let transactorPublicKey :=
    Base58CheckEncodePublicKeyForPKID (TransactorPKID order) in
  r <- buildDAOCoinLimitOrderResponse transactorPublicKey
         buyingCoinPublicKeyBase58Check sellingCoinPublicKeyBase58Check order ;;
  match r with
  | Err _ => Some (responses, log)                       (* continue *)
  | Ok response => Some (responses ++ [response], log)%list
  end.

(** The loop body of [buildDAOCoinLimitOrderResponsesForTransactor]. *)
Definition transactorStep
  (transactorPublicKeyBase58Check : string)
  (st : builderState) (order : DAOCoinLimitOrderEntry)
  : option builderState :=
  let '(responses, log) := st in
  let buyingCoinPublicKeyBase58Check :=
    getPublicKeyBase58CheckOrCoinIdentifierForPKID
      (BuyingDAOCoinCreatorPKID order) in
  let sellingCoinPublicKeyBase58Check :=
    getPublicKeyBase58CheckOrCoinIdentifierForPKID
      (SellingDAOCoinCreatorPKID order) in
  r <- buildDAOCoinLimitOrderResponse transactorPublicKeyBase58Check
         buyingCoinPublicKeyBase58Check sellingCoinPublicKeyBase58Check order ;;
  match r with
  | Err _ => Some (responses, (log ++ [OrderID order])%list)  (* glog.Errorf; continue *)
  | Ok response => Some (responses ++ [response], log)%list
  end.

(** [for _, order := range orders { ... }] *)
Fixpoint rangeOrders
  (body : builderState -> DAOCoinLimitOrderEntry -> option builderState)
  (orders : list DAOCoinLimitOrderEntry) (st : builderState)
  : option builderState :=
  match orders with
  | [] => Some st
  | order :: rest => st' <- body st order ;; rangeOrders body rest st'
  end.

(** [buildDAOCoinLimitOrderResponsesFromEntriesForCoinPair]: the responses
    returned and the lines logged. *)
Definition buildDAOCoinLimitOrderResponsesFromEntriesForCoinPair
  (buyingCoinPublicKeyBase58Check sellingCoinPublicKeyBase58Check : string)
  (orders : list DAOCoinLimitOrderEntry) : option builderState :=
  rangeOrders
    (coinPairStep buyingCoinPublicKeyBase58Check
                  sellingCoinPublicKeyBase58Check)
    orders ([], []).

(** [buildDAOCoinLimitOrderResponsesForTransactor]: the responses returned and
    the lines logged. *)
Definition buildDAOCoinLimitOrderResponsesForTransactor
  (transactorPublicKeyBase58Check : string)
  (orders : list DAOCoinLimitOrderEntry) : option builderState :=
  rangeOrders (transactorStep transactorPublicKeyBase58Check) orders ([], []).

End Routes.

(** *** The balance check and the listing handlers *)

(** The errors of [validateTransactorSellingCoinBalance], by message. *)
Inductive validationError : Type :=
| ProblemFetchingUTXOView
| InvalidTransactorPublicKey
| ErrorDecodingTransactorPublicKey
| InvalidBuyingDAOCoinCreatorPublicKey
| ErrorGettingTransactorDESOBalance
| InvalidSellingDAOCoinCreatorPublicKey
| ErrorDecodingSellingPublicKey
| TransactorDAOCoinBalanceNotFound
| ErrorGettingLimitOrders
| ErrorCalculatingNewOrderSellingQuantity
| InvalidOperationType
| ErrorCalculatingOpenOrderSellingQuantity
| ErrorAddingOpenOrderSellingQuantity
| InsufficientBalanceToOpenOrder.

(** What a handler writes: an error of [_AddBadRequestError] or of
    [_AddInternalServerError], or the encoded list of orders. *)
Inductive handlerError : Type :=
| ProblemParsingRequestBody
| MustProvideEitherCoin
| ProblemFetchingUtxoView
| InvalidDAOCoin1CreatorPublicKey
| InvalidDAOCoin2CreatorPublicKey
| InvalidTransactorPublicKeyBase58Check
| ErrorGettingOrders
| ProblemEncodingResponse.

Inductive handlerOutcome : Type :=
| BadRequest (e : handlerError)
| InternalServerError (e : handlerError)
| Responded (orders : list DAOCoinLimitOrderEntryResponse).

(** [GetDAOCoinLimitOrdersRequest] *)
Record GetDAOCoinLimitOrdersRequest : Type := {
  DAOCoin1CreatorPublicKeyBase58Check : string;
  DAOCoin2CreatorPublicKeyBase58Check : string
}.

Section Server.

Variable ParseFloat : string -> result float64.

(** The chain state and the core library: [lib.PKID] with [lib.ZeroPKID],
    [pkid.Eq] and [pkid.IsZeroPKID]; the view returned by
    [fes.backendServer.GetMempool().GetAugmentedUniversalView()] and its
    lookups; [GetPubKeyBytesFromBase58Check], [lib.Base58CheckDecode] and
    [lib.Base58CheckEncode] on public keys (byte strings); the selling
    quantity of an order ([lib.ComputeBaseUnitsToSellUint256],
    [order.BaseUnitsToSellUint256]) and the checked addition
    [lib.SafeUint256().Add]. *)
Variable PKID : Type.
Variable ZeroPKID : PKID.
Variable PKID_Eq : PKID -> PKID -> bool.
Variable IsZeroPKID : PKID -> bool.
Variable UtxoView : Type.
Variable GetAugmentedUniversalView : result UtxoView.
Variable GetPubKeyBytesFromBase58Check : string -> result string.
Variable GetPKIDForPublicKey : UtxoView -> string -> PKID.
Variable GetPublicKeyForPKID : UtxoView -> PKID -> string.
Variable Base58CheckEncode : string -> string.
Variable Base58CheckDecode : string -> result string.
Variable GetDeSoBalanceNanosForPublicKey : UtxoView -> string -> result Z.
Variable GetBalanceEntryForHODLerPubKeyAndCreatorPubKey
  : UtxoView -> string -> string -> option Z.
Variable GetAllDAOCoinLimitOrdersForThisTransactor
  : UtxoView -> PKID -> result (list (DAOCoinLimitOrderEntry PKID)).
Variable GetAllDAOCoinLimitOrdersForThisDAOCoinPair
  : UtxoView -> PKID -> PKID -> result (list (DAOCoinLimitOrderEntry PKID)).
Variable ComputeBaseUnitsToSellUint256 : Z -> Z -> result Z.
Variable BaseUnitsToSellUint256 : DAOCoinLimitOrderEntry PKID -> result Z.
Variable SafeUint256Add : Z -> Z -> result Z.

(** The JSON decoder of the request body and encoder of the response. *)
Variable RequestBody : Type.
Variable DecodeGetDAOCoinLimitOrdersRequest
  : RequestBody -> result GetDAOCoinLimitOrdersRequest.
Variable DecodeGetTransactorDAOCoinLimitOrdersRequest
  : RequestBody -> result string.
Variable EncodeResponse : list DAOCoinLimitOrderEntryResponse -> option error.

(** [getPKIDFromPublicKeyBase58Check] *)
Definition getPKIDFromPublicKeyBase58Check
  (utxoView : UtxoView) (publicKeyBase58Check : string) : result PKID :=
  match GetPubKeyBytesFromBase58Check publicKeyBase58Check with
  | Err e => Err e
  | Ok publicKeyBytes => Ok (GetPKIDForPublicKey utxoView publicKeyBytes)
  end.

(** [v, err := r; if err != nil { return errors.Errorf(...) }] *)
Definition orReject {A : Type} (r : result A) (e : validationError)
  (k : A -> option validationError) : option validationError :=
  match r with
  | Ok a => k a
  | Err _ => Some e
  end.

(** The loop of [validateTransactorSellingCoinBalance] over the open orders:
    the total after the loop, or the error it returns. *)
Fixpoint addOpenOrders (buyingCoinPKID sellingCoinPKID : PKID)
  (orders : list (DAOCoinLimitOrderEntry PKID)) (totalSellingBaseUnits : Z)
  : validationError + Z :=
  match orders with
  | [] => inr totalSellingBaseUnits
  | order :: rest =>
      if PKID_Eq buyingCoinPKID (BuyingDAOCoinCreatorPKID PKID order)
         && PKID_Eq sellingCoinPKID (SellingDAOCoinCreatorPKID PKID order)
      then
        match BaseUnitsToSellUint256 order with
        | Err _ => inl ErrorCalculatingOpenOrderSellingQuantity
        | Ok orderSellingBaseUnits =>
            match SafeUint256Add totalSellingBaseUnits orderSellingBaseUnits with
            | Err _ => inl ErrorAddingOpenOrderSellingQuantity
            | Ok total' =>
                addOpenOrders buyingCoinPKID sellingCoinPKID rest total'
            end
        end
      else
        addOpenOrders buyingCoinPKID sellingCoinPKID rest totalSellingBaseUnits
  end.

(** [validateTransactorSellingCoinBalance]: [None] is the [nil] error. *)
Definition validateTransactorSellingCoinBalance
  (transactorPublicKeyBase58Check : string)
  (buyingDAOCoinCreatorPublicKeyBase58Check : string)
  (sellingDAOCoinCreatorPublicKeyBase58Check : string)
  (operationType : DAOCoinLimitOrderOperationTypeString)
  (scaledExchangeRateCoinsToSellPerCoinToBuy : Z)
  (quantityToFillInBaseUnits : Z) : option validationError :=
  orReject GetAugmentedUniversalView ProblemFetchingUTXOView (fun utxoView =>
  orReject (getPKIDFromPublicKeyBase58Check utxoView
              transactorPublicKeyBase58Check)
           InvalidTransactorPublicKey (fun transactorPKID =>
  orReject (Base58CheckDecode transactorPublicKeyBase58Check)
           ErrorDecodingTransactorPublicKey (fun transactorPublicKey =>
  orReject (if String.eqb buyingDAOCoinCreatorPublicKeyBase58Check
                 DESOCoinIdentifierString
            then Ok ZeroPKID
            else getPKIDFromPublicKeyBase58Check utxoView
                   buyingDAOCoinCreatorPublicKeyBase58Check)
           InvalidBuyingDAOCoinCreatorPublicKey (fun buyingCoinPKID =>
  let sellingCoinPKID_balance : validationError + (PKID * Z) :=
    if String.eqb sellingDAOCoinCreatorPublicKeyBase58Check
         DESOCoinIdentifierString
    then
      match GetDeSoBalanceNanosForPublicKey utxoView transactorPublicKey with
      | Err _ => inl ErrorGettingTransactorDESOBalance
      | Ok desoBalanceNanos =>
          inr (ZeroPKID, U256.SetUint64 desoBalanceNanos)
      end
    else
      match getPKIDFromPublicKeyBase58Check utxoView
              sellingDAOCoinCreatorPublicKeyBase58Check with
      | Err _ => inl InvalidSellingDAOCoinCreatorPublicKey
      | Ok sellingCoinPKID =>
          match Base58CheckDecode sellingDAOCoinCreatorPublicKeyBase58Check with
          | Err _ => inl ErrorDecodingSellingPublicKey
          | Ok sellingPublicKey =>
              match GetBalanceEntryForHODLerPubKeyAndCreatorPubKey
                      utxoView transactorPublicKey sellingPublicKey with
              | None => inl TransactorDAOCoinBalanceNotFound
              | Some balanceNanos => inr (sellingCoinPKID, balanceNanos)
              end
          end
      end in
  match sellingCoinPKID_balance with
  | inl e => Some e
  | inr (sellingCoinPKID, transactorSellingBalanceBaseUnits) =>
  orReject (GetAllDAOCoinLimitOrdersForThisTransactor utxoView transactorPKID)
           ErrorGettingLimitOrders (fun orders =>
  let totalSellingBaseUnits : validationError + Z :=
    if String.eqb operationType DAOCoinLimitOrderOperationTypeStringASK then
      inr quantityToFillInBaseUnits
    else if String.eqb operationType DAOCoinLimitOrderOperationTypeStringBID then
      match ComputeBaseUnitsToSellUint256
              scaledExchangeRateCoinsToSellPerCoinToBuy
              quantityToFillInBaseUnits with
      | Err _ => inl ErrorCalculatingNewOrderSellingQuantity
      | Ok total => inr total
      end
    else inl InvalidOperationType in
  match totalSellingBaseUnits with
  | inl e => Some e
  | inr totalSellingBaseUnits =>
      match addOpenOrders buyingCoinPKID sellingCoinPKID orders
              totalSellingBaseUnits with
      | inl e => Some e
      | inr totalSellingBaseUnits =>
          if transactorSellingBalanceBaseUnits <? totalSellingBaseUnits
          then Some InsufficientBalanceToOpenOrder
          else None
      end
  end)
  end)))).

(** [GetDAOCoinLimitOrders]: what the handler writes for a request body. *)
Definition GetDAOCoinLimitOrders (body : RequestBody)
  : option handlerOutcome :=
  match DecodeGetDAOCoinLimitOrdersRequest body with
  | Err _ => Some (BadRequest ProblemParsingRequestBody)
  | Ok requestData =>
  let coin1 := DAOCoin1CreatorPublicKeyBase58Check requestData in
  let coin2 := DAOCoin2CreatorPublicKeyBase58Check requestData in
  if String.eqb coin1 DESOCoinIdentifierString
     && String.eqb coin2 DESOCoinIdentifierString
  then Some (BadRequest MustProvideEitherCoin)
  else
  match GetAugmentedUniversalView with
  | Err _ => Some (InternalServerError ProblemFetchingUtxoView)
  | Ok utxoView =>
  match (if negb (String.eqb coin1 DESOCoinIdentifierString)
         then getPKIDFromPublicKeyBase58Check utxoView coin1
         else Ok ZeroPKID) with
  | Err _ => Some (BadRequest InvalidDAOCoin1CreatorPublicKey)
  | Ok coin1PKID =>
  match (if negb (String.eqb coin2 DESOCoinIdentifierString)
         then getPKIDFromPublicKeyBase58Check utxoView coin2
         else Ok ZeroPKID) with
  | Err _ => Some (BadRequest InvalidDAOCoin2CreatorPublicKey)
  | Ok coin2PKID =>
  match GetAllDAOCoinLimitOrdersForThisDAOCoinPair
          utxoView coin1PKID coin2PKID with
  | Err _ => Some (InternalServerError ErrorGettingOrders)
  | Ok ordersBuyingCoin1 =>
  match GetAllDAOCoinLimitOrdersForThisDAOCoinPair
          utxoView coin2PKID coin1PKID with
  | Err _ => Some (InternalServerError ErrorGettingOrders)
  | Ok ordersBuyingCoin2 =>
  let encode := fun pkid =>
    Base58CheckEncode (GetPublicKeyForPKID utxoView pkid) in
  built1 <- buildDAOCoinLimitOrderResponsesFromEntriesForCoinPair
              ParseFloat PKID encode coin1 coin2 ordersBuyingCoin1 ;;
  built2 <- buildDAOCoinLimitOrderResponsesFromEntriesForCoinPair
              ParseFloat PKID encode coin2 coin1 ordersBuyingCoin2 ;;
  let responses := (fst built1 ++ fst built2)%list in
  match EncodeResponse responses with
  | Some _ => Some (BadRequest ProblemEncodingResponse)
  | None => Some (Responded responses)
  end
  end end end end end end.

(** [GetTransactorDAOCoinLimitOrders]: what the handler writes for a request
    body. *)
Definition GetTransactorDAOCoinLimitOrders (body : RequestBody)
  : option handlerOutcome :=
  match DecodeGetTransactorDAOCoinLimitOrdersRequest body with
  | Err _ => Some (BadRequest ProblemParsingRequestBody)
  | Ok transactorPublicKeyBase58Check =>
  match GetAugmentedUniversalView with
  | Err _ => Some (InternalServerError ProblemFetchingUtxoView)
  | Ok utxoView =>
  match getPKIDFromPublicKeyBase58Check utxoView
          transactorPublicKeyBase58Check with
  | Err _ => Some (BadRequest InvalidTransactorPublicKeyBase58Check)
  | Ok transactorPKID =>
  match GetAllDAOCoinLimitOrdersForThisTransactor utxoView transactorPKID with
  | Err _ => Some (InternalServerError ErrorGettingOrders)
  | Ok orders =>
  let encode := fun pkid =>
    Base58CheckEncode (GetPublicKeyForPKID utxoView pkid) in
  built <- buildDAOCoinLimitOrderResponsesForTransactor
             ParseFloat PKID IsZeroPKID encode
             transactorPublicKeyBase58Check orders ;;
  let responses := fst built in
  match EncodeResponse responses with
  | Some _ => Some (InternalServerError ProblemEncodingResponse)
  | None => Some (Responded responses)
  end
  end end end end.

End Server.

End Current.

(** ** The earlier revision of the file *)

Module Legacy.

(** [getDESOToDAOCoinBaseUnitsScalingFactor()] *)
Definition getDESOToDAOCoinBaseUnitsScalingFactor : Z :=
  U256.Div Lib.BaseUnitsPerCoin (U256.SetUint64 Lib.NanosPerUnit).

(** The earlier revision takes the empty string as the identifier of the
    native coin. *)

(** [formatFloatAsString(f)]; the verb [%f] prints six decimal places. No
    result is modelled for a float whose integer part is outside the int64
    range, where the value of [int64(f)] is implementation-dependent. *)
Definition formatFloatAsString (f : float64) : option string :=
  i <- Float64.toInt64 f ;;
  numWholeNumberDigits <- getNumDigits i ;;
  if numWholeNumberDigits <? 15 then
    Some (Fmt.Sprintf_f (15 - numWholeNumberDigits) f)
  else Some (Fmt.Sprintf_f 6 f).

Section Routes.

Variable CalculateScaledExchangeRateFromString : string -> result Z.

(** [CalculateScaledExchangeRate] *)
Definition CalculateScaledExchangeRate
  (buyingCoinPublicKeyBase58CheckOrUsername
   sellingCoinPublicKeyBase58CheckOrUsername : string)
  (exchangeRateCoinsToSellPerCoinToBuy : float64) : option (result Z) :=
  str <- formatFloatAsString exchangeRateCoinsToSellPerCoinToBuy ;;
  rawScaledExchangeRate <-- Some (CalculateScaledExchangeRateFromString str) ;;
  if String.eqb buyingCoinPublicKeyBase58CheckOrUsername EmptyString then
    let '(product, overflow) :=
      U256.MulOverflow rawScaledExchangeRate
                       getDESOToDAOCoinBaseUnitsScalingFactor in
    if overflow then Some (Err Overflow) else Some (Ok product)
  else if String.eqb sellingCoinPublicKeyBase58CheckOrUsername EmptyString then
    let quotient :=
      U256.Div rawScaledExchangeRate getDESOToDAOCoinBaseUnitsScalingFactor in
    if U256.Eq quotient (U256.SetUint64 0) then Some (Err Underflow)
    else Some (Ok quotient)
  else Some (Ok rawScaledExchangeRate).

End Routes.

End Legacy.

(** ** A model of the decimal parser of the core library *)

(** Modelled from the spec: [lib.ScaleFloatFormatStringToUint256] and
    [lib.CalculateScaledExchangeRateFromString] are functions of the core
    library, outside this repository. The spec describes them as parsing a
    decimal string to its value multiplied by the scaling factor (10^38 for
    an exchange rate), truncated to an unsigned 256-bit integer, failing with
    [InvalidFormat] on a string that is not a decimal numeral and with
    [Overflow] beyond 256 bits. The routes are embedded over any such
    function; this model instantiates them on concrete inputs. *)
Module LibModel.

(** The value of a string of decimal digits, continuing from [acc]. *)
Fixpoint digitsValue (s : string) (acc : Z) : option Z :=
  match s with
  | EmptyString => Some acc
  | String c s' =>
      if Fmt.isDigit c
      then digitsValue s' (10 * acc + (Z.of_nat (nat_of_ascii c) - 48))
      else None
  end.

Definition ScaleFloatFormatStringToUint256 (floatStr : string) (scaleFactor : Z)
  : result Z :=
  let whole := Str.beforePoint floatStr in
  let frac := match Str.afterPoint floatStr with
              | Some t => t
              | None => EmptyString
              end in
  match whole with
  | EmptyString => Err InvalidFormat
  | _ =>
      match digitsValue whole 0, digitsValue frac 0 with
      | Some w, Some fr =>
          let shift := 10 ^ Fmt.len frac in
          let scaled := (w * shift + fr) * scaleFactor / shift in
          if U256.modulus <=? scaled then Err Overflow else Ok scaled
      | _, _ => Err InvalidFormat
      end
  end.

Definition CalculateScaledExchangeRateFromString (priceStr : string)
  : result Z :=
  ScaleFloatFormatStringToUint256 priceStr Lib.OneE38.

(** [strconv.ParseFloat] is not modelled: the concrete instances that need a
    parser of floats take one that accepts every string, its value playing no
    part in what is proved. *)
Definition acceptParseFloat (s : string) : result float64 :=
  Ok (Float64.Zero false).

End LibModel.

(** ** Vocabulary of the properties *)

(** The denomination adjustment that the write-path functions spell out
    after parsing, for a buying coin that is native ([buyingNative]) or a
    selling coin that is ([sellingNative]). *)
Definition adjusted (buyingNative sellingNative : bool) (r : Z) : result Z :=
  if buyingNative then
    if U256.modulus <=? r * 10 ^ 9 then Err Overflow else Ok (r * 10 ^ 9)
  else if sellingNative then
    if r / 10 ^ 9 =? 0 then Err Underflow else Ok (r / 10 ^ 9)
  else Ok r.

(** The padding that the spec asks of the formatter of scaled integers at [v]
    and [s]: the fractional string has one character less than [s] has
    digits. *)
Definition paddedToFactorWidth (v s : Z) : Prop :=
  exists d sd,
    formatScaledUint256AsDecimalString v s
    = Some (Fmt.Sprintf_d (v / s) ++ "." ++ d)%string /\
    getNumDigits s = Some sd /\
    Fmt.len d = sd - 1.

(** The responses of the orders that [build] turns into a response, in the
    order of [orders]. *)
Definition builtResponses {E R : Type} (build : E -> option (result R))
  (orders : list E) : list R :=
  flat_map (fun order => match build order with
                         | Some (Ok response) => [response]
                         | _ => []
                         end) orders.

(** The orders on which [build] returns an error, in the order of [orders]. *)
Definition failedOrders {E R : Type} (build : E -> option (result R))
  (orders : list E) : list E :=
  filter (fun order => match build order with
                       | Some (Err _) => true
                       | _ => false
                       end) orders.

(** The numeral that the deprecated float fields are parsed from: the whole
    part of [a / 10^k], a point, and the remainder written with [k] digits
    (one more when the remainder is zero). *)
Definition floatNumeral (a k : Z) : string :=
  (Fmt.Sprintf_d (a / 10 ^ k) ++ "."
   ++ Str.replicate (Z.to_nat (k - Fmt.len (Fmt.showPos (a mod 10 ^ k)))) "0"%char
   ++ Fmt.Sprintf_d (a mod 10 ^ k))%string.

(** The sum of a list of integers. *)
Definition sumZ (l : list Z) : Z := fold_right Z.add 0 l.

(** A sample chain state, for concrete instances of the balance check and of
    the handlers: public keys, their encodings and PKIDs are the same
    strings, the transactor holds [balance] base units of every coin and has
    the open orders [openOrders]; the selling quantity of an ASK is its
    quantity and that of a BID is [rate * quantity / 10^38]; the checked
    addition fails from [2^256] on. *)
Module Sample.

Definition PKID : Type := string.
Definition ZeroPKID : PKID := EmptyString.
Definition UtxoView : Type := unit.
Definition GetAugmentedUniversalView : result UtxoView := Ok tt.
Definition GetPubKeyBytesFromBase58Check (s : string) : result string := Ok s.
Definition GetPKIDForPublicKey (_ : UtxoView) (s : string) : PKID := s.
Definition GetPublicKeyForPKID (_ : UtxoView) (p : PKID) : string := p.
Definition Base58CheckEncode (s : string) : string := s.
Definition Base58CheckDecode (s : string) : result string := Ok s.

Definition ComputeBaseUnitsToSellUint256 (rate quantity : Z) : result Z :=
  Ok (rate * quantity / Lib.OneE38).

Definition BaseUnitsToSellUint256 (order : Current.DAOCoinLimitOrderEntry PKID)
  : result Z :=
  match Current.OperationType PKID order with
  | Lib.DAOCoinLimitOrderOperationTypeASK =>
      Ok (Current.QuantityToFillInBaseUnits PKID order)
  | Lib.DAOCoinLimitOrderOperationTypeBID =>
      ComputeBaseUnitsToSellUint256
        (Current.ScaledExchangeRateCoinsToSellPerCoinToBuy PKID order)
        (Current.QuantityToFillInBaseUnits PKID order)
  | Lib.DAOCoinLimitOrderOperationTypeOther _ => Err UnknownEnumValue
  end.

Definition SafeUint256Add (a b : Z) : result Z :=
  if a + b <? U256.modulus then Ok (a + b) else Err Overflow.

Section State.

Variable balance : Z.
Variable openOrders : list (Current.DAOCoinLimitOrderEntry PKID).

Definition GetDeSoBalanceNanosForPublicKey (_ : UtxoView) (_ : string)
  : result Z := Ok balance.
Definition GetBalanceEntryForHODLerPubKeyAndCreatorPubKey
  (_ : UtxoView) (_ _ : string) : option Z := Some balance.
Definition GetAllDAOCoinLimitOrdersForThisTransactor
  (_ : UtxoView) (_ : PKID)
  : result (list (Current.DAOCoinLimitOrderEntry PKID)) := Ok openOrders.

(** The balance check in this state. *)
Definition validate
  (transactor buying selling : string)
  (operationType : Current.DAOCoinLimitOrderOperationTypeString)
  (rate quantity : Z) : option Current.validationError :=
  Current.validateTransactorSellingCoinBalance PKID ZeroPKID String.eqb
    UtxoView GetAugmentedUniversalView GetPubKeyBytesFromBase58Check
    GetPKIDForPublicKey Base58CheckDecode GetDeSoBalanceNanosForPublicKey
    GetBalanceEntryForHODLerPubKeyAndCreatorPubKey
    GetAllDAOCoinLimitOrdersForThisTransactor ComputeBaseUnitsToSellUint256
    BaseUnitsToSellUint256 SafeUint256Add
    transactor buying selling operationType rate quantity.

End State.

End Sample.

(** * Part II: properties *)

(** ** math/big on a positive divisor *)

Module BigFacts.

Lemma ediv_pos x y : 0 < y -> Big.ediv x y = x / y.
Proof.
  intros Hy. unfold Big.ediv.
  rewrite Z.sgn_pos, Z.abs_eq by lia. lia.
Qed.

Lemma emod_pos x y : 0 < y -> Big.emod x y = x mod y.
Proof.
  intros Hy. unfold Big.emod. now rewrite Z.abs_eq by lia.
Qed.

Lemma Div_pos x y : 0 < y -> Big.Div x y = Some (x / y).
Proof.
  intros Hy. unfold Big.Div.
  destruct (Z.eqb_spec y 0); [lia|]. now rewrite ediv_pos.
Qed.

Lemma Mod_pos x y : 0 < y -> Big.Mod x y = Some (x mod y).
Proof.
  intros Hy. unfold Big.Mod.
  destruct (Z.eqb_spec y 0); [lia|]. now rewrite emod_pos.
Qed.

End BigFacts.

(** ** The loop of getNumDigits *)

Section GetNumDigits.

Lemma loop_step fuel q acc :
  getNumDigits_loop (S fuel) q acc =
  if q =? 0 then Some acc
  else getNumDigits_loop fuel (Big.ediv q 10) (acc + 1).
Proof. reflexivity. Qed.

(** On a negative value the loop never exits: the Euclidean quotient of a
    negative number by ten stays negative. *)
Lemma loop_negative fuel : forall q acc,
  q < 0 -> getNumDigits_loop fuel q acc = None.
Proof.
  induction fuel as [|fuel IH]; intros q acc Hq; simpl; [reflexivity|].
  destruct (Z.eqb_spec q 0); [lia|].
  apply IH. rewrite BigFacts.ediv_pos by lia.
  apply Z.div_lt_upper_bound; lia.
Qed.

Lemma digitCount_unique n d d' :
  isDigitCount n d -> isDigitCount n d' -> d = d'.
Proof.
  intros [[H0 ->]|(Hn & Hd & Hb)] [[H0' ->]|(Hn' & Hd' & Hb')]; try lia.
  destruct (Z.lt_trichotomy d d') as [L|[E|L]]; [exfalso|assumption|exfalso].
  - assert (10 ^ d <= 10 ^ (d' - 1)) by (apply Z.pow_le_mono_r; lia). lia.
  - assert (10 ^ d' <= 10 ^ (d - 1)) by (apply Z.pow_le_mono_r; lia). lia.
Qed.

Lemma digitCount_nonneg n d : isDigitCount n d -> 0 <= n /\ 0 <= d.
Proof. intros [[-> ->]|(Hn & Hd & _)]; lia. Qed.

Lemma digitCount_step n d :
  0 < n -> isDigitCount (n / 10) d -> isDigitCount n (d + 1).
Proof.
  intros Hn H. right.
  pose proof (Z.div_mod n 10 ltac:(lia)) as Hdm.
  pose proof (Z.mod_pos_bound n 10 ltac:(lia)) as Hmb.
  destruct H as [[H0 ->]|(Hq & Hd & Hb)].
  - change (10 ^ (0 + 1 - 1)) with 1. change (10 ^ (0 + 1)) with 10. lia.
  - replace (d + 1 - 1) with d by lia.
    replace (10 ^ (d + 1)) with (10 * 10 ^ d)
      by (rewrite <- Z.pow_succ_r by lia; f_equal; lia).
    assert (10 ^ d = 10 * 10 ^ (d - 1)) as Hpw
      by (rewrite <- Z.pow_succ_r by lia; f_equal; lia).
    lia.
Qed.

Lemma digitCount_pow10 k : 0 <= k -> isDigitCount (10 ^ k) (k + 1).
Proof.
  intros Hk. right. replace (k + 1 - 1) with k by lia.
  split; [apply Z.pow_pos_nonneg; lia|]. split; [lia|]. split; [lia|].
  apply Z.pow_lt_mono_r; lia.
Qed.

Lemma digitCount_below n d k :
  isDigitCount n d -> 0 <= k -> n < 10 ^ k -> d <= k.
Proof.
  intros [[-> ->]|(Hn & Hd & Hb)] Hk Hlt; [lia|].
  destruct (Z.le_gt_cases d k) as [|L]; [assumption|exfalso].
  assert (10 ^ k <= 10 ^ (d - 1)) by (apply Z.pow_le_mono_r; lia). lia.
Qed.

(** With [k+1] evaluations of the condition the loop exits on every value
    below [10^k], having counted its digits. *)
Lemma loop_bounded k : forall q acc,
  0 <= q < 10 ^ Z.of_nat k ->
  exists d, getNumDigits_loop (S k) q acc = Some (acc + d) /\
            isDigitCount q d.
Proof.
  induction k as [|k IH]; intros q acc Hq.
  - change (10 ^ Z.of_nat 0) with 1 in Hq. assert (q = 0) as -> by lia.
    exists 0. simpl. split; [f_equal; lia|now left].
  - rewrite loop_step. destruct (Z.eqb_spec q 0) as [->|Hne].
    + exists 0. split; [f_equal; lia|now left].
    + rewrite Nat2Z.inj_succ, Z.pow_succ_r in Hq by lia.
      rewrite BigFacts.ediv_pos by lia.
      destruct (IH (q / 10) (acc + 1)) as (d & Hd & Hc).
      { split; [apply Z.div_pos; lia|apply Z.div_lt_upper_bound; lia]. }
      exists (d + 1). rewrite Hd. split; [f_equal; lia|].
      apply digitCount_step; [lia|assumption].
Qed.

Lemma below_pow10_log2 q : 0 <= q -> q < 10 ^ (Z.log2 q + 1).
Proof.
  intros Hq. destruct (Z.eq_dec q 0) as [->|Hne]; [reflexivity|].
  pose proof (Z.log2_nonneg q).
  apply Z.lt_le_trans with (2 ^ (Z.log2 q + 1)).
  - replace (Z.log2 q + 1) with (Z.succ (Z.log2 q)) by lia.
    apply Z.log2_spec; lia.
  - apply Z.pow_le_mono_l; lia.
Qed.

(** [getNumDigits] returns on every non-negative value. *)
Lemma getNumDigits_nonneg q :
  0 <= q -> exists d, getNumDigits q = Some d /\ isDigitCount q d.
Proof.
  intros Hq. unfold getNumDigits, getNumDigits_fuel.
  rewrite Z.abs_eq by lia.
  destruct (loop_bounded (S (Z.to_nat (Z.log2 q))) q 0) as (d & Hd & Hc).
  - split; [lia|]. rewrite Nat2Z.inj_succ, Z2Nat.id by apply Z.log2_nonneg.
    now apply below_pow10_log2.
  - exists d. now rewrite Hd.
Qed.

Lemma getNumDigits_negative q : q < 0 -> getNumDigits q = None.
Proof. intros. now apply loop_negative. Qed.

Lemma getNumDigits_count q d :
  getNumDigits q = Some d <-> isDigitCount q d.
Proof.
  split.
  - intros H. destruct (Z.lt_ge_cases q 0) as [Hq|Hq].
    + rewrite getNumDigits_negative in H by assumption. discriminate.
    + destruct (getNumDigits_nonneg q Hq) as (d' & Hd' & Hc).
      rewrite Hd' in H. now injection H as <-.
  - intros Hc. destruct (digitCount_nonneg _ _ Hc) as [Hq _].
    destruct (getNumDigits_nonneg q Hq) as (d' & Hd' & Hc').
    rewrite Hd'. f_equal. eapply digitCount_unique; eassumption.
Qed.

Lemma getNumDigits_pow10 k : 0 <= k -> getNumDigits (10 ^ k) = Some (k + 1).
Proof. intros Hk. now apply getNumDigits_count, digitCount_pow10. Qed.

End GetNumDigits.

(** ** Strings *)

Module StrFacts.

Lemma length_append (s t : string) :
  String.length (s ++ t) = (String.length s + String.length t)%nat.
Proof. induction s as [|c s IH]; simpl; [reflexivity|now rewrite IH]. Qed.

Lemma append_assoc (s t u : string) : (s ++ t) ++ u = s ++ (t ++ u).
Proof. induction s as [|c s IH]; simpl; [reflexivity|now rewrite IH]. Qed.

Lemma append_nil_r (s : string) : s ++ EmptyString = s.
Proof. induction s as [|c s IH]; simpl; [reflexivity|now rewrite IH]. Qed.

Lemma all_append p s t : Str.all p (s ++ t) = Str.all p s && Str.all p t.
Proof.
  induction s as [|c s IH]; simpl; [reflexivity|].
  now rewrite IH, andb_assoc.
Qed.

Lemma length_replicate n c : String.length (Str.replicate n c) = n.
Proof. induction n as [|n IH]; simpl; [reflexivity|now rewrite IH]. Qed.

Lemma replicate_snoc n c : Str.replicate (S n) c = Str.replicate n c ++ String c EmptyString.
Proof. induction n as [|n IH]; [reflexivity|]. simpl in *. now rewrite <- IH. Qed.

End StrFacts.

(** ** Decimal notation *)

Module FmtFacts.

Lemma showDigits_S fuel n acc :
  Fmt.showDigits (S fuel) n acc =
  if n <=? 0 then acc
  else Fmt.showDigits fuel (n / 10) (String (Fmt.digitChar (n mod 10)) acc).
Proof. reflexivity. Qed.

Lemma showDigits_acc fuel : forall n acc,
  Fmt.showDigits fuel n acc = Fmt.showDigits fuel n EmptyString ++ acc.
Proof.
  induction fuel as [|fuel IH]; intros n acc; simpl; [reflexivity|].
  destruct (n <=? 0); [reflexivity|].
  rewrite IH, (IH _ (String _ EmptyString)), StrFacts.append_assoc. reflexivity.
Qed.

Lemma showDigits_fuel k1 : forall k2 n acc,
  n < 10 ^ Z.of_nat k1 -> n < 10 ^ Z.of_nat k2 ->
  Fmt.showDigits k1 n acc = Fmt.showDigits k2 n acc.
Proof.
  induction k1 as [|k1 IH]; intros [|k2] n acc H1 H2; simpl Fmt.showDigits;
    try reflexivity.
  - change (10 ^ Z.of_nat 0) with 1 in H1.
    destruct (Z.leb_spec n 0); [reflexivity|lia].
  - change (10 ^ Z.of_nat 0) with 1 in H2.
    destruct (Z.leb_spec n 0); [reflexivity|lia].
  - destruct (Z.leb_spec n 0); [reflexivity|].
    rewrite Nat2Z.inj_succ, Z.pow_succ_r in H1, H2 by lia.
    apply IH; apply Z.div_lt_upper_bound; lia.
Qed.

Lemma showPos_fuel k n :
  n < 10 ^ Z.of_nat k -> Fmt.showPos n = Fmt.showDigits k n EmptyString.
Proof.
  intros H. unfold Fmt.showPos. apply showDigits_fuel; [|assumption].
  destruct (Z.le_gt_cases n 0) as [Hn|Hn].
  - apply Z.le_lt_trans with 0; [assumption|]. apply Z.pow_pos_nonneg; lia.
  - rewrite Nat2Z.inj_succ, Z2Nat.id by apply Z.log2_nonneg.
    apply below_pow10_log2. lia.
Qed.

Lemma showPos_nonpos n : n <= 0 -> Fmt.showPos n = EmptyString.
Proof.
  intros H. unfold Fmt.showPos. simpl.
  destruct (Z.leb_spec n 0); [reflexivity|lia].
Qed.

(** The recursion equation of decimal notation. *)
Lemma showPos_step n :
  0 < n -> Fmt.showPos n = Fmt.showPos (n / 10) ++ String (Fmt.digitChar (n mod 10)) EmptyString.
Proof.
  intros Hn.
  set (k := S (Z.to_nat (Z.log2 n))).
  assert (n < 10 ^ Z.of_nat k) as Hk.
  { unfold k. rewrite Nat2Z.inj_succ, Z2Nat.id by apply Z.log2_nonneg.
    apply below_pow10_log2. lia. }
  clearbody k. rewrite (showPos_fuel (S k) n).
  - rewrite showDigits_S. destruct (Z.leb_spec n 0); [lia|].
    rewrite showDigits_acc. f_equal. symmetry. apply showPos_fuel.
    apply Z.div_lt_upper_bound; [lia|].
    assert (0 < 10 ^ Z.of_nat k) by (apply Z.pow_pos_nonneg; lia). lia.
  - rewrite Nat2Z.inj_succ, Z.pow_succ_r by lia.
    assert (0 < 10 ^ Z.of_nat k) by (apply Z.pow_pos_nonneg; lia). lia.
Qed.

(** Induction over the decimal notation of a non-negative number. *)
Lemma decimal_ind (P : Z -> Prop) :
  P 0 -> (forall n, 0 < n -> P (n / 10) -> P n) ->
  forall n, 0 <= n -> P n.
Proof.
  intros H0 Hstep n Hn.
  cut (0 <= n -> P n); [intros H; exact (H Hn)|].
  pattern n. apply Z_lt_induction; [clear n Hn|exact Hn].
  intros n IH Hn.
  destruct (Z.eq_dec n 0) as [->|Hne]; [exact H0|].
  assert (0 <= n / 10 < n) as Hq
    by (split; [apply Z.div_pos; lia|apply Z.div_lt_upper_bound; lia]).
  apply Hstep; [lia|]. apply IH; [exact Hq|lia].
Qed.

Lemma digitChar_isDigit d : 0 <= d < 10 -> Fmt.isDigit (Fmt.digitChar d) = true.
Proof.
  intros H. unfold Fmt.isDigit, Fmt.digitChar.
  rewrite nat_ascii_embedding by lia. cbv zeta.
  apply andb_true_intro. split; apply Z.leb_le; lia.
Qed.

Lemma len_append s t : Fmt.len (s ++ t) = Fmt.len s + Fmt.len t.
Proof. unfold Fmt.len. rewrite StrFacts.length_append. lia. Qed.

Lemma len_nonneg s : 0 <= Fmt.len s.
Proof. unfold Fmt.len. lia. Qed.

(** [Fmt.showPos] writes exactly the digits that [getNumDigits] counts. *)
Lemma showPos_count n : 0 <= n -> isDigitCount n (Fmt.len (Fmt.showPos n)).
Proof.
  revert n. apply decimal_ind.
  - now left.
  - intros n Hn IH. rewrite showPos_step, len_append by assumption.
    now apply digitCount_step.
Qed.

Lemma showPos_digits n : Str.all Fmt.isDigit (Fmt.showPos n) = true.
Proof.
  destruct (Z.le_gt_cases n 0) as [Hn|Hn].
  - now rewrite showPos_nonpos.
  - assert (0 <= n) as H by lia. revert n H Hn. 
    apply (decimal_ind (fun n => 0 < n -> Str.all Fmt.isDigit (Fmt.showPos n) = true)).
    + lia.
    + intros n Hn IH _. rewrite showPos_step, StrFacts.all_append by assumption.
      cbn [Str.all]. rewrite digitChar_isDigit by (apply Z.mod_pos_bound; lia).
      destruct (Z.eq_dec (n / 10) 0) as [E|E].
      * rewrite E. reflexivity.
      * assert (0 <= n / 10) by (apply Z.div_pos; lia).
        rewrite IH by lia. reflexivity.
Qed.

Lemma len_Sprintf_d n d :
  0 < n -> getNumDigits n = Some d -> Fmt.len (Fmt.Sprintf_d n) = d.
Proof.
  intros Hn Hd. unfold Fmt.Sprintf_d.
  destruct (Z.eqb_spec n 0); [lia|]. destruct (Z.ltb_spec n 0); [lia|].
  apply getNumDigits_count in Hd.
  eapply digitCount_unique; [apply showPos_count; lia|exact Hd].
Qed.

(** Appending a zero digit multiplies by ten. *)
Lemma showPos_mul_pow10 (k : nat) q :
  0 < q ->
  Fmt.showPos (q * 10 ^ Z.of_nat k) = Fmt.showPos q ++ Str.replicate k "0"%char.
Proof.
  intros Hq. induction k as [|k IH].
  - simpl. now rewrite Z.mul_1_r, StrFacts.append_nil_r.
  - rewrite Nat2Z.inj_succ, Z.pow_succ_r by lia.
    assert (0 < 10 ^ Z.of_nat k) by (apply Z.pow_pos_nonneg; lia).
    rewrite showPos_step by lia.
    replace (q * (10 * 10 ^ Z.of_nat k)) with (q * 10 ^ Z.of_nat k * 10) by lia.
    rewrite Z.div_mul, Z.mod_mul, IH by lia.
    now rewrite StrFacts.replicate_snoc, StrFacts.append_assoc.
Qed.

(** Dividing by [10^k] drops the last [k] digits. *)
Lemma showPos_div_pow10 (k : nat) : forall n,
  10 ^ Z.of_nat k <= n ->
  exists lo, Fmt.showPos n = Fmt.showPos (n / 10 ^ Z.of_nat k) ++ lo /\
             String.length lo = k.
Proof.
  induction k as [|k IH]; intros n Hn.
  - exists EmptyString. now rewrite Z.div_1_r, StrFacts.append_nil_r.
  - rewrite Nat2Z.inj_succ, Z.pow_succ_r in * by lia.
    assert (0 < 10 ^ Z.of_nat k) by (apply Z.pow_pos_nonneg; lia).
    destruct (IH (n / 10)) as (lo & Hlo & Hlen).
    { apply Z.div_le_lower_bound; lia. }
    exists (lo ++ String (Fmt.digitChar (n mod 10)) EmptyString).
    rewrite showPos_step, Hlo, Z.div_div, StrFacts.append_assoc by lia.
    split; [reflexivity|]. rewrite StrFacts.length_append, Hlen.
    cbn [String.length]. lia.
Qed.

End FmtFacts.

(** ** formatScaledUint256AsDecimalString *)

Section FormatScaled.

Lemma zero_test_Uint64 x :
  0 <= x -> Big.IsUint64 x && (Big.Uint64 x =? 0) = (x =? 0).
Proof.
  intros Hx. unfold Big.IsUint64, Big.Uint64. rewrite Z.abs_eq by assumption.
  destruct (Z.leb_spec 0 x); [|lia]. destruct (Z.ltb_spec x (2 ^ 64)); simpl.
  - now rewrite Z.mod_small by lia.
  - symmetry. apply Z.eqb_neq. lia.
Qed.

Lemma Repeat0_nonneg c :
  0 <= c -> Fmt.Repeat0 c = Some (Str.replicate (Z.to_nat c) "0"%char).
Proof. intros H. unfold Fmt.Repeat0. destruct (Z.ltb_spec c 0); [lia|easy]. Qed.

Lemma len_replicate n c : Fmt.len (Str.replicate n c) = Z.of_nat n.
Proof. unfold Fmt.len. now rewrite StrFacts.length_replicate. Qed.

(** The remainder never has more digits than the scaling factor. *)
Lemma remainder_digits v s sd :
  0 < s -> getNumDigits s = Some sd -> v mod s <> 0 ->
  0 < Fmt.len (Fmt.Sprintf_d (v mod s)) <= sd.
Proof.
  intros Hs Hsd Hne.
  pose proof (Z.mod_pos_bound v s Hs) as Hb.
  destruct (getNumDigits_nonneg (v mod s) ltac:(lia)) as (d & Hd & Hc).
  rewrite (FmtFacts.len_Sprintf_d _ d) by (assumption || lia).
  apply getNumDigits_count in Hsd.
  destruct Hc as [[? ?]|(_ & Hdpos & Hdec)]; [lia|]. split; [assumption|].
  destruct Hsd as [[? ?]|(_ & Hsdpos & Hsdec)]; [lia|].
  destruct (Z.le_gt_cases d sd) as [|L]; [assumption|exfalso].
  assert (10 ^ sd <= 10 ^ (d - 1)) by (apply Z.pow_le_mono_r; lia). lia.
Qed.

(** Below a power of ten the remainder has fewer digits than the factor. *)
Lemma remainder_digits_pow10 v k :
  0 <= k -> v mod 10 ^ k <> 0 ->
  Fmt.len (Fmt.Sprintf_d (v mod 10 ^ k)) < k + 1.
Proof.
  intros Hk Hne.
  assert (0 < 10 ^ k) as Hs by (apply Z.pow_pos_nonneg; lia).
  pose proof (Z.mod_pos_bound v _ Hs) as Hb.
  destruct (getNumDigits_nonneg (v mod 10 ^ k) ltac:(lia)) as (d & Hd & Hc).
  rewrite (FmtFacts.len_Sprintf_d _ d) by (assumption || lia).
  pose proof (digitCount_below _ _ k Hc Hk ltac:(lia)). lia.
Qed.

Lemma formatScaled_unfold v s sd :
  0 < s -> getNumDigits s = Some sd ->
  formatScaledUint256AsDecimalString v s =
  let d := Fmt.Sprintf_d (v mod s) in
  if negb (v mod s =? 0) && negb (Fmt.len d =? sd)
  then Some (Fmt.Sprintf_d (v / s) ++ "." ++
             Str.replicate (Z.to_nat (sd - Fmt.len d - 1)) "0"%char ++ d)%string
  else Some (Fmt.Sprintf_d (v / s) ++ "." ++ d)%string.
Proof.
  intros Hs Hsd. unfold formatScaledUint256AsDecimalString.
  rewrite BigFacts.Div_pos, BigFacts.Mod_pos, Hsd by assumption. cbn [obind].
  pose proof (Z.mod_pos_bound v s Hs) as Hb.
  rewrite zero_test_Uint64 by lia. cbv zeta.
  destruct (Z.eqb_spec (v mod s) 0) as [E|E]; cbn [negb andb]; [reflexivity|].
  destruct (Z.eqb_spec (Fmt.len (Fmt.Sprintf_d (v mod s))) sd) as [L|L];
    cbn [negb]; [reflexivity|].
  pose proof (remainder_digits v s sd Hs Hsd E).
  rewrite Repeat0_nonneg by lia. reflexivity.
Qed.

End FormatScaled.

(** ** Claims on digit counting and on the formatter of scaled integers *)

Lemma getNumDigits_returns n :
  0 <= n -> exists d, getNumDigits n = Some d /\ 0 <= d.
Proof.
  intros Hn. destruct (getNumDigits_nonneg n Hn) as (d & Hd & Hc).
  exists d. split; [assumption|]. now destruct (digitCount_nonneg _ _ Hc).
Qed.

Lemma formatScaled_returns v s :
  0 < s -> exists str, formatScaledUint256AsDecimalString v s = Some str.
Proof.
  intros Hs. destruct (getNumDigits_returns s ltac:(lia)) as (sd & Hsd & _).
  rewrite (formatScaled_unfold v s sd Hs Hsd). cbv zeta.
  destruct (_ && _); eauto.
Qed.

(** C9. For every non-negative integer [n], [getNumDigits n] returns the
    number of decimal digits of [n]: [0] for [n = 0] and, for [n > 0], the
    [d] with [10^(d-1) <= n < 10^d], which is also the length of the decimal
    numeral of [n]. In particular it returns 0 on 0, 3 on 999 and 4 on 1000. *)
Theorem getNumDigits_counts_decimal_digits :
  (forall n, 0 <= n ->
     exists d, getNumDigits n = Some d /\
               (n = 0 -> d = 0) /\
               (0 < n -> 0 < d /\ 10 ^ (d - 1) <= n < 10 ^ d /\
                         Fmt.len (Fmt.Sprintf_d n) = d)) /\
  getNumDigits 0 = Some 0 /\
  getNumDigits 999 = Some 3 /\
  getNumDigits 1000 = Some 4.
Proof.
  split; [|repeat split; reflexivity].
  intros n Hn. destruct (getNumDigits_nonneg n Hn) as (d & Hd & Hc).
  exists d. split; [assumption|]. split.
  - intros ->. destruct Hc as [[_ ?]|(? & _)]; [assumption|lia].
  - intros Hpos. destruct Hc as [[? _]|(_ & Hdpos & Hdec)]; [lia|].
    repeat split; try lia. now apply FmtFacts.len_Sprintf_d.
Qed.

Lemma getNumDigits_counts_decimal_digits_witness :
  exists d, getNumDigits 12345 = Some d /\
            (12345 = 0 -> d = 0) /\
            (0 < 12345 -> 0 < d /\ 10 ^ (d - 1) <= 12345 < 10 ^ d /\
                          Fmt.len (Fmt.Sprintf_d 12345) = d).
Proof.
  destruct getNumDigits_counts_decimal_digits as [H _].
  apply (H 12345). lia.
Defined.

(** C5, as stated, fails when the scaling factor is not a power of ten: with
    [v = 12] and [s = 15] the remainder [12] has as many digits as [s], the
    formatter leaves it unpadded and returns "0.12", whose fractional part
    has two characters and not [digits(15) - 1 = 1]. *)
Lemma formatScaled_counterexample :
  0 <= 12 /\ 0 < 15 /\ 12 mod 15 <> 0 /\
  formatScaledUint256AsDecimalString 12 15 = Some "0.12" /\
  ~ paddedToFactorWidth 12 15.
Proof.
  split; [lia|]. split; [lia|]. split; [discriminate|].
  split; [reflexivity|].
  intros (d & sd & Hf & Hsd & Hlen).
  change (getNumDigits 15) with (Some 2) in Hsd. injection Hsd as <-.
  change (formatScaledUint256AsDecimalString 12 15) with (Some "0.12") in Hf.
  change (Fmt.Sprintf_d (12 / 15)) with "0" in Hf.
  injection Hf as Hf. subst d. discriminate Hlen.
Qed.

(** The shape of the formatter's result, by cases on the remainder. *)
Lemma formatScaled_padded (v s : Z) :
  0 <= v -> 0 < s ->
  exists sd d,
    getNumDigits s = Some sd /\
    formatScaledUint256AsDecimalString v s
    = Some (Fmt.Sprintf_d (v / s) ++ "." ++ d)%string /\
    (v mod s = 0 -> d = "0"%string) /\
    (v mod s <> 0 -> Fmt.len (Fmt.Sprintf_d (v mod s)) < sd ->
       exists zeros,
         d = (zeros ++ Fmt.Sprintf_d (v mod s))%string /\
         Str.all (Ascii.eqb "0"%char) zeros = true /\
         Fmt.len d = sd - 1) /\
    (v mod s <> 0 -> ~ Fmt.len (Fmt.Sprintf_d (v mod s)) < sd ->
       d = Fmt.Sprintf_d (v mod s) /\ Fmt.len d = sd).
Proof.
  intros Hv Hs. destruct (getNumDigits_returns s ltac:(lia)) as (sd & Hsd & Hsd0).
  exists sd. rewrite (formatScaled_unfold v s sd Hs Hsd). cbv zeta.
  destruct (Z.eqb_spec (v mod s) 0) as [E|E]; cbn [negb andb].
  - exists (Fmt.Sprintf_d (v mod s)). split; [assumption|].
    split; [reflexivity|]. rewrite E.
    split; [reflexivity|]. split; intros Hne; now elim Hne.
  - pose proof (remainder_digits v s sd Hs Hsd E) as Hlen.
    destruct (Z.eqb_spec (Fmt.len (Fmt.Sprintf_d (v mod s))) sd) as [L|L];
      cbn [negb].
    + exists (Fmt.Sprintf_d (v mod s)). split; [assumption|].
      split; [reflexivity|]. split; [intros E0; now elim E|].
      split; [intros _ Hlt; lia|]. intros _ _. split; [reflexivity|assumption].
    + exists (Str.replicate
                (Z.to_nat (sd - Fmt.len (Fmt.Sprintf_d (v mod s)) - 1)) "0"%char
              ++ Fmt.Sprintf_d (v mod s))%string.
      split; [assumption|]. split; [reflexivity|].
      split; [intros E0; now elim E|]. split; [|intros _ Hge; lia].
      intros _ Hlt.
      exists (Str.replicate
                (Z.to_nat (sd - Fmt.len (Fmt.Sprintf_d (v mod s)) - 1)) "0"%char).
      split; [reflexivity|]. split.
      * generalize (Z.to_nat (sd - Fmt.len (Fmt.Sprintf_d (v mod s)) - 1)).
        intros n. induction n as [|n IH]; [reflexivity|exact IH].
      * rewrite FmtFacts.len_append, len_replicate. lia.
Qed.

(** C5 (amended). For every non-negative integer [v] and every positive
    scaling factor [s], the formatter returns ["<v/s>.<d>"], where [d] is "0"
    when the remainder [v mod s] is zero; when the remainder is not zero and
    has fewer decimal digits than [s], [d] is the remainder left-padded with
    zeros to [digits(s) - 1] characters; and when the remainder has as many
    digits as [s] (the case the formatter guards, which a power of ten as
    [s] excludes), [d] is the remainder without padding, of [digits(s)]
    characters. *)
Theorem formatScaled_padding (v s : Z) :
  0 <= v -> 0 < s ->
  exists sd d,
    getNumDigits s = Some sd /\
    formatScaledUint256AsDecimalString v s
    = Some (Fmt.Sprintf_d (v / s) ++ "." ++ d)%string /\
    (v mod s = 0 -> d = "0"%string) /\
    (v mod s <> 0 -> Fmt.len (Fmt.Sprintf_d (v mod s)) < sd ->
       exists zeros,
         d = (zeros ++ Fmt.Sprintf_d (v mod s))%string /\
         Str.all (Ascii.eqb "0"%char) zeros = true /\
         Fmt.len d = sd - 1) /\
    (v mod s <> 0 -> ~ Fmt.len (Fmt.Sprintf_d (v mod s)) < sd ->
       d = Fmt.Sprintf_d (v mod s) /\ Fmt.len d = sd).
Proof. apply formatScaled_padded. Qed.

Lemma formatScaled_padding_witness :
  exists sd d,
    getNumDigits 1000 = Some sd /\
    formatScaledUint256AsDecimalString 1005 1000
    = Some (Fmt.Sprintf_d (1005 / 1000) ++ "." ++ d)%string /\
    (1005 mod 1000 = 0 -> d = "0"%string) /\
    (1005 mod 1000 <> 0 -> Fmt.len (Fmt.Sprintf_d (1005 mod 1000)) < sd ->
       exists zeros,
         d = (zeros ++ Fmt.Sprintf_d (1005 mod 1000))%string /\
         Str.all (Ascii.eqb "0"%char) zeros = true /\
         Fmt.len d = sd - 1) /\
    (1005 mod 1000 <> 0 -> ~ Fmt.len (Fmt.Sprintf_d (1005 mod 1000)) < sd ->
       d = Fmt.Sprintf_d (1005 mod 1000) /\ Fmt.len d = sd).
Proof. apply (formatScaled_padding 1005 1000); lia. Defined.

(** With a power of ten as scaling factor (the factors 10^9, 10^18 and 10^38
    that the routes pass) a non-zero remainder always has fewer digits than
    the factor, so the fractional part always has as many characters as the
    factor has zeros. *)
Lemma formatScaled_pow10 (v k : Z) :
  0 <= v -> 0 <= k -> v mod 10 ^ k <> 0 ->
  exists d,
    formatScaledUint256AsDecimalString v (10 ^ k)
    = Some (Fmt.Sprintf_d (v / 10 ^ k) ++ "." ++ d)%string /\
    Fmt.len d = k.
Proof.
  intros Hv Hk Hne.
  assert (0 < 10 ^ k) as Hs by (apply Z.pow_pos_nonneg; lia).
  destruct (formatScaled_padded v (10 ^ k) Hv Hs)
    as (sd & d & Hsd & Hf & _ & Hpad & _).
  rewrite getNumDigits_pow10 in Hsd by assumption. injection Hsd as <-.
  destruct (Hpad Hne) as (zeros & _ & _ & Hlen).
  - now apply remainder_digits_pow10.
  - exists d. split; [assumption|lia].
Qed.

Example formatScaled_doc_example :
  formatScaledUint256AsDecimalString 12345 100 = Some "123.45".
Proof. reflexivity. Qed.

Example formatScaled_leading_zeros :
  formatScaledUint256AsDecimalString (7 * Lib.OneE38 + 5) Lib.OneE38
  = Some "7.00000000000000000000000000000000000005".
Proof. vm_compute. reflexivity. Qed.

Example formatScaled_zero_fraction :
  formatScaledUint256AsDecimalString 3000000000 Lib.NanosPerUnit = Some "3.0".
Proof. vm_compute. reflexivity. Qed.

(** ** Claims on the side of the quantity and on the read-path price *)

(** C4. For every pair of coin identifiers and every operation type, the
    quantity to fill is denominated in the native coin if and only if the
    buying coin is the native sentinel and the operation is a BID, or the
    selling coin is the native sentinel and the operation is an ASK; the
    quantity entered is scaled by 10^9 exactly in those cases and by 10^18
    otherwise; selling the native coin in an ASK, the quantity "2.5" yields
    2500000000 base units. *)
Theorem quantity_side_and_scaling :
  (forall buying selling op,
     Current.isCoinToFillDESO buying selling op = true <->
     (buying = Current.DESOCoinIdentifierString /\
      op = Current.DAOCoinLimitOrderOperationTypeStringBID) \/
     (selling = Current.DESOCoinIdentifierString /\
      op = Current.DAOCoinLimitOrderOperationTypeStringASK)) /\
  (forall scale buying selling op quantity,
     Current.CalculateQuantityToFillAsBaseUnits scale buying selling op quantity
     = scale quantity
         (if Current.isCoinToFillDESO buying selling op
          then 10 ^ 9 else 10 ^ 18)) /\
  (forall buying,
     Current.CalculateQuantityToFillAsBaseUnits
       LibModel.ScaleFloatFormatStringToUint256
       buying Current.DESOCoinIdentifierString
       Current.DAOCoinLimitOrderOperationTypeStringASK "2.5"
     = Ok 2500000000).
Proof.
  split; [|split].
  - intros buying selling op. unfold Current.isCoinToFillDESO.
    rewrite orb_true_iff, !andb_true_iff, !String.eqb_eq. reflexivity.
  - intros scale buying selling op quantity.
    unfold Current.CalculateQuantityToFillAsBaseUnits.
    destruct (Current.isCoinToFillDESO buying selling op); reflexivity.
  - intros buying. unfold Current.CalculateQuantityToFillAsBaseUnits.
    replace (Current.isCoinToFillDESO buying Current.DESOCoinIdentifierString
               Current.DAOCoinLimitOrderOperationTypeStringASK) with true.
    + vm_compute. reflexivity.
    + unfold Current.isCoinToFillDESO.
      rewrite !String.eqb_refl, andb_true_r, orb_true_r. reflexivity.
Qed.

Lemma price_string_returns buying selling scaledValue op :
  exists str,
    Current.CalculateStringPriceFromScaledExchangeRate
      buying selling scaledValue op = Some (Ok str).
Proof.
  unfold Current.CalculateStringPriceFromScaledExchangeRate, U256.ToBig.
  assert (forall v, exists str,
            (str <- formatScaledUint256AsDecimalString v Lib.OneE38 ;;
             Some (Ok str)) = Some (Ok str)) as H.
  { intros v. destruct (formatScaled_returns v Lib.OneE38) as (str & ->);
      [reflexivity|]. now exists str. }
  destruct (String.eqb buying _).
  - rewrite BigFacts.Div_pos by reflexivity. apply H.
  - destruct (String.eqb selling _); apply H.
Qed.

(** C10. For every scaled exchange rate and every pair of coin identifiers,
    the read-path price formatter returns the same string whatever the
    operation type it is given: the displayed price is never inverted for an
    ASK. *)
Theorem price_string_ignores_operation_type :
  forall buying selling scaledValue op1 op2,
    Current.CalculateStringPriceFromScaledExchangeRate
      buying selling scaledValue op1
    = Current.CalculateStringPriceFromScaledExchangeRate
        buying selling scaledValue op2 /\
    exists str,
      Current.CalculateStringPriceFromScaledExchangeRate
        buying selling scaledValue op1 = Some (Ok str).
Proof.
  intros buying selling scaledValue op1 op2.
  split; [reflexivity|apply price_string_returns].
Qed.

(** ** The write path: from a price to a scaled exchange rate *)

Section WritePath.

Variable parse : string -> result Z.

Lemma scalingFactor_value :
  Current.getDESOToDAOCoinBaseUnitsScalingFactor = 10 ^ 9.
Proof. reflexivity. Qed.

Lemma legacy_scalingFactor_value :
  Legacy.getDESOToDAOCoinBaseUnitsScalingFactor = 10 ^ 9.
Proof. reflexivity. Qed.

Lemma MulOverflow_factor r :
  0 <= r ->
  (let '(product, overflow) := U256.MulOverflow r (10 ^ 9) in
   if overflow then Some (Err Overflow) else Some (Ok product))
  = Some (if U256.modulus <=? r * 10 ^ 9 then Err Overflow
          else Ok (r * 10 ^ 9)).
Proof.
  intros Hr. unfold U256.MulOverflow.
  destruct (Z.leb_spec U256.modulus (r * 10 ^ 9)); [reflexivity|].
  rewrite Z.mod_small by lia. reflexivity.
Qed.

Lemma Div_factor r : U256.Div r (10 ^ 9) = r / 10 ^ 9.
Proof. reflexivity. Qed.

(** The float write path, once the float is formatted and parsed to [r]. *)
Lemma fromFloat_parsed buying selling f str r :
  Current.formatFloatAsString f = Some str -> parse str = Ok r -> 0 <= r ->
  Current.CalculateScaledExchangeRateFromFloat parse buying selling f
  = Some (if r =? 0 then Err Underflow
          else adjusted (String.eqb buying "DESO")
                        (String.eqb selling "DESO") r).
Proof.
  intros Hf Hp Hr. unfold Current.CalculateScaledExchangeRateFromFloat.
  rewrite Hf. cbn [obind]. rewrite Hp. cbn [rbind].
  unfold U256.IsZero, adjusted, Current.DESOCoinIdentifierString.
  rewrite scalingFactor_value, Div_factor.
  destruct (r =? 0); [reflexivity|].
  destruct (String.eqb buying "DESO"); [now apply MulOverflow_factor|].
  destruct (String.eqb selling "DESO"); [|reflexivity].
  destruct (r / 10 ^ 9 =? 0); reflexivity.
Qed.

(** The same for the earlier revision, which has no guard on a zero rate and
    takes the empty string as the sentinel of the native coin. *)
Lemma legacy_parsed buying selling f str r :
  Legacy.formatFloatAsString f = Some str -> parse str = Ok r -> 0 <= r ->
  Legacy.CalculateScaledExchangeRate parse buying selling f
  = Some (adjusted (String.eqb buying EmptyString) (String.eqb selling EmptyString) r).
Proof.
  intros Hf Hp Hr. unfold Legacy.CalculateScaledExchangeRate.
  rewrite Hf. cbn [obind]. rewrite Hp. cbn [rbind].
  unfold adjusted. rewrite legacy_scalingFactor_value, Div_factor.
  destruct (String.eqb buying EmptyString); [now apply MulOverflow_factor|].
  destruct (String.eqb selling EmptyString); [|reflexivity].
  unfold U256.Eq. change (U256.SetUint64 0) with 0.
  destruct (r / 10 ^ 9 =? 0); reflexivity.
Qed.

(** The inversion of a non-zero rate always fits in 256 bits. *)
Lemma inversion_fits r :
  0 < r ->
  Big.Div (U256.ToBig Lib.OneE38 * U256.ToBig Lib.OneE38) (U256.ToBig r)
  = Some (10 ^ 76 / r) /\
  U256.FromBig (10 ^ 76 / r) = (10 ^ 76 / r, false).
Proof.
  intros Hr. unfold U256.ToBig. split.
  - rewrite BigFacts.Div_pos by assumption. reflexivity.
  - assert (0 <= 10 ^ 76 / r <= 10 ^ 76) as Hq.
    { split; [apply Z.div_pos; lia|].
      apply Z.div_le_upper_bound; [assumption|]. nia. }
    assert (10 ^ 76 < U256.modulus) as Hm by reflexivity.
    unfold U256.FromBig. rewrite Z.abs_eq, Z.mod_small by lia.
    f_equal. apply Z.leb_gt. lia.
Qed.

(** The price-string write path, once the price is parsed to [r]. *)
Lemma fromPriceString_parsed buying selling price op r :
  parse price = Ok r -> 0 <= r ->
  Current.CalculateScaledExchangeRateFromPriceString
    parse buying selling price op
  = Some (if r =? 0 then Err Underflow
          else adjusted (String.eqb buying "DESO") (String.eqb selling "DESO")
                 (match op with
                  | Lib.DAOCoinLimitOrderOperationTypeASK => 10 ^ 76 / r
                  | _ => r
                  end)).
Proof.
  intros Hp Hr. unfold Current.CalculateScaledExchangeRateFromPriceString.
  rewrite Hp. cbn [rbind]. unfold U256.IsZero.
  destruct (Z.eqb_spec r 0) as [|Hne]; [reflexivity|].
  assert (forall x, 0 <= x ->
    (if String.eqb buying Current.DESOCoinIdentifierString then
       let '(product, overflow) :=
         U256.MulOverflow x Current.getDESOToDAOCoinBaseUnitsScalingFactor in
       if overflow then Some (Err Overflow) else Some (Ok product)
     else if String.eqb selling Current.DESOCoinIdentifierString then
       let quotient :=
         U256.Div x Current.getDESOToDAOCoinBaseUnitsScalingFactor in
       if U256.IsZero quotient then Some (Err Underflow)
       else Some (Ok quotient)
     else Some (Ok x))
    = Some (adjusted (String.eqb buying "DESO") (String.eqb selling "DESO") x))
    as Hadj.
  { intros x Hx. unfold adjusted, Current.DESOCoinIdentifierString, U256.IsZero.
    rewrite scalingFactor_value, Div_factor.
    destruct (String.eqb buying "DESO"); [now apply MulOverflow_factor|].
    destruct (String.eqb selling "DESO"); [|reflexivity].
    destruct (x / 10 ^ 9 =? 0); reflexivity. }
  destruct op as [| |code].
  - destruct (inversion_fits r ltac:(lia)) as [-> Hfit]. cbn [obind].
    rewrite Hfit. cbn [rbind]. apply Hadj. apply Z.div_pos; lia.
  - cbn [rbind]. now apply Hadj.
  - cbn [rbind]. now apply Hadj.
Qed.

End WritePath.

(** ** Claims on the denomination adjustment *)

(** C1, as stated, fails at the raw rate zero: the float 0.0 is formatted as
    "0.000000000000000" and parsed to the raw rate 0, and for a pair of two
    DAO coins [CalculateScaledExchangeRateFromFloat] returns an error where
    the claim has the rate returned unchanged. *)
Lemma zero_rate_not_passed_through :
  Current.formatFloatAsString (Float64.Zero false)
  = Some "0.000000000000000" /\
  LibModel.CalculateScaledExchangeRateFromString "0.000000000000000" = Ok 0 /\
  String.eqb "DAOCoinX" Current.DESOCoinIdentifierString = false /\
  String.eqb "DAOCoinY" Current.DESOCoinIdentifierString = false /\
  Current.CalculateScaledExchangeRateFromFloat
    LibModel.CalculateScaledExchangeRateFromString
    "DAOCoinX" "DAOCoinY" (Float64.Zero false)
  = Some (Err Underflow) /\
  Current.CalculateScaledExchangeRateFromFloat
    LibModel.CalculateScaledExchangeRateFromString
    "DAOCoinX" "DAOCoinY" (Float64.Zero false)
  <> Some (Ok 0).
Proof.
  assert (Current.CalculateScaledExchangeRateFromFloat
            LibModel.CalculateScaledExchangeRateFromString
            "DAOCoinX" "DAOCoinY" (Float64.Zero false)
          = Some (Err Underflow)) as H by (vm_compute; reflexivity).
  repeat split; try (vm_compute; reflexivity); try assumption.
  rewrite H. discriminate.
Qed.

(** C1 (amended). For every non-zero raw scaled exchange rate [r] (a 256-bit
    unsigned integer obtained from the formatted float) and every pair of
    coin identifiers: if the buying coin is the native sentinel, the write
    path returns [r * 10^9], and the Overflow error exactly when that product
    exceeds 256 bits; if the selling coin is the native sentinel (and the
    buying coin is not), it returns [r / 10^9], and the Underflow error
    exactly when that quotient is zero; if neither is, it returns [r]
    unchanged. This holds of [CalculateScaledExchangeRateFromFloat] (sentinel
    "DESO") and of the earlier [CalculateScaledExchangeRate] (whose sentinel is
    the empty string). *)
Theorem denomination_adjustment :
  forall (parse : string -> result Z) f str r buying selling,
    parse str = Ok r -> U256.inRange r -> r <> 0 ->
    (Current.formatFloatAsString f = Some str ->
     (buying = "DESO" ->
      Current.CalculateScaledExchangeRateFromFloat parse buying selling f
      = Some (if U256.modulus <=? r * 10 ^ 9 then Err Overflow
              else Ok (r * 10 ^ 9))) /\
     (buying <> "DESO" -> selling = "DESO" ->
      Current.CalculateScaledExchangeRateFromFloat parse buying selling f
      = Some (if r / 10 ^ 9 =? 0 then Err Underflow else Ok (r / 10 ^ 9))) /\
     (buying <> "DESO" -> selling <> "DESO" ->
      Current.CalculateScaledExchangeRateFromFloat parse buying selling f
      = Some (Ok r))) /\
    (Legacy.formatFloatAsString f = Some str ->
     (buying = EmptyString ->
      Legacy.CalculateScaledExchangeRate parse buying selling f
      = Some (if U256.modulus <=? r * 10 ^ 9 then Err Overflow
              else Ok (r * 10 ^ 9))) /\
     (buying <> EmptyString -> selling = EmptyString ->
      Legacy.CalculateScaledExchangeRate parse buying selling f
      = Some (if r / 10 ^ 9 =? 0 then Err Underflow else Ok (r / 10 ^ 9))) /\
     (buying <> EmptyString -> selling <> EmptyString ->
      Legacy.CalculateScaledExchangeRate parse buying selling f
      = Some (Ok r))).
Proof.
  intros parse f str r buying selling Hp [Hr _] Hne. split; intros Hf.
  - rewrite (fromFloat_parsed parse buying selling f str r) by assumption.
    destruct (Z.eqb_spec r 0); [contradiction|]. unfold adjusted.
    repeat split.
    + intros ->. reflexivity.
    + intros Hb ->. apply String.eqb_neq in Hb. rewrite Hb. reflexivity.
    + intros Hb Hs. apply String.eqb_neq in Hb, Hs. now rewrite Hb, Hs.
  - rewrite (legacy_parsed parse buying selling f str r) by assumption.
    unfold adjusted. repeat split.
    + intros ->. reflexivity.
    + intros Hb ->. apply String.eqb_neq in Hb. rewrite Hb. reflexivity.
    + intros Hb Hs. apply String.eqb_neq in Hb, Hs. now rewrite Hb, Hs.
Qed.

Lemma denomination_adjustment_witness :
  let f := Float64.Finite false 3 (-1) in
  let parse := LibModel.CalculateScaledExchangeRateFromString in
  Current.CalculateScaledExchangeRateFromFloat parse "DESO" "DAOCoinY" f
  = Some (Ok 150000000000000000000000000000000000000000000000) /\
  Current.CalculateScaledExchangeRateFromFloat parse "DAOCoinX" "DESO" f
  = Some (Ok 150000000000000000000000000000) /\
  Current.CalculateScaledExchangeRateFromFloat parse "DAOCoinX" "DAOCoinY" f
  = Some (Ok 150000000000000000000000000000000000000) /\
  Legacy.CalculateScaledExchangeRate parse EmptyString "DAOCoinY" f
  = Some (Ok 150000000000000000000000000000000000000000000000) /\
  Legacy.CalculateScaledExchangeRate parse "DAOCoinX" EmptyString f
  = Some (Ok 150000000000000000000000000000) /\
  Legacy.CalculateScaledExchangeRate parse "DAOCoinX" "DAOCoinY" f
  = Some (Ok 150000000000000000000000000000000000000).
Proof.
  intros f parse.
  assert (parse "1.50000000000000"
          = Ok 150000000000000000000000000000000000000) as Hp
    by (vm_compute; reflexivity).
  assert (U256.inRange 150000000000000000000000000000000000000) as Hr
    by (split; [lia|reflexivity]).
  assert (150000000000000000000000000000000000000 <> 0) as Hne by lia.
  assert ("DAOCoinX" <> "DESO") as HX by (apply String.eqb_neq; reflexivity).
  assert ("DAOCoinY" <> "DESO") as HY by (apply String.eqb_neq; reflexivity).
  assert ("DAOCoinX" <> EmptyString) as HX' by (apply String.eqb_neq; reflexivity).
  assert ("DAOCoinY" <> EmptyString) as HY' by (apply String.eqb_neq; reflexivity).
  assert (Current.formatFloatAsString f = Some "1.50000000000000") as HfC
    by (vm_compute; reflexivity).
  assert (Legacy.formatFloatAsString f = Some "1.50000000000000") as HfL
    by (vm_compute; reflexivity).
  split; [|split; [|split; [|split; [|split]]]].
  - destruct (denomination_adjustment parse f _ _ "DESO" "DAOCoinY" Hp Hr Hne)
      as [HC _].
    destruct (HC HfC) as (H & _ & _). exact (H eq_refl).
  - destruct (denomination_adjustment parse f _ _ "DAOCoinX" "DESO" Hp Hr Hne)
      as [HC _].
    destruct (HC HfC) as (_ & H & _).
    exact (H HX eq_refl).
  - destruct (denomination_adjustment parse f _ _ "DAOCoinX" "DAOCoinY" Hp Hr Hne)
      as [HC _].
    destruct (HC HfC) as (_ & _ & H).
    exact (H HX HY).
  - destruct (denomination_adjustment parse f _ _ EmptyString "DAOCoinY" Hp Hr Hne)
      as [_ HL].
    destruct (HL HfL) as (H & _ & _). exact (H eq_refl).
  - destruct (denomination_adjustment parse f _ _ "DAOCoinX" EmptyString Hp Hr Hne)
      as [_ HL].
    destruct (HL HfL) as (_ & H & _).
    exact (H HX' eq_refl).
  - destruct (denomination_adjustment parse f _ _ "DAOCoinX" "DAOCoinY" Hp Hr Hne)
      as [_ HL].
    destruct (HL HfL) as (_ & _ & H).
    exact (H HX' HY').
Defined.

(** ** Claims on the read path against the write path *)

(** The read path: the price string is the notation, at the precision 10^38,
    of the stored rate adjusted back. *)
Lemma price_string_adjusted buying selling v op :
  Current.CalculateStringPriceFromScaledExchangeRate buying selling v op
  = option_map Ok
      (formatScaledUint256AsDecimalString
         (if String.eqb buying "DESO" then v / 10 ^ 9
          else if String.eqb selling "DESO" then v * 10 ^ 9
          else v)
         Lib.OneE38).
Proof.
  unfold Current.CalculateStringPriceFromScaledExchangeRate, U256.ToBig,
    Current.DESOCoinIdentifierString.
  rewrite scalingFactor_value.
  destruct (String.eqb buying "DESO").
  - rewrite BigFacts.Div_pos by reflexivity. cbn [obind].
    now destruct (formatScaledUint256AsDecimalString _ _).
  - destruct (String.eqb selling "DESO"); cbn [obind];
      now destruct (formatScaledUint256AsDecimalString _ _).
Qed.

(** C7. For every rate [r], the write-path adjustment for a pair of the
    native coin and a DAO coin followed by the read-path adjustment for the
    same pair recovers [r]: exactly when the buying coin is native (multiply
    by 10^9, then divide), and rounded down to a multiple of 10^9 when the
    selling coin is native (divide by 10^9, then multiply). The price string
    shown is the notation of the recovered rate. *)
Theorem denomination_round_trip :
  forall (parse : string -> result Z) f str r w buying selling op,
    Current.formatFloatAsString f = Some str ->
    parse str = Ok r -> U256.inRange r ->
    Current.CalculateScaledExchangeRateFromFloat parse buying selling f
    = Some (Ok w) ->
    (buying = "DESO" ->
     w = r * 10 ^ 9 /\ w / 10 ^ 9 = r /\
     Current.CalculateStringPriceFromScaledExchangeRate buying selling w op
     = option_map Ok (formatScaledUint256AsDecimalString r Lib.OneE38)) /\
    (buying <> "DESO" -> selling = "DESO" ->
     w = r / 10 ^ 9 /\ w * 10 ^ 9 = r - r mod 10 ^ 9 /\
     r - 10 ^ 9 < w * 10 ^ 9 <= r /\
     Current.CalculateStringPriceFromScaledExchangeRate buying selling w op
     = option_map Ok
         (formatScaledUint256AsDecimalString (r - r mod 10 ^ 9) Lib.OneE38)).
Proof.
  intros parse f str r w buying selling op Hf Hp [Hr _] Hw.
  rewrite (fromFloat_parsed parse buying selling f str r) in Hw
    by assumption.
  destruct (r =? 0); [discriminate|]. unfold adjusted in Hw.
  rewrite price_string_adjusted. split.
  - intros ->. rewrite String.eqb_refl in *.
    destruct (U256.modulus <=? r * 10 ^ 9); [discriminate|].
    assert (w = r * 10 ^ 9) as -> by congruence.
    rewrite Z.div_mul by lia. auto.
  - intros Hb ->. apply String.eqb_neq in Hb.
    rewrite Hb, String.eqb_refl in *.
    destruct (r / 10 ^ 9 =? 0); [discriminate|].
    assert (w = r / 10 ^ 9) as -> by congruence.
    pose proof (Z.div_mod r (10 ^ 9) ltac:(lia)) as Hdm.
    pose proof (Z.mod_pos_bound r (10 ^ 9) ltac:(lia)) as Hmb.
    assert (r / 10 ^ 9 * 10 ^ 9 = r - r mod 10 ^ 9) as E by lia.
    rewrite E. repeat split; lia.
Qed.

Lemma denomination_round_trip_witness :
  let f := Float64.Finite false 3 (-1) in
  let parse := LibModel.CalculateScaledExchangeRateFromString in
  let r := 150000000000000000000000000000000000000 in
  Current.CalculateStringPriceFromScaledExchangeRate
    "DESO" "DAOCoinY" (r * 10 ^ 9) "ASK"
  = option_map Ok (formatScaledUint256AsDecimalString r Lib.OneE38) /\
  Current.CalculateStringPriceFromScaledExchangeRate
    "DAOCoinX" "DESO" (r / 10 ^ 9) "ASK"
  = option_map Ok
      (formatScaledUint256AsDecimalString (r - r mod 10 ^ 9) Lib.OneE38).
Proof.
  intros f parse r.
  assert (Current.formatFloatAsString f = Some "1.50000000000000") as Hf
    by (vm_compute; reflexivity).
  assert (parse "1.50000000000000" = Ok r) as Hp by (vm_compute; reflexivity).
  assert (U256.inRange r) as Hr by (split; [lia|reflexivity]).
  split.
  - assert (Current.CalculateScaledExchangeRateFromFloat
              parse "DESO" "DAOCoinY" f = Some (Ok (r * 10 ^ 9))) as Hw
      by (vm_compute; reflexivity).
    destruct (denomination_round_trip parse f _ r _ "DESO" "DAOCoinY" "ASK"
                Hf Hp Hr Hw) as [H _].
    destruct (H eq_refl) as (_ & _ & E). exact E.
  - assert (Current.CalculateScaledExchangeRateFromFloat
              parse "DAOCoinX" "DESO" f = Some (Ok (r / 10 ^ 9))) as Hw
      by (vm_compute; reflexivity).
    destruct (denomination_round_trip parse f _ r _ "DAOCoinX" "DESO" "ASK"
                Hf Hp Hr Hw) as [_ H].
    assert ("DAOCoinX" <> "DESO") as HX
      by (apply String.eqb_neq; reflexivity).
    destruct (H HX eq_refl) as (_ & _ & _ & E). exact E.
Defined.

(** ** Claims on zero rates *)

(** For an ASK the rate that is adjusted is the inversion [10^76 / r]. *)
Lemma ask_inversion (parse : string -> result Z) buying selling price r :
  parse price = Ok r -> 0 < r ->
  Current.CalculateScaledExchangeRateFromPriceString
    parse buying selling price Lib.DAOCoinLimitOrderOperationTypeASK
  = Some (adjusted (String.eqb buying "DESO") (String.eqb selling "DESO")
            (10 ^ 76 / r)).
Proof.
  intros Hp Hr.
  rewrite (fromPriceString_parsed parse buying selling price _ r)
    by (assumption || lia).
  destruct (Z.eqb_spec r 0); [lia|reflexivity].
Qed.

(** A price above 10^38 parses to a rate above 10^76, whose inversion is
    zero; unless the selling coin is native, the zero is returned as the rate
    of the order. *)
Lemma ask_inversion_of_large_rate
  (parse : string -> result Z) buying selling price r :
  parse price = Ok r -> 10 ^ 76 < r ->
  String.eqb selling "DESO" = false \/ String.eqb buying "DESO" = true ->
  Current.CalculateScaledExchangeRateFromPriceString
    parse buying selling price Lib.DAOCoinLimitOrderOperationTypeASK
  = Some (Ok 0).
Proof.
  intros Hp Hr Hpair. rewrite (ask_inversion parse _ _ _ r) by (assumption || lia).
  rewrite Z.div_small by lia. unfold adjusted.
  destruct (String.eqb buying "DESO"); [reflexivity|].
  destruct Hpair as [->|]; [reflexivity|discriminate].
Qed.

(** C2 (the code at a failing input). The price 2 * 10^38 parses to the raw
    rate 2 * 10^76; for an ASK on a pair of two DAO coins, or when buying the
    native coin, the inverted rate is zero and
    [CalculateScaledExchangeRateFromPriceString] returns it as a success,
    where the claim has an Underflow error. Only when the selling coin is
    native is the zero rejected. *)
Theorem ask_inversion_returns_zero_rate :
  let price := "200000000000000000000000000000000000000" in
  let parse := LibModel.CalculateScaledExchangeRateFromString in
  parse price = Ok (2 * 10 ^ 76) /\
  Current.CalculateScaledExchangeRateFromPriceString
    parse "DAOCoinX" "DAOCoinY" price Lib.DAOCoinLimitOrderOperationTypeASK
  = Some (Ok 0) /\
  Current.CalculateScaledExchangeRateFromPriceString
    parse "DESO" "DAOCoinY" price Lib.DAOCoinLimitOrderOperationTypeASK
  = Some (Ok 0) /\
  Current.CalculateScaledExchangeRateFromPriceString
    parse "DAOCoinX" "DESO" price Lib.DAOCoinLimitOrderOperationTypeASK
  = Some (Err Underflow).
Proof. vm_compute. repeat split; reflexivity. Qed.

(** In the present revision a raw rate of zero is rejected by both write
    paths. *)
Lemma zero_raw_rate_rejected (parse : string -> result Z) buying selling :
  (forall price op,
     parse price = Ok 0 ->
     Current.CalculateScaledExchangeRateFromPriceString
       parse buying selling price op = Some (Err Underflow)) /\
  (forall f str,
     Current.formatFloatAsString f = Some str -> parse str = Ok 0 ->
     Current.CalculateScaledExchangeRateFromFloat parse buying selling f
     = Some (Err Underflow)).
Proof.
  split.
  - intros price op Hp.
    now rewrite (fromPriceString_parsed parse _ _ _ _ 0) by (assumption || lia).
  - intros f str Hf Hp.
    now rewrite (fromFloat_parsed parse _ _ _ str 0) by (assumption || lia).
Qed.

(** C3 (the code at a failing input). In the earlier revision the float 0.0
    is formatted as "0.000000000000000", parsed to the raw rate 0, and
    [CalculateScaledExchangeRate] returns the zero rate as a success when the
    buying coin is native and for a pair of two DAO coins, where the claim
    has an Underflow error; the present revision rejects it. *)
Theorem legacy_returns_zero_rate :
  let zero := Float64.Zero false in
  let parse := LibModel.CalculateScaledExchangeRateFromString in
  Legacy.formatFloatAsString zero = Some "0.000000000000000" /\
  parse "0.000000000000000" = Ok 0 /\
  Legacy.CalculateScaledExchangeRate parse EmptyString "DAOCoinY" zero = Some (Ok 0) /\
  Legacy.CalculateScaledExchangeRate parse "DAOCoinX" "DAOCoinY" zero
  = Some (Ok 0) /\
  Current.CalculateScaledExchangeRateFromFloat parse "DESO" "DAOCoinY" zero
  = Some (Err Underflow).
Proof. vm_compute. repeat split; reflexivity. Qed.

(** ** The order-book response builders *)

Section OrderBook.

Variable ParseFloat : string -> result float64.
Variable PKID : Type.
Variable IsZeroPKID : PKID -> bool.
Variable Base58CheckEncodePublicKeyForPKID : PKID -> string.

Local Abbreviation entry := (Current.DAOCoinLimitOrderEntry PKID).
Local Abbreviation response := Current.DAOCoinLimitOrderEntryResponse.
Local Abbreviation build :=
  (Current.buildDAOCoinLimitOrderResponse ParseFloat PKID).

(** Below [10^k] the count of leading zeros is never negative. *)
Lemma leading_zeros_return dec k :
  0 <= k -> 0 <= dec < 10 ^ k ->
  exists n2 zeros,
    getNumDigits dec = Some n2 /\ Fmt.Repeat0 (k + 1 - n2 - 1) = Some zeros.
Proof.
  intros Hk Hdec. destruct (getNumDigits_nonneg dec) as (n2 & Hn2 & Hc); [lia|].
  pose proof (digitCount_below _ _ k Hc Hk ltac:(lia)).
  exists n2. eexists. split; [assumption|]. apply Repeat0_nonneg. lia.
Qed.

Lemma exchangeRateAsFloat_returns buying selling v :
  exists str,
    Current.CalculateExchangeRateAsFloat ParseFloat buying selling v
    = Some (ParseFloat str).
Proof.
  unfold Current.CalculateExchangeRateAsFloat, U256.ToBig.
  assert (forall a, exists str,
    (whole <- Big.Div a Lib.OneE38 ;;
     decimal <- Big.Mod a Lib.OneE38 ;;
     n1 <- getNumDigits Lib.OneE38 ;;
     n2 <- getNumDigits decimal ;;
     decimalLeadingZeros <- Fmt.Repeat0 (n1 - n2 - 1) ;;
     let str := (Fmt.Sprintf_d whole ++ "." ++ decimalLeadingZeros
                 ++ Fmt.Sprintf_d decimal)%string in
     Some (ParseFloat str)) = Some (ParseFloat str)) as H.
  { intros a. rewrite BigFacts.Div_pos, BigFacts.Mod_pos by reflexivity.
    cbn [obind]. change Lib.OneE38 with (10 ^ 38).
    rewrite getNumDigits_pow10 by lia. cbn [obind].
    destruct (leading_zeros_return (a mod 10 ^ 38) 38) as (n2 & z & -> & Hz);
      [lia|apply Z.mod_pos_bound; lia|].
    cbn [obind]. rewrite Hz. cbn [obind]. eauto. }
  destruct (String.eqb buying _).
  - rewrite BigFacts.Div_pos by reflexivity. apply H.
  - destruct (String.eqb selling _); apply H.
Qed.

Lemma quantityAsFloat_returns q k :
  0 <= k ->
  exists str,
    Current.calculateQuantityToFillAsFloatWithScalingFactor ParseFloat q (10 ^ k)
    = Some (ParseFloat str).
Proof.
  intros Hk. assert (0 < 10 ^ k) as Hs by (apply Z.pow_pos_nonneg; lia).
  unfold Current.calculateQuantityToFillAsFloatWithScalingFactor, U256.ToBig.
  rewrite getNumDigits_pow10 by assumption. cbn [obind].
  assert (U256.Mod q (10 ^ k) = q mod 10 ^ k) as ->.
  { unfold U256.Mod. destruct (Z.eqb_spec (10 ^ k) 0); [lia|reflexivity]. }
  destruct (leading_zeros_return (q mod 10 ^ k) k) as (n2 & z & -> & Hz);
    [lia|now apply Z.mod_pos_bound|].
  cbn [obind]. rewrite Hz. cbn [obind]. eauto.
Qed.

Lemma quantityToFillAsFloat_returns buying selling op q :
  exists str,
    Current.CalculateQuantityToFillAsFloat ParseFloat buying selling op q
    = Some (ParseFloat str).
Proof.
  unfold Current.CalculateQuantityToFillAsFloat.
  destruct (Current.isCoinToFillDESO buying selling op).
  - apply (quantityAsFloat_returns q 9). lia.
  - apply (quantityAsFloat_returns q 18). lia.
Qed.

Lemma quantityAsString_returns buying selling op q :
  exists str,
    Current.CalculateQuantityAsString buying selling op q = Some (Ok str).
Proof.
  unfold Current.CalculateQuantityAsString, U256.ToBig.
  destruct (Current.isCoinToFillDESO buying selling op).
  - destruct (formatScaled_returns q Lib.NanosPerUnit) as (str & ->);
      [reflexivity|]. now exists str.
  - destruct (formatScaled_returns q Lib.BaseUnitsPerCoin) as (str & ->);
      [reflexivity|]. now exists str.
Qed.

(** Building the response of one order always returns: a response or an
    error. *)
Lemma build_returns transactor buying selling (order : entry) :
  exists r, build transactor buying selling order = Some r.
Proof.
  unfold Current.buildDAOCoinLimitOrderResponse.
  destruct (Current.orderOperationTypeToString (Current.OperationType PKID order))
    as [op|e]; cbn [rbind]; [|eauto].
  destruct (price_string_returns buying selling
              (Current.ScaledExchangeRateCoinsToSellPerCoinToBuy PKID order) op)
    as (price & ->). cbn [rbind].
  destruct (quantityAsString_returns buying selling op
              (Current.QuantityToFillInBaseUnits PKID order)) as (qty & ->).
  cbn [rbind].
  destruct (exchangeRateAsFloat_returns buying selling
              (Current.ScaledExchangeRateCoinsToSellPerCoinToBuy PKID order))
    as (s1 & ->).
  destruct (ParseFloat s1) as [rate|e]; cbn [rbind]; [|eauto].
  destruct (quantityToFillAsFloat_returns buying selling op
              (Current.QuantityToFillInBaseUnits PKID order)) as (s2 & ->).
  destruct (ParseFloat s2) as [fill|e]; cbn [rbind]; eauto.
Qed.

(** An order of an unknown operation type yields an error. *)
Lemma build_unknown_operation transactor buying selling (order : entry) code :
  Current.OperationType PKID order
  = Lib.DAOCoinLimitOrderOperationTypeOther code ->
  build transactor buying selling order = Some (Err UnknownEnumValue).
Proof.
  intros H. unfold Current.buildDAOCoinLimitOrderResponse. now rewrite H.
Qed.

(** The loop of the coin-pair builder appends the responses that are built
    and leaves the log as it is. *)
Lemma rangeOrders_coinPair buying selling (orders : list entry) :
  forall responses log,
    Current.rangeOrders PKID
      (Current.coinPairStep ParseFloat PKID Base58CheckEncodePublicKeyForPKID
         buying selling)
      orders (responses, log)
    = Some ((responses ++
             builtResponses
               (fun order =>
                  build (Base58CheckEncodePublicKeyForPKID
                           (Current.TransactorPKID PKID order))
                        buying selling order)
               orders)%list,
            log).
Proof.
  induction orders as [|order rest IH]; intros responses log;
    cbn [Current.rangeOrders builtResponses flat_map].
  - now rewrite app_nil_r.
  - unfold Current.coinPairStep at 1.
    destruct (build_returns
                (Base58CheckEncodePublicKeyForPKID
                   (Current.TransactorPKID PKID order))
                buying selling order) as ([r|e] & ->); cbn [obind].
    + rewrite IH. unfold builtResponses. now rewrite <- app_assoc.
    + rewrite IH. reflexivity.
Qed.

(** The loop of the per-transactor builder appends the responses that are
    built and logs the identifier of every order that fails. *)
Lemma rangeOrders_transactor transactor (orders : list entry) :
  let buildFor := fun order =>
    build transactor
      (Current.getPublicKeyBase58CheckOrCoinIdentifierForPKID PKID IsZeroPKID
         Base58CheckEncodePublicKeyForPKID
         (Current.BuyingDAOCoinCreatorPKID PKID order))
      (Current.getPublicKeyBase58CheckOrCoinIdentifierForPKID PKID IsZeroPKID
         Base58CheckEncodePublicKeyForPKID
         (Current.SellingDAOCoinCreatorPKID PKID order))
      order in
  forall responses log,
    Current.rangeOrders PKID
      (Current.transactorStep ParseFloat PKID IsZeroPKID
         Base58CheckEncodePublicKeyForPKID transactor)
      orders (responses, log)
    = Some ((responses ++ builtResponses buildFor orders)%list,
            (log ++ map (Current.OrderID PKID)
                        (failedOrders buildFor orders))%list).
Proof.
  intros buildFor.
  induction orders as [|order rest IH]; intros responses log;
    cbn [Current.rangeOrders builtResponses failedOrders flat_map filter map].
  - now rewrite !app_nil_r.
  - unfold Current.transactorStep at 1. fold (buildFor order).
    destruct (build_returns transactor
                (Current.getPublicKeyBase58CheckOrCoinIdentifierForPKID PKID
                   IsZeroPKID Base58CheckEncodePublicKeyForPKID
                   (Current.BuyingDAOCoinCreatorPKID PKID order))
                (Current.getPublicKeyBase58CheckOrCoinIdentifierForPKID PKID
                   IsZeroPKID Base58CheckEncodePublicKeyForPKID
                   (Current.SellingDAOCoinCreatorPKID PKID order))
                order) as ([r|e] & Hb);
      fold (buildFor order) in Hb; rewrite Hb; cbn [obind].
    + rewrite IH. unfold builtResponses, failedOrders.
      now rewrite <- app_assoc.
    + rewrite IH. unfold builtResponses, failedOrders.
      cbn [map]. now rewrite <- app_assoc.
Qed.

(** Both bulk builders return exactly the responses of the entries that
    build, in their original order; the coin-pair builder logs nothing, the
    per-transactor builder logs every entry that fails. *)
Lemma coinPair_builder_result buying selling (orders : list entry) :
  Current.buildDAOCoinLimitOrderResponsesFromEntriesForCoinPair
    ParseFloat PKID Base58CheckEncodePublicKeyForPKID buying selling orders
  = Some (builtResponses
            (fun order =>
               build (Base58CheckEncodePublicKeyForPKID
                        (Current.TransactorPKID PKID order))
                     buying selling order)
            orders,
          []).
Proof.
  unfold Current.buildDAOCoinLimitOrderResponsesFromEntriesForCoinPair.
  now rewrite rangeOrders_coinPair.
Qed.

Lemma transactor_builder_result transactor (orders : list entry) :
  let buildFor := fun order =>
    build transactor
      (Current.getPublicKeyBase58CheckOrCoinIdentifierForPKID PKID IsZeroPKID
         Base58CheckEncodePublicKeyForPKID
         (Current.BuyingDAOCoinCreatorPKID PKID order))
      (Current.getPublicKeyBase58CheckOrCoinIdentifierForPKID PKID IsZeroPKID
         Base58CheckEncodePublicKeyForPKID
         (Current.SellingDAOCoinCreatorPKID PKID order))
      order in
  Current.buildDAOCoinLimitOrderResponsesForTransactor
    ParseFloat PKID IsZeroPKID Base58CheckEncodePublicKeyForPKID
    transactor orders
  = Some (builtResponses buildFor orders,
          map (Current.OrderID PKID) (failedOrders buildFor orders)).
Proof.
  intros buildFor.
  unfold Current.buildDAOCoinLimitOrderResponsesForTransactor.
  now rewrite rangeOrders_transactor.
Qed.

End OrderBook.

(** C8 (the code at a failing input). Of three orders whose second has an
    unknown operation type, both bulk builders return the responses of the
    first and the third, in that order; the per-transactor builder logs the
    second, but [buildDAOCoinLimitOrderResponsesFromEntriesForCoinPair] skips
    it without logging anything, where the claim has it skipped and
    logged. *)
Theorem coinPair_builder_skips_without_logging :
  let encode := fun _ : Z => "BC1YLtransactor" in
  let order := fun id op =>
    Current.Build_DAOCoinLimitOrderEntry Z id 1 2 0
      (15 * 10 ^ 28) 2500000000 op in
  let orders :=
    [ order "order-1" Lib.DAOCoinLimitOrderOperationTypeASK;
      order "order-2" (Lib.DAOCoinLimitOrderOperationTypeOther 7);
      order "order-3" Lib.DAOCoinLimitOrderOperationTypeBID ] in
  (exists responses,
     Current.buildDAOCoinLimitOrderResponsesFromEntriesForCoinPair
       LibModel.acceptParseFloat Z encode "DAOCoinX" "DESO" orders
     = Some (responses, []) /\
     map Current.resp_OrderID responses = ["order-1"; "order-3"]) /\
  (exists responses,
     Current.buildDAOCoinLimitOrderResponsesForTransactor
       LibModel.acceptParseFloat Z (Z.eqb 0) encode "BC1YLtransactor" orders
     = Some (responses, ["order-2"]) /\
     map Current.resp_OrderID responses = ["order-1"; "order-3"]).
Proof.
  intros encode order orders. split.
  - rewrite coinPair_builder_result. eexists. split; [reflexivity|].
    vm_compute. reflexivity.
  - rewrite transactor_builder_result. eexists. split.
    + apply f_equal. apply f_equal2; [reflexivity|vm_compute; reflexivity].
    + vm_compute. reflexivity.
Qed.

(** ** formatFloatAsString *)

Section FormatFloat.

Lemma all_weaken (p q : ascii -> bool) s :
  (forall c, p c = true -> q c = true) ->
  Str.all p s = true -> Str.all q s = true.
Proof.
  intros Hpq. induction s as [|c s IH]; cbn [Str.all]; [easy|].
  rewrite !andb_true_iff. intros [Hc Hs]. auto.
Qed.

Lemma isDigit_notPoint c : Fmt.isDigit c = true -> Str.notPoint c = true.
Proof.
  unfold Fmt.isDigit, Str.notPoint. intros H.
  destruct (Ascii.eqb_spec c "."%char) as [->|]; [discriminate H|reflexivity].
Qed.

Lemma Sprintf_d_noPoint x : Str.all Str.notPoint (Fmt.Sprintf_d x) = true.
Proof.
  assert (forall n, Str.all Str.notPoint (Fmt.showPos n) = true) as H.
  { intros n. apply (all_weaken Fmt.isDigit); [apply isDigit_notPoint|].
    apply FmtFacts.showPos_digits. }
  unfold Fmt.Sprintf_d. destruct (x =? 0); [reflexivity|].
  destruct (x <? 0); [|apply H].
  change ("-" ++ Fmt.showPos (- x))%string with (String "-" (Fmt.showPos (- x))).
  cbn [Str.all]. now rewrite H.
Qed.

Lemma afterPoint_skip s t :
  Str.all Str.notPoint s = true -> Str.afterPoint (s ++ t) = Str.afterPoint t.
Proof.
  induction s as [|c s IH]; cbn [Str.all append Str.afterPoint]; [easy|].
  rewrite andb_true_iff. unfold Str.notPoint at 1. intros [Hc Hs].
  destruct (Ascii.eqb c "."%char); [discriminate|auto].
Qed.

(** The fixed-point notation has exactly [prec] digits after the point. *)
Lemma fracDigits_fixedPoint sign prec K :
  Str.all Str.notPoint sign = true -> 0 <= prec ->
  Fmt.fracDigits (sign ++ Fmt.fixedPoint prec K) = prec.
Proof.
  intros Hsign Hp. unfold Fmt.fracDigits, Fmt.fixedPoint.
  rewrite afterPoint_skip by assumption.
  rewrite afterPoint_skip by apply Sprintf_d_noPoint.
  destruct (Z.leb_spec prec 0) as [H0|Hpos]; [cbn; lia|].
  change ("." ++ ?x)%string with (String "." x). cbn [Str.afterPoint].
  change (Ascii.eqb "." ".") with true. cbv iota.
  rewrite FmtFacts.len_append, len_replicate.
  assert (0 < 10 ^ prec) as Hs by (apply Z.pow_pos_nonneg; lia).
  pose proof (Z.mod_pos_bound K _ Hs) as Hb.
  pose proof (FmtFacts.showPos_count (K mod 10 ^ prec) ltac:(lia)) as Hc.
  pose proof (digitCount_below _ _ prec Hc ltac:(lia) ltac:(lia)).
  pose proof (FmtFacts.len_nonneg (Fmt.showPos (K mod 10 ^ prec))). lia.
Qed.

Lemma fracDigits_Sprintf_f prec f I :
  Float64.bigFloatInt f = Some I -> 0 <= prec ->
  Fmt.fracDigits (Fmt.Sprintf_f prec f) = prec.
Proof.
  intros HI Hp. destruct f as [neg|neg m e|neg|]; try discriminate;
    cbn [Fmt.Sprintf_f]; apply fracDigits_fixedPoint; try assumption;
    now destruct neg.
Qed.

(** Above fifteen digits, the integer part keeps its fifteen leading digits
    and has zeros in place of the others. *)
Lemma truncated_notation I n :
  getNumDigits I = Some n -> 15 < n ->
  exists hi lo,
    Fmt.Sprintf_d I = (hi ++ lo)%string /\ Fmt.len hi = 15 /\
    Fmt.Sprintf_d (I / 10 ^ (n - 15) * 10 ^ (n - 15))
    = (hi ++ Str.replicate (String.length lo) "0"%char)%string.
Proof.
  intros Hn Hlt. apply getNumDigits_count in Hn.
  destruct Hn as [[_ ?]|(HI & _ & Hdec)]; [lia|].
  set (k := Z.to_nat (n - 15)).
  assert (n - 15 = Z.of_nat k) as Hk by (unfold k; lia). rewrite Hk.
  assert (10 ^ Z.of_nat k <= I) as Hge.
  { apply Z.le_trans with (10 ^ (n - 1)); [|lia].
    apply Z.pow_le_mono_r; lia. }
  assert (0 < 10 ^ Z.of_nat k) as Hs by (apply Z.pow_pos_nonneg; lia).
  assert (0 < I / 10 ^ Z.of_nat k) as Hq
    by (apply Z.div_str_pos; lia).
  destruct (FmtFacts.showPos_div_pow10 k I Hge) as (lo & Hsplit & Hlo).
  exists (Fmt.showPos (I / 10 ^ Z.of_nat k)), lo.
  assert (forall x, 0 < x -> Fmt.Sprintf_d x = Fmt.showPos x) as Hshow.
  { intros x Hx. unfold Fmt.Sprintf_d.
    destruct (Z.eqb_spec x 0); [lia|]. destruct (Z.ltb_spec x 0); [lia|easy]. }
  rewrite !Hshow by nia. split; [assumption|]. split.
  - pose proof (FmtFacts.showPos_count I ltac:(lia)) as HcI.
    assert (Fmt.len (Fmt.showPos I) = n) as HlenI.
    { eapply digitCount_unique; [exact HcI|]. right. lia. }
    rewrite Hsplit, FmtFacts.len_append in HlenI.
    unfold Fmt.len in HlenI at 2. rewrite Hlo in HlenI. lia.
  - rewrite FmtFacts.showPos_mul_pow10 by assumption. now rewrite Hlo.
Qed.

End FormatFloat.

(** ** Claims on the formatter of floats *)

(** C6, as stated, fails on a negative float: the integer part of -1.0 is
    -1, on which the loop of [getNumDigits] never exits (the Euclidean
    quotient of -1 by ten is -1 again), so [formatFloatAsString] returns
    nothing, although the integer part has one digit. The supported range
    documented in the source is [1e-15, 1e308]. *)
Lemma formatFloat_negative_no_result :
  Float64.bigFloatInt (Float64.Finite true 1 0) = Some (-1) /\
  Big.ediv (-1) 10 = -1 /\
  (forall fuel, getNumDigits_loop fuel (-1) 0 = None) /\
  Current.formatFloatAsString (Float64.Finite true 1 0) = None.
Proof.
  split; [reflexivity|]. split; [reflexivity|]. split.
  - intros fuel. apply loop_negative. lia.
  - reflexivity.
Qed.

(** The conversion [int64(f)] of the earlier revision, within its range. *)
Lemma toInt64_in_range f I :
  Float64.bigFloatInt f = Some I -> - 2 ^ 63 <= I < 2 ^ 63 ->
  Float64.toInt64 f = Some I.
Proof.
  destruct f as [neg|neg m e|neg|]; cbn [Float64.bigFloatInt Float64.toInt64];
    try discriminate; [easy|].
  intros [= <-] Hr.
  destruct (Z.leb_spec (- 2 ^ 63)
              (if neg then - Float64.truncMagnitude m e
               else Float64.truncMagnitude m e)); [|lia].
  destruct (Z.ltb_spec (if neg then - Float64.truncMagnitude m e
                        else Float64.truncMagnitude m e) (2 ^ 63)); [|lia].
  reflexivity.
Qed.

Lemma digits_below I n k :
  getNumDigits I = Some n -> 0 <= k -> (I < 10 ^ k <-> n <= k).
Proof.
  intros Hn Hk. apply getNumDigits_count in Hn. split.
  - intros Hlt. now apply (digitCount_below I n k).
  - intros Hle. destruct Hn as [[-> _]|(HI & Hd & Hdec)].
    + apply Z.pow_pos_nonneg; lia.
    + apply Z.lt_le_trans with (10 ^ n); [lia|].
      apply Z.pow_le_mono_r; lia.
Qed.

Lemma legacy_formatFloat_shape f I :
  Float64.bigFloatInt f = Some I -> 0 <= I < 2 ^ 63 ->
  exists n, getNumDigits I = Some n /\
    Legacy.formatFloatAsString f
    = Some (Fmt.Sprintf_f (if n <? 15 then 15 - n else 6) f).
Proof.
  intros HI Hr. destruct (getNumDigits_returns I ltac:(lia)) as (n & Hn & _).
  exists n. split; [assumption|]. unfold Legacy.formatFloatAsString.
  rewrite (toInt64_in_range f I HI) by lia. cbn [obind]. rewrite Hn.
  cbn [obind]. now destruct (n <? 15).
Qed.

Lemma formatFloat_shape f I :
  Float64.bigFloatInt f = Some I -> 0 <= I ->
  exists n, getNumDigits I = Some n /\
    (n <= 15 ->
       Current.formatFloatAsString f = Some (Fmt.Sprintf_f (15 - n) f) /\
       Fmt.fracDigits (Fmt.Sprintf_f (15 - n) f) = 15 - n) /\
    (15 < n ->
       exists hi lo,
         Fmt.Sprintf_d I = (hi ++ lo)%string /\ Fmt.len hi = 15 /\
         Current.formatFloatAsString f
         = Some (hi ++ Str.replicate (String.length lo) "0"%char ++ ".0")%string).
Proof.
  intros HI Hpos. destruct (getNumDigits_returns I Hpos) as (n & Hn & Hn0).
  exists n. split; [assumption|].
  unfold Current.formatFloatAsString. rewrite HI. cbn [obind].
  rewrite Hn. cbn [obind]. split.
  - intros Hle. destruct (Z.leb_spec n 15); [|lia]. split; [reflexivity|].
    apply (fracDigits_Sprintf_f _ f I); [assumption|lia].
  - intros Hlt. destruct (Z.leb_spec n 15); [lia|].
    assert (0 < 10 ^ (n - 15)) as Hs by (apply Z.pow_pos_nonneg; lia).
    rewrite BigFacts.Div_pos by assumption. cbn [obind].
    destruct (truncated_notation I n Hn Hlt) as (hi & lo & Hsplit & Hhi & Ht).
    exists hi, lo. split; [assumption|]. split; [assumption|].
    rewrite Ht. now rewrite StrFacts.append_assoc.
Qed.

(** C6 (amended). For every finite float64 [f] whose integer part is not
    negative: if the integer part has at most 15 decimal digits,
    [formatFloatAsString] emits [f] with exactly [15 - integerDigits] digits
    after the decimal point; if it has more than 15 digits, the result is the
    integer part with every digit beyond the 15 most significant replaced by
    zero, followed by ".0". The earlier revision of [formatFloatAsString]
    emits the same string as the present one whenever the integer part has
    fewer than 15 digits. *)
Theorem formatFloat_fifteen_digits f I :
  Float64.bigFloatInt f = Some I -> 0 <= I ->
  exists n, getNumDigits I = Some n /\
    (n <= 15 ->
       Current.formatFloatAsString f = Some (Fmt.Sprintf_f (15 - n) f) /\
       Fmt.fracDigits (Fmt.Sprintf_f (15 - n) f) = 15 - n) /\
    (15 < n ->
       exists hi lo,
         Fmt.Sprintf_d I = (hi ++ lo)%string /\ Fmt.len hi = 15 /\
         Current.formatFloatAsString f
         = Some (hi ++ Str.replicate (String.length lo) "0"%char ++ ".0")%string) /\
    (n < 15 ->
       Legacy.formatFloatAsString f = Some (Fmt.Sprintf_f (15 - n) f) /\
       Fmt.fracDigits (Fmt.Sprintf_f (15 - n) f) = 15 - n).
Proof.
  intros HI Hpos.
  destruct (formatFloat_shape f I HI Hpos) as (n & Hn & Hsmall & Hlarge).
  exists n. split; [assumption|]. split; [assumption|].
  split; [assumption|]. intros Hlt.
  assert (I < 10 ^ 14) as Hbound by (apply (digits_below I n 14 Hn); lia).
  assert (10 ^ 14 < 2 ^ 63) as Hfits by reflexivity.
  destruct (legacy_formatFloat_shape f I HI ltac:(lia)) as (n' & Hn' & Hold).
  rewrite Hn in Hn'. injection Hn' as <-.
  destruct (Z.ltb_spec n 15); [|lia].
  split; [assumption|]. now apply Hsmall; lia.
Qed.

Lemma formatFloat_fifteen_digits_witness :
  (let f := Float64.Finite false 7716049313271605 4 in
   let I := 123456789012345680 in
   exists n, getNumDigits I = Some n /\
     (n <= 15 ->
        Current.formatFloatAsString f = Some (Fmt.Sprintf_f (15 - n) f) /\
        Fmt.fracDigits (Fmt.Sprintf_f (15 - n) f) = 15 - n) /\
     (15 < n ->
        exists hi lo,
          Fmt.Sprintf_d I = (hi ++ lo)%string /\ Fmt.len hi = 15 /\
          Current.formatFloatAsString f
          = Some (hi ++ Str.replicate (String.length lo) "0"%char ++ ".0")%string) /\
     (n < 15 ->
        Legacy.formatFloatAsString f = Some (Fmt.Sprintf_f (15 - n) f) /\
        Fmt.fracDigits (Fmt.Sprintf_f (15 - n) f) = 15 - n)) /\
  (let f := Float64.Finite false 5 (-1) in
   exists n, getNumDigits 2 = Some n /\
     (n <= 15 ->
        Current.formatFloatAsString f = Some (Fmt.Sprintf_f (15 - n) f) /\
        Fmt.fracDigits (Fmt.Sprintf_f (15 - n) f) = 15 - n) /\
     (15 < n ->
        exists hi lo,
          Fmt.Sprintf_d 2 = (hi ++ lo)%string /\ Fmt.len hi = 15 /\
          Current.formatFloatAsString f
          = Some (hi ++ Str.replicate (String.length lo) "0"%char ++ ".0")%string) /\
     (n < 15 ->
        Legacy.formatFloatAsString f = Some (Fmt.Sprintf_f (15 - n) f) /\
        Fmt.fracDigits (Fmt.Sprintf_f (15 - n) f) = 15 - n)).
Proof.
  split.
  - intros f I. apply (formatFloat_fifteen_digits f I); [reflexivity|lia].
  - intros f. apply (formatFloat_fifteen_digits f 2); [reflexivity|lia].
Defined.

Example formatFloat_small :
  Current.formatFloatAsString (Float64.Finite false 5 (-1))
  = Some "2.50000000000000".
Proof. vm_compute. reflexivity. Qed.

Example formatFloat_one_tenth :
  Current.formatFloatAsString (Float64.Finite false 3602879701896397 (-55))
  = Some "0.100000000000000".
Proof. vm_compute. reflexivity. Qed.

Example formatFloat_fifteen_integer_digits :
  Current.formatFloatAsString (Float64.Finite false 1999999999999999 (-1))
  = Some "1000000000000000".
Proof. vm_compute. reflexivity. Qed.

Example formatFloat_large :
  Current.formatFloatAsString (Float64.Finite false 7716049313271605 4)
  = Some "123456789012345000.0".
Proof. vm_compute. reflexivity. Qed.

(** The earlier revision prints a float of fifteen or more integer digits
    with the verb [%f]: all its digits and six decimal places, where the
    present revision prints no decimal place at fifteen digits and zeroes
    the digits after the fifteenth beyond. *)
Example legacy_formatFloat_fifteen_integer_digits :
  Legacy.formatFloatAsString (Float64.Finite false 123456789012345 0)
  = Some "123456789012345.000000" /\
  Current.formatFloatAsString (Float64.Finite false 123456789012345 0)
  = Some "123456789012345".
Proof. vm_compute. split; reflexivity. Qed.

Example legacy_formatFloat_large :
  Legacy.formatFloatAsString (Float64.Finite false 7716049313271605 4)
  = Some "123456789012345680.000000".
Proof. vm_compute. reflexivity. Qed.

(** * Part III: further properties of the routes *)

(** ** The operation type and its string *)

Lemma operation_type_round_trip_aux :
  (forall op s,
     Current.orderOperationTypeToString op = Ok s ->
     Current.orderOperationTypeToUint64 s = Ok op) /\
  (forall s op,
     Current.orderOperationTypeToUint64 s = Ok op ->
     Current.orderOperationTypeToString op = Ok s) /\
  (forall op,
     Current.orderOperationTypeToString op = Err UnknownEnumValue <->
     exists code, op = Lib.DAOCoinLimitOrderOperationTypeOther code) /\
  (forall s,
     Current.orderOperationTypeToUint64 s = Err UnknownEnumValue <->
     s <> "ASK" /\ s <> "BID").
Proof.
  split; [|split; [|split]].
  - intros [| |code] s [= <-]; reflexivity.
  - intros s op. unfold Current.orderOperationTypeToUint64.
    destruct (String.eqb_spec s Current.DAOCoinLimitOrderOperationTypeStringASK)
      as [->|_]; [now intros [= <-]|].
    destruct (String.eqb_spec s Current.DAOCoinLimitOrderOperationTypeStringBID)
      as [->|_]; [now intros [= <-]|discriminate].
  - intros [| |code]; split; try discriminate; try (intros [c [=]]); eauto.
  - intros s. unfold Current.orderOperationTypeToUint64.
    destruct (String.eqb_spec s Current.DAOCoinLimitOrderOperationTypeStringASK)
      as [->|HA]; [split; [discriminate|intros [H _]; now elim H]|].
    destruct (String.eqb_spec s Current.DAOCoinLimitOrderOperationTypeStringBID)
      as [->|HB]; [split; [discriminate|intros [_ H]; now elim H]|].
    split; auto.
Qed.

(** X1. The two conversions of the operation type are inverse to each other:
    [orderOperationTypeToString] succeeds exactly on ASK and BID, and the
    string it returns is converted back to the same operation type; and
    [orderOperationTypeToUint64] succeeds exactly on "ASK" and "BID", and
    the type it returns is converted back to the same string. *)
Theorem operation_type_round_trip :
  (forall op s,
     Current.orderOperationTypeToString op = Ok s ->
     Current.orderOperationTypeToUint64 s = Ok op) /\
  (forall s op,
     Current.orderOperationTypeToUint64 s = Ok op ->
     Current.orderOperationTypeToString op = Ok s) /\
  (forall op,
     Current.orderOperationTypeToString op = Err UnknownEnumValue <->
     exists code, op = Lib.DAOCoinLimitOrderOperationTypeOther code) /\
  (forall s,
     Current.orderOperationTypeToUint64 s = Err UnknownEnumValue <->
     s <> "ASK" /\ s <> "BID").
Proof. exact operation_type_round_trip_aux. Qed.

Lemma operation_type_round_trip_witness :
  Current.orderOperationTypeToUint64 "BID"
  = Ok Lib.DAOCoinLimitOrderOperationTypeBID /\
  Current.orderOperationTypeToString Lib.DAOCoinLimitOrderOperationTypeASK
  = Ok "ASK".
Proof.
  destruct operation_type_round_trip as (H1 & H2 & _ & _). split.
  - apply (H1 Lib.DAOCoinLimitOrderOperationTypeBID "BID"). reflexivity.
  - apply (H2 "ASK" Lib.DAOCoinLimitOrderOperationTypeASK). reflexivity.
Defined.

(** ** What the formatted string of a scaled integer denotes *)

Section Denotation.

Lemma digitsValue_append s : forall t acc,
  Str.digitsValue (s ++ t) acc = Str.digitsValue t (Str.digitsValue s acc).
Proof.
  induction s as [|c s IH]; intros t acc; cbn [append Str.digitsValue];
    [reflexivity|apply IH].
Qed.

Lemma digitsValue_digit d acc :
  0 <= d < 10 ->
  Str.digitsValue (String (Fmt.digitChar d) EmptyString) acc = 10 * acc + d.
Proof.
  intros Hd. cbn [Str.digitsValue]. unfold Fmt.digitChar.
  rewrite nat_ascii_embedding by lia. lia.
Qed.

Lemma decimalValue_showPos n : 0 <= n -> Str.decimalValue (Fmt.showPos n) = n.
Proof.
  revert n. apply FmtFacts.decimal_ind.
  - reflexivity.
  - intros n Hn IH. unfold Str.decimalValue in *.
    rewrite FmtFacts.showPos_step, digitsValue_append, IH by assumption.
    rewrite digitsValue_digit by (apply Z.mod_pos_bound; lia).
    pose proof (Z.div_mod n 10 ltac:(lia)). lia.
Qed.

Lemma decimalValue_Sprintf_d n :
  0 <= n -> Str.decimalValue (Fmt.Sprintf_d n) = n.
Proof.
  intros Hn. unfold Fmt.Sprintf_d.
  destruct (Z.eqb_spec n 0) as [->|]; [reflexivity|].
  destruct (Z.ltb_spec n 0); [lia|]. now apply decimalValue_showPos.
Qed.

Lemma digitsValue_zeros k : forall s,
  Str.digitsValue (Str.replicate k "0"%char ++ s) 0 = Str.digitsValue s 0.
Proof.
  induction k as [|k IH]; intros s; [reflexivity|].
  cbn [Str.replicate append Str.digitsValue]. apply IH.
Qed.

Lemma Sprintf_d_digits n : 0 <= n -> Str.all Fmt.isDigit (Fmt.Sprintf_d n) = true.
Proof.
  intros Hn. unfold Fmt.Sprintf_d.
  destruct (Z.eqb_spec n 0); [reflexivity|].
  destruct (Z.ltb_spec n 0); [lia|apply FmtFacts.showPos_digits].
Qed.

Lemma replicate_zero_digits k :
  Str.all Fmt.isDigit (Str.replicate k "0"%char) = true.
Proof. induction k as [|k IH]; [reflexivity|exact IH]. Qed.

(** The result of the formatter, read back digit by digit. *)
Lemma formatScaled_read_back v k :
  0 <= v -> 0 <= k ->
  exists whole frac,
    formatScaledUint256AsDecimalString v (10 ^ k)
    = Some (whole ++ "." ++ frac)%string /\
    Str.all Fmt.isDigit whole = true /\
    Str.all Fmt.isDigit frac = true /\
    Str.decimalValue whole = v / 10 ^ k /\
    0 < Fmt.len frac /\
    Str.decimalValue frac * 10 ^ k = v mod 10 ^ k * 10 ^ Fmt.len frac.
Proof.
  intros Hv Hk.
  assert (0 < 10 ^ k) as Hs by (apply Z.pow_pos_nonneg; lia).
  pose proof (Z.mod_pos_bound v _ Hs) as Hb.
  assert (0 <= v / 10 ^ k) as Hw by (apply Z.div_pos; lia).
  rewrite (formatScaled_unfold v (10 ^ k) (k + 1) Hs)
    by (now apply getNumDigits_pow10).
  cbv zeta. destruct (Z.eqb_spec (v mod 10 ^ k) 0) as [E|E]; cbn [negb andb].
  - exists (Fmt.Sprintf_d (v / 10 ^ k)), (Fmt.Sprintf_d (v mod 10 ^ k)).
    split; [reflexivity|]. rewrite !Sprintf_d_digits by lia.
    rewrite !decimalValue_Sprintf_d by lia. rewrite E.
    repeat split; reflexivity.
  - pose proof (remainder_digits_pow10 v k Hk E) as Hlt.
    destruct (Z.eqb_spec (Fmt.len (Fmt.Sprintf_d (v mod 10 ^ k))) (k + 1));
      [lia|]. cbn [negb].
    eexists _, _. split; [reflexivity|].
    rewrite StrFacts.all_append, replicate_zero_digits.
    rewrite !Sprintf_d_digits by lia. split; [reflexivity|]. split; [reflexivity|].
    split; [apply decimalValue_Sprintf_d; lia|].
    unfold Str.decimalValue at 1. rewrite digitsValue_zeros.
    fold (Str.decimalValue (Fmt.Sprintf_d (v mod 10 ^ k))).
    rewrite decimalValue_Sprintf_d by lia.
    rewrite FmtFacts.len_append, len_replicate.
    pose proof (remainder_digits v (10 ^ k) (k + 1) Hs
                  (getNumDigits_pow10 k Hk) E) as Hpos.
    replace (Z.of_nat (Z.to_nat (k + 1 - Fmt.len (Fmt.Sprintf_d (v mod 10 ^ k)) - 1))
             + Fmt.len (Fmt.Sprintf_d (v mod 10 ^ k))) with k by lia.
    split; [lia|reflexivity].
Qed.

Lemma split_at_point s t :
  Str.all Fmt.isDigit s = true ->
  Str.beforePoint (s ++ String "." t) = s /\
  Str.afterPoint (s ++ String "." t) = Some t.
Proof.
  induction s as [|c s IH]; intros H.
  - split; reflexivity.
  - cbn [Str.all] in H. apply andb_true_iff in H. destruct H as [Hc Hs].
    apply isDigit_notPoint in Hc. unfold Str.notPoint in Hc.
    destruct (IH Hs) as [IHb IHa].
    change (String c s ++ String "." t)%string
      with (String c (s ++ String "." t)).
    cbn [Str.beforePoint Str.afterPoint].
    destruct (Ascii.eqb c "."%char); [discriminate|].
    now rewrite IHb, IHa.
Qed.

End Denotation.

(** X2. For every non-negative [v] and every power of ten [s = 10^k], the
    string that [formatScaledUint256AsDecimalString] returns is a numeral
    "<whole>.<frac>" of decimal digits that denotes exactly [v / s]: read
    back, [whole + frac / 10^len(frac)] equals [v / 10^k]. *)
Theorem formatScaled_denotes_quotient (v k : Z) :
  0 <= v -> 0 <= k ->
  exists str,
    formatScaledUint256AsDecimalString v (10 ^ k) = Some str /\
    Str.all Fmt.isDigit (Str.beforePoint str) = true /\
    (exists frac,
       Str.afterPoint str = Some frac /\
       Str.all Fmt.isDigit frac = true /\
       0 < Fmt.len frac /\
       (Str.decimalValue (Str.beforePoint str) * 10 ^ Fmt.len frac
        + Str.decimalValue frac) * 10 ^ k
       = v * 10 ^ Fmt.len frac).
Proof.
  intros Hv Hk.
  destruct (formatScaled_read_back v k Hv Hk)
    as (whole & frac & Hf & Hdw & Hdf & Hvw & Hlen & Hvf).
  destruct (split_at_point whole frac Hdw) as [Hbp Hap].
  exists (whole ++ "." ++ frac)%string. split; [assumption|].
  change (whole ++ "." ++ frac)%string with (whole ++ String "." frac)%string.
  rewrite Hbp, Hap. split; [assumption|]. exists frac.
  split; [reflexivity|]. split; [assumption|]. split; [assumption|].
  assert (0 < 10 ^ k) as Hs by (apply Z.pow_pos_nonneg; lia).
  rewrite Hvw. pose proof (Z.div_mod v (10 ^ k) ltac:(lia)) as Hdm.
  set (p := 10 ^ Fmt.len frac) in *. nia.
Qed.

Lemma formatScaled_injective_pow10 v v' k :
  0 <= v -> 0 <= v' -> 0 <= k ->
  formatScaledUint256AsDecimalString v (10 ^ k)
  = formatScaledUint256AsDecimalString v' (10 ^ k) ->
  v = v'.
Proof.
  intros Hv Hv' Hk Heq.
  destruct (formatScaled_read_back v k Hv Hk)
    as (w & fr & Hf & Hdw & _ & Hvw & _ & Hvf).
  destruct (formatScaled_read_back v' k Hv' Hk)
    as (w' & fr' & Hf' & Hdw' & _ & Hvw' & _ & Hvf').
  rewrite Hf, Hf' in Heq. injection Heq as Heq.
  change (w ++ "." ++ fr)%string with (w ++ String "." fr)%string in Heq.
  change (w' ++ "." ++ fr')%string with (w' ++ String "." fr')%string in Heq.
  destruct (split_at_point w fr Hdw) as [Hb Ha].
  destruct (split_at_point w' fr' Hdw') as [Hb' Ha'].
  rewrite Heq in Hb, Ha. rewrite Hb' in Hb. rewrite Ha' in Ha.
  injection Ha as <-. subst w'.
  assert (0 < 10 ^ k) as Hs by (apply Z.pow_pos_nonneg; lia).
  assert (0 < 10 ^ Fmt.len fr')
    by (apply Z.pow_pos_nonneg; [lia|apply FmtFacts.len_nonneg]).
  pose proof (Z.div_mod v (10 ^ k) ltac:(lia)).
  pose proof (Z.div_mod v' (10 ^ k) ltac:(lia)).
  assert (v mod 10 ^ k = v' mod 10 ^ k) by nia.
  assert (v / 10 ^ k = v' / 10 ^ k) by congruence. nia.
Qed.

Lemma formatScaled_denotes_quotient_witness :
  exists str,
    formatScaledUint256AsDecimalString 1234500 (10 ^ 4) = Some str /\
    Str.all Fmt.isDigit (Str.beforePoint str) = true /\
    (exists frac,
       Str.afterPoint str = Some frac /\
       Str.all Fmt.isDigit frac = true /\
       0 < Fmt.len frac /\
       (Str.decimalValue (Str.beforePoint str) * 10 ^ Fmt.len frac
        + Str.decimalValue frac) * 10 ^ 4
       = 1234500 * 10 ^ Fmt.len frac).
Proof. apply (formatScaled_denotes_quotient 1234500 4); lia. Defined.

(** X3. For a power of ten as scaling factor, two different non-negative
    integers are never formatted to the same string. *)
Theorem formatScaled_distinguishes (v v' k : Z) :
  0 <= v -> 0 <= v' -> 0 <= k ->
  formatScaledUint256AsDecimalString v (10 ^ k)
  = formatScaledUint256AsDecimalString v' (10 ^ k) ->
  v = v'.
Proof. apply formatScaled_injective_pow10. Qed.

Lemma formatScaled_distinguishes_witness : 2500000000 = 2500000000.
Proof.
  apply (formatScaled_distinguishes 2500000000 2500000000 9);
    [lia|lia|lia|reflexivity].
Defined.

(** ** The deprecated float fields against the strings *)

Section FloatFields.

Variable ParseFloat : string -> result float64.

Lemma leading_zeros_count dec k :
  0 <= k -> 0 <= dec < 10 ^ k ->
  getNumDigits dec = Some (Fmt.len (Fmt.showPos dec)) /\
  Fmt.Repeat0 (k + 1 - Fmt.len (Fmt.showPos dec) - 1)
  = Some (Str.replicate (Z.to_nat (k - Fmt.len (Fmt.showPos dec))) "0"%char).
Proof.
  intros Hk Hdec.
  pose proof (FmtFacts.showPos_count dec ltac:(lia)) as Hc. split.
  - now apply getNumDigits_count.
  - pose proof (digitCount_below _ _ k Hc Hk ltac:(lia)).
    rewrite Repeat0_nonneg by lia. do 2 f_equal. lia.
Qed.

Lemma exchangeRateAsFloat_numeral buying selling v :
  Current.CalculateExchangeRateAsFloat ParseFloat buying selling v
  = Some (ParseFloat
            (floatNumeral
               (if String.eqb buying "DESO" then v / 10 ^ 9
                else if String.eqb selling "DESO" then v * 10 ^ 9
                else v) 38)).
Proof.
  unfold Current.CalculateExchangeRateAsFloat, U256.ToBig,
    Current.DESOCoinIdentifierString.
  rewrite scalingFactor_value.
  assert (forall a,
    (whole <- Big.Div a Lib.OneE38 ;;
     decimal <- Big.Mod a Lib.OneE38 ;;
     n1 <- getNumDigits Lib.OneE38 ;;
     n2 <- getNumDigits decimal ;;
     decimalLeadingZeros <- Fmt.Repeat0 (n1 - n2 - 1) ;;
     let str := (Fmt.Sprintf_d whole ++ "." ++ decimalLeadingZeros
                 ++ Fmt.Sprintf_d decimal)%string in
     Some (ParseFloat str)) = Some (ParseFloat (floatNumeral a 38))) as H.
  { intros a. rewrite BigFacts.Div_pos, BigFacts.Mod_pos by reflexivity.
    cbn [obind]. change Lib.OneE38 with (10 ^ 38).
    rewrite getNumDigits_pow10 by lia. cbn [obind].
    destruct (leading_zeros_count (a mod 10 ^ 38) 38) as [Hn Hz];
      [lia|apply Z.mod_pos_bound; lia|].
    rewrite Hn. cbn [obind]. rewrite Hz. reflexivity. }
  destruct (String.eqb buying "DESO").
  - rewrite BigFacts.Div_pos by reflexivity. apply H.
  - destruct (String.eqb selling "DESO"); apply H.
Qed.

Lemma quantityAsFloat_numeral q k :
  0 <= k ->
  Current.calculateQuantityToFillAsFloatWithScalingFactor ParseFloat q (10 ^ k)
  = Some (ParseFloat (floatNumeral q k)).
Proof.
  intros Hk. assert (0 < 10 ^ k) as Hs by (apply Z.pow_pos_nonneg; lia).
  unfold Current.calculateQuantityToFillAsFloatWithScalingFactor, U256.ToBig.
  rewrite getNumDigits_pow10 by assumption. cbn [obind].
  assert (U256.Mod q (10 ^ k) = q mod 10 ^ k) as ->.
  { unfold U256.Mod. destruct (Z.eqb_spec (10 ^ k) 0); [lia|reflexivity]. }
  assert (U256.Div q (10 ^ k) = q / 10 ^ k) as ->.
  { unfold U256.Div. destruct (Z.eqb_spec (10 ^ k) 0); [lia|reflexivity]. }
  destruct (leading_zeros_count (q mod 10 ^ k) k) as [Hn Hz];
    [lia|now apply Z.mod_pos_bound|].
  rewrite Hn. cbn [obind]. rewrite Hz. reflexivity.
Qed.

(** The numeral of the float field is the string field, except that a zero
    fraction is written with [k + 1] zeros instead of one. *)
Lemma floatNumeral_against_string a k :
  0 <= k ->
  exists str,
    formatScaledUint256AsDecimalString a (10 ^ k) = Some str /\
    (a mod 10 ^ k <> 0 -> floatNumeral a k = str) /\
    (a mod 10 ^ k = 0 ->
     str = (Fmt.Sprintf_d (a / 10 ^ k) ++ ".0")%string /\
     floatNumeral a k
     = (Fmt.Sprintf_d (a / 10 ^ k) ++ "."
        ++ Str.replicate (Z.to_nat (k + 1)) "0"%char)%string).
Proof.
  intros Hk. assert (0 < 10 ^ k) as Hs by (apply Z.pow_pos_nonneg; lia).
  rewrite (formatScaled_unfold a (10 ^ k) (k + 1) Hs)
    by (now apply getNumDigits_pow10).
  cbv zeta. destruct (Z.eqb_spec (a mod 10 ^ k) 0) as [E|Hne]; cbn [negb andb].
  - eexists. split; [reflexivity|]. split; [contradiction|]. intros _.
    rewrite E. split; [reflexivity|].
    unfold floatNumeral. rewrite E.
    change (Fmt.len (Fmt.showPos 0)) with 0. rewrite Z.sub_0_r.
    change (Fmt.Sprintf_d 0) with (String "0"%char EmptyString).
    rewrite <- StrFacts.replicate_snoc.
    replace (Z.to_nat (k + 1)) with (S (Z.to_nat k)) by lia. reflexivity.
  - pose proof (remainder_digits_pow10 a k Hk Hne) as Hlt.
    destruct (Z.eqb_spec (Fmt.len (Fmt.Sprintf_d (a mod 10 ^ k))) (k + 1));
      [lia|]. cbn [negb].
    eexists. split; [reflexivity|]. split; [|contradiction]. intros _.
    unfold floatNumeral.
    pose proof (Z.mod_pos_bound a _ Hs) as Hb.
    assert (Fmt.Sprintf_d (a mod 10 ^ k) = Fmt.showPos (a mod 10 ^ k)) as E.
    { unfold Fmt.Sprintf_d. destruct (Z.eqb_spec (a mod 10 ^ k) 0); [lia|].
      destruct (Z.ltb_spec (a mod 10 ^ k) 0); [lia|reflexivity]. }
    rewrite E.
    replace (k + 1 - Fmt.len (Fmt.showPos (a mod 10 ^ k)) - 1)
      with (k - Fmt.len (Fmt.showPos (a mod 10 ^ k))) by lia.
    reflexivity.
Qed.

End FloatFields.

(** X4. The deprecated float exchange rate of a response is parsed from a
    numeral that is the price string itself whenever the price has a
    fractional part, and that differs from it only in writing the zero
    fraction with 39 zeros instead of one otherwise; building the numeral
    never panics. *)
Theorem exchange_rate_float_matches_price :
  forall (ParseFloat : string -> result float64) buying selling v op,
  exists price numeral,
    Current.CalculateStringPriceFromScaledExchangeRate buying selling v op
    = Some (Ok price) /\
    Current.CalculateExchangeRateAsFloat ParseFloat buying selling v
    = Some (ParseFloat numeral) /\
    (numeral = price \/
     exists whole,
       price = (whole ++ ".0")%string /\
       numeral = (whole ++ "." ++ Str.replicate 39 "0"%char)%string).
Proof.
  intros ParseFloat buying selling v op.
  rewrite price_string_adjusted, exchangeRateAsFloat_numeral.
  set (a := if String.eqb buying "DESO" then v / 10 ^ 9
            else if String.eqb selling "DESO" then v * 10 ^ 9 else v).
  change Lib.OneE38 with (10 ^ 38).
  destruct (floatNumeral_against_string a 38 ltac:(lia)) as (str & -> & Hnz & Hz).
  exists str, (floatNumeral a 38). split; [reflexivity|]. split; [reflexivity|].
  destruct (Z.eq_dec (a mod 10 ^ 38) 0) as [E|E].
  - right. destruct (Hz E) as [-> ->]. eexists. split; reflexivity.
  - left. now apply Hnz.
Qed.

(** X5. The deprecated float quantity of a response is parsed from a numeral
    that is the quantity string itself whenever the quantity has a fractional
    part, and that differs from it only in the number of zeros of a zero
    fraction otherwise (10 for the native coin, 19 for a DAO coin); both use
    the same scaling factor. *)
Theorem quantity_float_matches_string :
  forall (ParseFloat : string -> result float64) buying selling op q,
  exists quantity numeral,
    Current.CalculateQuantityAsString buying selling op q
    = Some (Ok quantity) /\
    Current.CalculateQuantityToFillAsFloat ParseFloat buying selling op q
    = Some (ParseFloat numeral) /\
    (numeral = quantity \/
     exists whole,
       quantity = (whole ++ ".0")%string /\
       numeral
       = (whole ++ "."
          ++ Str.replicate
               (if Current.isCoinToFillDESO buying selling op then 10 else 19)
               "0"%char)%string).
Proof.
  intros ParseFloat buying selling op q.
  unfold Current.CalculateQuantityAsString, Current.CalculateQuantityToFillAsFloat,
    Current.calculateQuantityToFillFromDESONanosToFloat,
    Current.calculateQuantityToFillFromDAOCoinBaseUnitsToFloat, U256.ToBig.
  destruct (Current.isCoinToFillDESO buying selling op).
  - change (U256.SetUint64 Lib.NanosPerUnit) with (10 ^ 9).
    change Lib.NanosPerUnit with (10 ^ 9).
    rewrite quantityAsFloat_numeral by lia.
    destruct (floatNumeral_against_string q 9 ltac:(lia))
      as (str & -> & Hnz & Hz). cbn [obind].
    exists str, (floatNumeral q 9). split; [reflexivity|]. split; [reflexivity|].
    destruct (Z.eq_dec (q mod 10 ^ 9) 0) as [E|E].
    + right. destruct (Hz E) as [-> ->]. eexists. split; reflexivity.
    + left. now apply Hnz.
  - change Lib.BaseUnitsPerCoin with (10 ^ 18).
    rewrite quantityAsFloat_numeral by lia.
    destruct (floatNumeral_against_string q 18 ltac:(lia))
      as (str & -> & Hnz & Hz). cbn [obind].
    exists str, (floatNumeral q 18). split; [reflexivity|]. split; [reflexivity|].
    destruct (Z.eq_dec (q mod 10 ^ 18) 0) as [E|E].
    + right. destruct (Hz E) as [-> ->]. eexists. split; reflexivity.
    + left. now apply Hnz.
Qed.

(** ** The response of one order and of a list of orders *)

Section Responses.

Variable ParseFloat : string -> result float64.
Variable PKID : Type.
Variable IsZeroPKID : PKID -> bool.
Variable Base58CheckEncodePublicKeyForPKID : PKID -> string.

Local Abbreviation entry := (Current.DAOCoinLimitOrderEntry PKID).
Local Abbreviation build :=
  (Current.buildDAOCoinLimitOrderResponse ParseFloat PKID).

Lemma build_outcome transactor buying selling (order : entry) :
  (forall resp,
     build transactor buying selling order = Some (Ok resp) ->
     Current.resp_TransactorPublicKeyBase58Check resp = transactor /\
     Current.resp_BuyingDAOCoinCreatorPublicKeyBase58Check resp = buying /\
     Current.resp_SellingDAOCoinCreatorPublicKeyBase58Check resp = selling /\
     Current.resp_OrderID resp = Current.OrderID PKID order /\
     Current.orderOperationTypeToUint64 (Current.resp_OperationType resp)
     = Ok (Current.OperationType PKID order) /\
     Current.CalculateStringPriceFromScaledExchangeRate buying selling
       (Current.ScaledExchangeRateCoinsToSellPerCoinToBuy PKID order)
       (Current.resp_OperationType resp)
     = Some (Ok (Current.resp_Price resp)) /\
     Current.CalculateQuantityAsString buying selling
       (Current.resp_OperationType resp)
       (Current.QuantityToFillInBaseUnits PKID order)
     = Some (Ok (Current.resp_Quantity resp))) /\
  (forall e,
     build transactor buying selling order = Some (Err e) ->
     (e = UnknownEnumValue /\
      exists code,
        Current.OperationType PKID order
        = Lib.DAOCoinLimitOrderOperationTypeOther code) \/
     (exists numeral, ParseFloat numeral = Err e)).
Proof.
  unfold Current.buildDAOCoinLimitOrderResponse.
  destruct (Current.orderOperationTypeToString (Current.OperationType PKID order))
    as [op|e0] eqn:Hop; cbn [rbind].
  - destruct (price_string_returns buying selling
                (Current.ScaledExchangeRateCoinsToSellPerCoinToBuy PKID order) op)
      as (price & Hprice). rewrite Hprice. cbn [rbind].
    destruct (quantityAsString_returns buying selling op
                (Current.QuantityToFillInBaseUnits PKID order)) as (qty & Hqty).
    rewrite Hqty. cbn [rbind].
    rewrite exchangeRateAsFloat_numeral.
    destruct (quantityToFillAsFloat_returns ParseFloat buying selling op
                (Current.QuantityToFillInBaseUnits PKID order)) as (s2 & Hs2).
    rewrite Hs2.
    destruct (ParseFloat (floatNumeral _ 38)) as [rate|e1] eqn:H1; cbn [rbind].
    + destruct (ParseFloat s2) as [fill|e2] eqn:H2; cbn [rbind].
      * split; [|discriminate]. intros resp [= <-]. cbn.
        repeat split; try assumption.
        destruct operation_type_round_trip_aux as [H _]. now apply H.
      * split; [discriminate|]. intros e [= <-]. right. eauto.
    + split; [discriminate|]. intros e [= <-]. right. eauto.
  - split; [discriminate|]. intros e [= <-].
    destruct (Current.OperationType PKID order) as [| |code]; try discriminate.
    injection Hop as <-. left. eauto.
Qed.

End Responses.

(** X6. When [buildDAOCoinLimitOrderResponse] returns a response, the
    response carries the transactor, the two coins and the order identifier
    it was given, an operation-type string that converts back to the order's
    operation type, and the price and quantity strings of the read path; when
    it returns an error, either the operation type is unknown or
    [strconv.ParseFloat] has rejected one of the numerals. *)
Theorem build_response_outcome :
  forall (ParseFloat : string -> result float64) (PKID : Type)
         transactor buying selling
         (order : Current.DAOCoinLimitOrderEntry PKID),
  (forall resp,
     Current.buildDAOCoinLimitOrderResponse ParseFloat PKID
       transactor buying selling order = Some (Ok resp) ->
     Current.resp_TransactorPublicKeyBase58Check resp = transactor /\
     Current.resp_BuyingDAOCoinCreatorPublicKeyBase58Check resp = buying /\
     Current.resp_SellingDAOCoinCreatorPublicKeyBase58Check resp = selling /\
     Current.resp_OrderID resp = Current.OrderID PKID order /\
     Current.orderOperationTypeToUint64 (Current.resp_OperationType resp)
     = Ok (Current.OperationType PKID order) /\
     Current.CalculateStringPriceFromScaledExchangeRate buying selling
       (Current.ScaledExchangeRateCoinsToSellPerCoinToBuy PKID order)
       (Current.resp_OperationType resp)
     = Some (Ok (Current.resp_Price resp)) /\
     Current.CalculateQuantityAsString buying selling
       (Current.resp_OperationType resp)
       (Current.QuantityToFillInBaseUnits PKID order)
     = Some (Ok (Current.resp_Quantity resp))) /\
  (forall e,
     Current.buildDAOCoinLimitOrderResponse ParseFloat PKID
       transactor buying selling order = Some (Err e) ->
     (e = UnknownEnumValue /\
      exists code,
        Current.OperationType PKID order
        = Lib.DAOCoinLimitOrderOperationTypeOther code) \/
     (exists numeral, ParseFloat numeral = Err e)).
Proof. intros. apply build_outcome. Qed.

Lemma build_response_outcome_witness :
  let good :=
    Current.Build_DAOCoinLimitOrderEntry Z "order-1" 1 2 0
      (15 * 10 ^ 28) 2500000000 Lib.DAOCoinLimitOrderOperationTypeASK in
  let bad :=
    Current.Build_DAOCoinLimitOrderEntry Z "order-2" 1 2 0
      (15 * 10 ^ 28) 2500000000 (Lib.DAOCoinLimitOrderOperationTypeOther 7) in
  (exists resp,
     Current.buildDAOCoinLimitOrderResponse LibModel.acceptParseFloat Z
       "BC1YLtransactor" "DAOCoinX" "DESO" good = Some (Ok resp) /\
     Current.resp_OrderID resp = "order-1" /\
     Current.resp_Price resp = "1.50000000000000000000000000000000000000" /\
     Current.resp_Quantity resp = "2.500000000") /\
  (exists code,
     Current.OperationType Z bad
     = Lib.DAOCoinLimitOrderOperationTypeOther code).
Proof.
  intros good bad. split.
  - destruct (Current.buildDAOCoinLimitOrderResponse LibModel.acceptParseFloat
                Z "BC1YLtransactor" "DAOCoinX" "DESO" good)
      as [[resp|e]|] eqn:Hb; [|vm_compute in Hb; discriminate Hb..].
    exists resp. split; [reflexivity|].
    destruct (build_response_outcome LibModel.acceptParseFloat Z
                "BC1YLtransactor" "DAOCoinX" "DESO" good) as [Hok _].
    destruct (Hok resp Hb) as (_ & _ & _ & Hid & Hop & Hprice & Hqty).
    split; [exact Hid|].
    assert (Current.resp_OperationType resp = "ASK") as Hs.
    { destruct operation_type_round_trip_aux as (_ & H & _).
      specialize (H _ _ Hop). now injection H. }
    rewrite Hs in Hprice, Hqty.
    assert (Current.CalculateStringPriceFromScaledExchangeRate
              "DAOCoinX" "DESO"
              (Current.ScaledExchangeRateCoinsToSellPerCoinToBuy Z good) "ASK"
            = Some (Ok "1.50000000000000000000000000000000000000")) as Ep
      by (vm_compute; reflexivity).
    assert (Current.CalculateQuantityAsString "DAOCoinX" "DESO" "ASK"
              (Current.QuantityToFillInBaseUnits Z good)
            = Some (Ok "2.500000000")) as Eq
      by (vm_compute; reflexivity).
    rewrite Ep in Hprice. rewrite Eq in Hqty.
    split; congruence.
  - destruct (build_response_outcome LibModel.acceptParseFloat Z
                "BC1YLtransactor" "DAOCoinX" "DESO" bad) as [_ Herr].
    destruct (Herr UnknownEnumValue eq_refl) as [[_ H]|[numeral H]];
      [exact H|discriminate H].
Defined.

Section BulkCounts.

Variables (E R : Type) (buildOne : E -> option (result R)).
Hypothesis buildOne_returns : forall order, exists r, buildOne order = Some r.

Lemma built_and_failed_partition (orders : list E) :
  (List.length (builtResponses buildOne orders)
   + List.length (failedOrders buildOne orders))%nat
  = List.length orders.
Proof.
  induction orders as [|order rest IH]; [reflexivity|].
  unfold builtResponses, failedOrders in *. cbn [flat_map filter].
  destruct (buildOne_returns order) as ([r|e] & ->);
    cbn [app List.length]; lia.
Qed.

End BulkCounts.

(** X7. Both bulk builders always return, with exactly the responses of the
    entries that build, in their original order; the per-transactor builder
    logs exactly the identifiers of the entries that fail, in order, so that
    the responses and the log lines together count the orders. *)
Theorem bulk_builders_partition_orders :
  forall (ParseFloat : string -> result float64) (PKID : Type)
         (IsZeroPKID : PKID -> bool) (encode : PKID -> string)
         (orders : list (Current.DAOCoinLimitOrderEntry PKID)),
  (forall buying selling,
     let buildFor := fun order =>
       Current.buildDAOCoinLimitOrderResponse ParseFloat PKID
         (encode (Current.TransactorPKID PKID order)) buying selling order in
     Current.buildDAOCoinLimitOrderResponsesFromEntriesForCoinPair
       ParseFloat PKID encode buying selling orders
     = Some (builtResponses buildFor orders, []) /\
     (List.length (builtResponses buildFor orders) <= List.length orders)%nat) /\
  (forall transactor,
     let buildFor := fun order =>
       Current.buildDAOCoinLimitOrderResponse ParseFloat PKID transactor
         (Current.getPublicKeyBase58CheckOrCoinIdentifierForPKID PKID
            IsZeroPKID encode (Current.BuyingDAOCoinCreatorPKID PKID order))
         (Current.getPublicKeyBase58CheckOrCoinIdentifierForPKID PKID
            IsZeroPKID encode (Current.SellingDAOCoinCreatorPKID PKID order))
         order in
     Current.buildDAOCoinLimitOrderResponsesForTransactor
       ParseFloat PKID IsZeroPKID encode transactor orders
     = Some (builtResponses buildFor orders,
             map (Current.OrderID PKID) (failedOrders buildFor orders)) /\
     (List.length (builtResponses buildFor orders)
      + List.length (map (Current.OrderID PKID) (failedOrders buildFor orders)))%nat
     = List.length orders).
Proof.
  intros ParseFloat PKID IsZeroPKID encode orders. split.
  - intros buying selling buildFor. split.
    + apply coinPair_builder_result.
    + rewrite <- (built_and_failed_partition _ _ buildFor) with (orders := orders).
      * lia.
      * intros order. apply build_returns.
  - intros transactor buildFor. split.
    + apply transactor_builder_result.
    + rewrite length_map. apply built_and_failed_partition.
      intros order. apply build_returns.
Qed.

(** ** The two revisions of formatFloatAsString *)

Section Revisions.

Lemma negative_never_formatted f I :
  Float64.bigFloatInt f = Some I -> I < 0 ->
  Current.formatFloatAsString f = None /\
  (- 2 ^ 63 <= I ->
   Float64.toInt64 f = Some I /\ Legacy.formatFloatAsString f = None).
Proof.
  intros HI Hneg. split.
  - unfold Current.formatFloatAsString. rewrite HI. cbn [obind].
    now rewrite getNumDigits_negative.
  - intros Hmin.
    assert (Float64.toInt64 f = Some I) as Hi
      by (apply toInt64_in_range; [assumption|lia]).
    split; [assumption|]. unfold Legacy.formatFloatAsString.
    rewrite Hi. cbn [obind]. now rewrite getNumDigits_negative.
Qed.

Lemma fracDigits_truncated hi k :
  Str.all Fmt.isDigit hi = true ->
  Fmt.fracDigits (hi ++ Str.replicate k "0"%char ++ ".0") = 1.
Proof.
  intros Hhi. unfold Fmt.fracDigits.
  rewrite afterPoint_skip
    by (apply (all_weaken Fmt.isDigit); [apply isDigit_notPoint|assumption]).
  rewrite afterPoint_skip
    by (apply (all_weaken Fmt.isDigit);
        [apply isDigit_notPoint|apply replicate_zero_digits]).
  reflexivity.
Qed.

End Revisions.

(** X8. On every finite float whose integer part is non-negative and has
    fewer than 15 digits the two revisions of [formatFloatAsString] return
    the same string; from 15 integer digits on (within the int64 range) they
    never do: the earlier revision prints six decimal places where the
    present one prints none or a single zero. *)
Theorem formatFloat_revisions_compared f I :
  Float64.bigFloatInt f = Some I ->
  (0 <= I < 10 ^ 14 ->
   exists str, Current.formatFloatAsString f = Some str /\
               Legacy.formatFloatAsString f = Some str) /\
  (10 ^ 14 <= I < 2 ^ 63 ->
   exists cur old,
     Current.formatFloatAsString f = Some cur /\
     Legacy.formatFloatAsString f = Some old /\
     Fmt.fracDigits old = 6 /\ Fmt.fracDigits cur <= 1 /\ cur <> old).
Proof.
  intros HI. split; intros Hr.
  - assert (I < 2 ^ 63) by (assert (10 ^ 14 < 2 ^ 63) by reflexivity; lia).
    destruct (formatFloat_shape f I HI ltac:(lia)) as (n & Hn & Hsmall & _).
    destruct (legacy_formatFloat_shape f I HI ltac:(lia)) as (n' & Hn' & Hold).
    rewrite Hn in Hn'. injection Hn' as <-.
    assert (n <= 14) by (apply (digits_below I n 14 Hn); lia).
    destruct (Hsmall ltac:(lia)) as [Hcur _].
    exists (Fmt.Sprintf_f (15 - n) f). split; [assumption|].
    rewrite Hold. destruct (Z.ltb_spec n 15); [reflexivity|lia].
  - assert (0 <= I) by (assert (0 < 10 ^ 14) by reflexivity; lia).
    destruct (formatFloat_shape f I HI ltac:(lia)) as (n & Hn & Hsmall & Hlarge).
    destruct (legacy_formatFloat_shape f I HI ltac:(lia)) as (n' & Hn' & Hold).
    rewrite Hn in Hn'. injection Hn' as <-.
    assert (~ n <= 14) as Hn15
      by (intros Hle; apply (digits_below I n 14 Hn) in Hle; lia).
    destruct (Z.ltb_spec n 15); [lia|].
    assert (Fmt.fracDigits (Fmt.Sprintf_f 6 f) = 6) as Hsix
      by (apply (fracDigits_Sprintf_f 6 f I); [assumption|lia]).
    assert (forall cur, Fmt.fracDigits cur <= 1 -> cur <> Fmt.Sprintf_f 6 f)
      as Hdiff by (intros cur Hle ->; lia).
    destruct (Z.le_gt_cases n 15) as [Hle|Hgt].
    + destruct (Hsmall Hle) as [Hcur Hfd].
      exists (Fmt.Sprintf_f (15 - n) f), (Fmt.Sprintf_f 6 f).
      repeat split; try assumption; [lia|apply Hdiff; lia].
    + destruct (Hlarge Hgt) as (hi & lo & Hsplit & Hhi & Hcur).
      assert (Str.all Fmt.isDigit hi = true) as Hdig.
      { pose proof (Sprintf_d_digits I ltac:(lia)) as Hall.
        rewrite Hsplit, StrFacts.all_append in Hall.
        now apply andb_true_iff in Hall. }
      pose proof (fracDigits_truncated hi (String.length lo) Hdig) as Hone.
      eexists _, (Fmt.Sprintf_f 6 f).
      repeat split; try eassumption; [lia|apply Hdiff; lia].
Qed.

Lemma formatFloat_revisions_compared_witness :
  (exists str,
     Current.formatFloatAsString (Float64.Finite false 5 (-1)) = Some str /\
     Legacy.formatFloatAsString (Float64.Finite false 5 (-1)) = Some str) /\
  (exists cur old,
     Current.formatFloatAsString (Float64.Finite false 7716049313271605 4)
     = Some cur /\
     Legacy.formatFloatAsString (Float64.Finite false 7716049313271605 4)
     = Some old /\
     Fmt.fracDigits old = 6 /\ Fmt.fracDigits cur <= 1 /\ cur <> old).
Proof.
  split.
  - destruct (formatFloat_revisions_compared (Float64.Finite false 5 (-1)) 2
                eq_refl) as [H _].
    apply H. lia.
  - destruct (formatFloat_revisions_compared
                (Float64.Finite false 7716049313271605 4) 123456789012345680
                eq_refl) as [_ H].
    apply H. lia.
Defined.

(** X9. On every float whose integer part is negative, the digit-counting
    loop never exits, so [formatFloatAsString] of the present revision
    returns nothing, and neither does its float write path, whatever the
    coins. The earlier revision, which takes the integer part by the
    conversion [int64(f)], does the same whenever the integer part is within
    the int64 range, where that conversion is exact. *)
Theorem negative_rate_never_returns f I :
  Float64.bigFloatInt f = Some I -> I < 0 ->
  (forall fuel, getNumDigits_loop fuel I 0 = None) /\
  Current.formatFloatAsString f = None /\
  (forall parse buying selling,
     Current.CalculateScaledExchangeRateFromFloat parse buying selling f
     = None) /\
  (- 2 ^ 63 <= I ->
   Float64.toInt64 f = Some I /\
   Legacy.formatFloatAsString f = None /\
   forall parse buying selling,
     Legacy.CalculateScaledExchangeRate parse buying selling f = None).
Proof.
  intros HI Hneg. destruct (negative_never_formatted f I HI Hneg) as [Hc Hl].
  split; [intros fuel; now apply loop_negative|].
  split; [assumption|]. split.
  - intros parse buying selling.
    unfold Current.CalculateScaledExchangeRateFromFloat.
    now rewrite Hc.
  - intros Hmin. destruct (Hl Hmin) as [Hi Hnone].
    split; [assumption|]. split; [assumption|].
    intros parse buying selling. unfold Legacy.CalculateScaledExchangeRate.
    now rewrite Hnone.
Qed.

Lemma negative_rate_never_returns_witness :
  Current.formatFloatAsString (Float64.Finite true 5 (-1)) = None /\
  Float64.toInt64 (Float64.Finite true 5 (-1)) = Some (-2) /\
  Legacy.formatFloatAsString (Float64.Finite true 5 (-1)) = None.
Proof.
  destruct (negative_rate_never_returns (Float64.Finite true 5 (-1)) (-2)
              eq_refl ltac:(lia)) as (_ & Hc & _ & Hl).
  destruct (Hl ltac:(lia)) as (Hi & Hnone & _).
  split; [assumption|]. split; assumption.
Defined.

(** ** The balance check of a new order *)

Section BalanceCheck.

Variable PKID : Type.
Variable ZeroPKID : PKID.
Variable PKID_Eq : PKID -> PKID -> bool.
Variable UtxoView : Type.
Variable GetAugmentedUniversalView : result UtxoView.
Variable GetPubKeyBytesFromBase58Check : string -> result string.
Variable GetPKIDForPublicKey : UtxoView -> string -> PKID.
Variable Base58CheckDecode : string -> result string.
Variable GetDeSoBalanceNanosForPublicKey : UtxoView -> string -> result Z.
Variable GetBalanceEntryForHODLerPubKeyAndCreatorPubKey
  : UtxoView -> string -> string -> option Z.
Variable GetAllDAOCoinLimitOrdersForThisTransactor
  : UtxoView -> PKID -> result (list (Current.DAOCoinLimitOrderEntry PKID)).
Variable ComputeBaseUnitsToSellUint256 : Z -> Z -> result Z.
Variable BaseUnitsToSellUint256 : Current.DAOCoinLimitOrderEntry PKID -> result Z.
Variable SafeUint256Add : Z -> Z -> result Z.

Local Abbreviation entry := (Current.DAOCoinLimitOrderEntry PKID).
Local Abbreviation getPKID :=
  (Current.getPKIDFromPublicKeyBase58Check PKID UtxoView
     GetPubKeyBytesFromBase58Check GetPKIDForPublicKey).
Local Abbreviation validate :=
  (Current.validateTransactorSellingCoinBalance PKID ZeroPKID PKID_Eq
     UtxoView GetAugmentedUniversalView GetPubKeyBytesFromBase58Check
     GetPKIDForPublicKey Base58CheckDecode GetDeSoBalanceNanosForPublicKey
     GetBalanceEntryForHODLerPubKeyAndCreatorPubKey
     GetAllDAOCoinLimitOrdersForThisTransactor ComputeBaseUnitsToSellUint256
     BaseUnitsToSellUint256 SafeUint256Add).
Local Abbreviation addOpen :=
  (Current.addOpenOrders PKID PKID_Eq BaseUnitsToSellUint256 SafeUint256Add).
Local Abbreviation onPair := (fun b s (order : entry) =>
  PKID_Eq b (Current.BuyingDAOCoinCreatorPKID PKID order)
  && PKID_Eq s (Current.SellingDAOCoinCreatorPKID PKID order)).

(** X12. [validateTransactorSellingCoinBalance] never accepts an order whose
    operation type is neither "ASK" nor "BID", whatever the chain state and
    the balances. *)
Theorem balance_check_rejects_unknown_operation
  transactor buying selling op rate quantity :
  op <> "ASK" -> op <> "BID" ->
  validate transactor buying selling op rate quantity <> None.
Proof.
  intros HA HB. unfold Current.validateTransactorSellingCoinBalance,
    Current.orReject.
  destruct GetAugmentedUniversalView as [view|]; [|discriminate].
  destruct (getPKID view transactor); [|discriminate].
  destruct (Base58CheckDecode transactor); [|discriminate].
  destruct (if String.eqb buying _ then _ else _); [|discriminate].
  destruct (if String.eqb selling _ then _ else _) as [e|[sp bal]];
    [discriminate|].
  destruct (GetAllDAOCoinLimitOrdersForThisTransactor view _); [|discriminate].
  apply String.eqb_neq in HA, HB.
  unfold Current.DAOCoinLimitOrderOperationTypeStringASK,
    Current.DAOCoinLimitOrderOperationTypeStringBID.
  rewrite HA, HB. discriminate.
Qed.

(** The loop adds the selling quantities of the open orders on the pair,
    and of no other. *)
Lemma addOpen_total b s (orders : list entry) :
  (forall x y z, SafeUint256Add x y = Ok z -> z = x + y) ->
  forall t T,
    addOpen b s orders t = inr T ->
    exists sells,
      Forall2 (fun order x => BaseUnitsToSellUint256 order = Ok x)
              (filter (onPair b s) orders) sells /\
      T = t + sumZ sells.
Proof.
  intros Hadd. induction orders as [|order rest IH]; intros t T;
    cbn [Current.addOpenOrders filter].
  - intros [= <-]. exists []. split; [constructor|unfold sumZ; cbn [fold_right]; lia].
  - destruct (onPair b s order).
    + destruct (BaseUnitsToSellUint256 order) as [x|] eqn:Hx; [|discriminate].
      destruct (SafeUint256Add t x) as [t'|] eqn:Ht; [|discriminate].
      intros H. destruct (IH _ _ H) as (sells & HF & ->).
      apply Hadd in Ht. subst t'.
      exists (x :: sells).
      split; [now constructor|unfold sumZ; cbn [fold_right]; lia].
    + apply IH.
Qed.

Lemma addOpen_succeeds b s (orders : list entry) :
  (forall x y, 0 <= x -> 0 <= y -> x + y < U256.modulus ->
               SafeUint256Add x y = Ok (x + y)) ->
  forall sells t,
    Forall2 (fun order x => BaseUnitsToSellUint256 order = Ok x)
            (filter (onPair b s) orders) sells ->
    Forall (fun x => 0 <= x) sells ->
    0 <= t -> t + sumZ sells < U256.modulus ->
    addOpen b s orders t = inr (t + sumZ sells).
Proof.
  intros Hadd. induction orders as [|order rest IH]; intros sells t;
    cbn [Current.addOpenOrders filter].
  - intros HF. inversion HF; subst. unfold sumZ. cbn [fold_right].
    intros _ _ _. f_equal. lia.
  - destruct (onPair b s order).
    + intros HF Hnn Ht Hlt. inversion HF as [|o x l sells' Hx HF']; subst.
      inversion Hnn as [|x' l' Hx0 Hnn']; subst.
      rewrite Hx.
      assert (0 <= sumZ sells') as Hs0.
      { clear -Hnn'. unfold sumZ.
        induction Hnn' as [|y l Hy _ IH']; cbn [fold_right]; lia. }
      assert (sumZ (x :: sells') = x + sumZ sells') as Hcons by reflexivity.
      rewrite Hcons in *. rewrite Hadd by lia.
      rewrite (IH sells' (t + x)) by (assumption || lia). f_equal. lia.
    + apply IH.
Qed.

(** The transactor's balance of the selling coin and the PKID of that coin,
    as the check resolves them in the view. *)
Local Abbreviation sellingResolved := (fun view tkey selling sPKID balance =>
  (selling = "DESO" /\ sPKID = ZeroPKID /\
   exists nanos,
     GetDeSoBalanceNanosForPublicKey view tkey = Ok nanos /\
     balance = U256.SetUint64 nanos) \/
  (selling <> "DESO" /\ getPKID view selling = Ok sPKID /\
   exists skey,
     Base58CheckDecode selling = Ok skey /\
     GetBalanceEntryForHODLerPubKeyAndCreatorPubKey view tkey skey
     = Some balance)).

(** The selling quantity of the new order. *)
Local Abbreviation newOrderSells := (fun (op : string) rate quantity own =>
  (op = "ASK" /\ own = quantity) \/
  (op = "BID" /\ ComputeBaseUnitsToSellUint256 rate quantity = Ok own)).

Lemma validate_resolved
  view tPKID tkey bPKID sPKID balance orders
  transactor buying selling op rate quantity :
  GetAugmentedUniversalView = Ok view ->
  getPKID view transactor = Ok tPKID ->
  Base58CheckDecode transactor = Ok tkey ->
  (if String.eqb buying "DESO" then Ok ZeroPKID else getPKID view buying)
  = Ok bPKID ->
  sellingResolved view tkey selling sPKID balance ->
  GetAllDAOCoinLimitOrdersForThisTransactor view tPKID = Ok orders ->
  validate transactor buying selling op rate quantity
  = match (if String.eqb op "ASK" then inr quantity
           else if String.eqb op "BID" then
             match ComputeBaseUnitsToSellUint256 rate quantity with
             | Err _ => inl Current.ErrorCalculatingNewOrderSellingQuantity
             | Ok total => inr total
             end
           else inl Current.InvalidOperationType) with
    | inl e => Some e
    | inr own =>
        match addOpen bPKID sPKID orders own with
        | inl e => Some e
        | inr total =>
            if balance <? total
            then Some Current.InsufficientBalanceToOpenOrder else None
        end
    end.
Proof.
  intros Hview Ht Hkey Hb Hs Horders.
  unfold Current.validateTransactorSellingCoinBalance, Current.orReject,
    Current.DESOCoinIdentifierString,
    Current.DAOCoinLimitOrderOperationTypeStringASK,
    Current.DAOCoinLimitOrderOperationTypeStringBID.
  rewrite Hview, Ht, Hkey, Hb.
  destruct Hs as [(-> & -> & nanos & Hn & ->)|(Hne & Hsp & skey & Hsk & Hbal)].
  - rewrite String.eqb_refl, Hn, Horders. reflexivity.
  - apply String.eqb_neq in Hne. rewrite Hne, Hsp, Hsk, Hbal, Horders.
    reflexivity.
Qed.

(** X10. If [validateTransactorSellingCoinBalance] accepts a new order, the
    transactor's balance of the selling coin covers the selling quantity of
    the new order plus the selling quantities of the transactor's open
    orders on the same pair of coins (open orders on other pairs are not
    counted). *)
Theorem balance_check_never_overspends
  view tPKID tkey bPKID sPKID balance orders
  transactor buying selling op rate quantity :
  GetAugmentedUniversalView = Ok view ->
  getPKID view transactor = Ok tPKID ->
  Base58CheckDecode transactor = Ok tkey ->
  (if String.eqb buying "DESO" then Ok ZeroPKID else getPKID view buying)
  = Ok bPKID ->
  sellingResolved view tkey selling sPKID balance ->
  GetAllDAOCoinLimitOrdersForThisTransactor view tPKID = Ok orders ->
  (forall x y z, SafeUint256Add x y = Ok z -> z = x + y) ->
  validate transactor buying selling op rate quantity = None ->
  exists own sells,
    newOrderSells op rate quantity own /\
    Forall2 (fun order x => BaseUnitsToSellUint256 order = Ok x)
            (filter (onPair bPKID sPKID) orders) sells /\
    own + sumZ sells <= balance.
Proof.
  intros Hview Ht Hkey Hb Hs Horders Hadd.
  rewrite (validate_resolved view tPKID tkey bPKID sPKID balance orders)
    by assumption.
  assert (forall own,
    match addOpen bPKID sPKID orders own with
    | inl e => Some e
    | inr total =>
        if balance <? total
        then Some Current.InsufficientBalanceToOpenOrder else None
    end = None ->
    exists sells,
      Forall2 (fun order x => BaseUnitsToSellUint256 order = Ok x)
              (filter (onPair bPKID sPKID) orders) sells /\
      own + sumZ sells <= balance) as Hloop.
  { intros own. destruct (addOpen bPKID sPKID orders own) as [e|T] eqn:HT;
      [discriminate|].
    destruct (Z.ltb_spec balance T); [discriminate|]. intros _.
    destruct (addOpen_total bPKID sPKID orders Hadd own T HT)
      as (sells & HF & ->).
    exists sells. split; [assumption|lia]. }
  destruct (String.eqb_spec op "ASK") as [->|HA].
  - intros H. destruct (Hloop _ H) as (sells & HF & Hle).
    exists quantity, sells. auto.
  - destruct (String.eqb_spec op "BID") as [->|HB]; [|discriminate].
    destruct (ComputeBaseUnitsToSellUint256 rate quantity) as [own|] eqn:Hown;
      [|discriminate].
    intros H. destruct (Hloop _ H) as (sells & HF & Hle).
    exists own, sells. auto.
Qed.

(** X11. Conversely, if the balance (a 256-bit value) covers the selling
    quantity of the new order plus those of the open orders on the same pair,
    and the selling quantity of every such order can be computed, then
    [validateTransactorSellingCoinBalance] accepts: the checked additions
    never fail below the balance. *)
Theorem balance_check_accepts_covered_orders
  view tPKID tkey bPKID sPKID balance orders
  transactor buying selling op rate quantity own sells :
  GetAugmentedUniversalView = Ok view ->
  getPKID view transactor = Ok tPKID ->
  Base58CheckDecode transactor = Ok tkey ->
  (if String.eqb buying "DESO" then Ok ZeroPKID else getPKID view buying)
  = Ok bPKID ->
  sellingResolved view tkey selling sPKID balance ->
  GetAllDAOCoinLimitOrdersForThisTransactor view tPKID = Ok orders ->
  (forall x y, 0 <= x -> 0 <= y -> x + y < U256.modulus ->
               SafeUint256Add x y = Ok (x + y)) ->
  0 <= own -> Forall (fun x => 0 <= x) sells -> balance < U256.modulus ->
  newOrderSells op rate quantity own ->
  Forall2 (fun order x => BaseUnitsToSellUint256 order = Ok x)
          (filter (onPair bPKID sPKID) orders) sells ->
  own + sumZ sells <= balance ->
  validate transactor buying selling op rate quantity = None.
Proof.
  intros Hview Ht Hkey Hb Hs Horders Hadd Hown0 Hnn Hbal Hown HF Hle.
  rewrite (validate_resolved view tPKID tkey bPKID sPKID balance orders)
    by assumption.
  assert (match addOpen bPKID sPKID orders own with
          | inl e => Some e
          | inr total =>
              if balance <? total
              then Some Current.InsufficientBalanceToOpenOrder else None
          end = None) as Hloop.
  { rewrite (addOpen_succeeds bPKID sPKID orders Hadd sells own HF Hnn)
      by lia.
    destruct (Z.ltb_spec balance (own + sumZ sells)); [lia|reflexivity]. }
  destruct Hown as [[-> ->]|[-> Hc]].
  - exact Hloop.
  - cbn [String.eqb Ascii.eqb Bool.eqb]. rewrite Hc. exact Hloop.
Qed.

End BalanceCheck.

Section SampleState.

Lemma sample_add_sound x y z : Sample.SafeUint256Add x y = Ok z -> z = x + y.
Proof.
  unfold Sample.SafeUint256Add. destruct (x + y <? U256.modulus);
    [now intros [= <-]|discriminate].
Qed.

Lemma sample_add_complete x y :
  0 <= x -> 0 <= y -> x + y < U256.modulus ->
  Sample.SafeUint256Add x y = Ok (x + y).
Proof.
  intros _ _ H. unfold Sample.SafeUint256Add.
  destruct (Z.ltb_spec (x + y) U256.modulus); [reflexivity|lia].
Qed.

End SampleState.

Lemma balance_check_never_overspends_witness :
  let orders :=
    [ Current.Build_DAOCoinLimitOrderEntry Sample.PKID "order-1"
        "BC1YLtransactor" "DAOCoinX" Sample.ZeroPKID
        (15 * 10 ^ 28) 1000000000 Lib.DAOCoinLimitOrderOperationTypeASK;
      Current.Build_DAOCoinLimitOrderEntry Sample.PKID "order-2"
        "BC1YLtransactor" "DAOCoinY" Sample.ZeroPKID
        (15 * 10 ^ 28) 4000000000 Lib.DAOCoinLimitOrderOperationTypeASK ] in
  exists own sells,
    (("ASK" = "ASK" /\ own = 2500000000) \/
     ("ASK" = "BID" /\
      Sample.ComputeBaseUnitsToSellUint256 (15 * 10 ^ 28) 2500000000 = Ok own)) /\
    Forall2 (fun order x => Sample.BaseUnitsToSellUint256 order = Ok x)
            (filter (fun order =>
                       String.eqb "DAOCoinX"
                         (Current.BuyingDAOCoinCreatorPKID Sample.PKID order)
                       && String.eqb Sample.ZeroPKID
                            (Current.SellingDAOCoinCreatorPKID Sample.PKID order))
                    orders) sells /\
    own + sumZ sells <= 5000000000.
Proof.
  intros orders.
  apply (balance_check_never_overspends
           Sample.PKID Sample.ZeroPKID String.eqb Sample.UtxoView
           Sample.GetAugmentedUniversalView Sample.GetPubKeyBytesFromBase58Check
           Sample.GetPKIDForPublicKey Sample.Base58CheckDecode
           (Sample.GetDeSoBalanceNanosForPublicKey 5000000000)
           (Sample.GetBalanceEntryForHODLerPubKeyAndCreatorPubKey 5000000000)
           (Sample.GetAllDAOCoinLimitOrdersForThisTransactor orders)
           Sample.ComputeBaseUnitsToSellUint256 Sample.BaseUnitsToSellUint256
           Sample.SafeUint256Add
           tt "BC1YLtransactor" "BC1YLtransactor" "DAOCoinX" Sample.ZeroPKID
           5000000000 orders
           "BC1YLtransactor" "DAOCoinX" "DESO" "ASK" (15 * 10 ^ 28) 2500000000).
  - reflexivity.
  - reflexivity.
  - reflexivity.
  - reflexivity.
  - left. split; [reflexivity|]. split; [reflexivity|].
    exists 5000000000. split; reflexivity.
  - reflexivity.
  - apply sample_add_sound.
  - vm_compute. reflexivity.
Defined.

Lemma balance_check_accepts_covered_orders_witness :
  let orders :=
    [ Current.Build_DAOCoinLimitOrderEntry Sample.PKID "order-1"
        "BC1YLtransactor" "DAOCoinX" Sample.ZeroPKID
        (15 * 10 ^ 28) 1000000000 Lib.DAOCoinLimitOrderOperationTypeASK;
      Current.Build_DAOCoinLimitOrderEntry Sample.PKID "order-2"
        "BC1YLtransactor" "DAOCoinY" Sample.ZeroPKID
        (15 * 10 ^ 28) 4000000000 Lib.DAOCoinLimitOrderOperationTypeASK ] in
  Sample.validate 5000000000 orders
    "BC1YLtransactor" "DAOCoinX" "DESO" "ASK" (15 * 10 ^ 28) 2500000000
  = None.
Proof.
  intros orders.
  apply (balance_check_accepts_covered_orders
           Sample.PKID Sample.ZeroPKID String.eqb Sample.UtxoView
           Sample.GetAugmentedUniversalView Sample.GetPubKeyBytesFromBase58Check
           Sample.GetPKIDForPublicKey Sample.Base58CheckDecode
           (Sample.GetDeSoBalanceNanosForPublicKey 5000000000)
           (Sample.GetBalanceEntryForHODLerPubKeyAndCreatorPubKey 5000000000)
           (Sample.GetAllDAOCoinLimitOrdersForThisTransactor orders)
           Sample.ComputeBaseUnitsToSellUint256 Sample.BaseUnitsToSellUint256
           Sample.SafeUint256Add
           tt "BC1YLtransactor" "BC1YLtransactor" "DAOCoinX" Sample.ZeroPKID
           5000000000 orders
           "BC1YLtransactor" "DAOCoinX" "DESO" "ASK" (15 * 10 ^ 28) 2500000000
           2500000000 [1000000000]).
  - reflexivity.
  - reflexivity.
  - reflexivity.
  - reflexivity.
  - left. split; [reflexivity|]. split; [reflexivity|].
    exists 5000000000. split; reflexivity.
  - reflexivity.
  - apply sample_add_complete.
  - lia.
  - constructor; [lia|constructor].
  - reflexivity.
  - left. split; reflexivity.
  - constructor; [reflexivity|constructor].
  - vm_compute. discriminate.
Defined.

Lemma balance_check_rejects_unknown_operation_witness :
  Sample.validate 5000000000 []
    "BC1YLtransactor" "DAOCoinX" "DESO" "SELL" (15 * 10 ^ 28) 2500000000
  <> None.
Proof.
  apply (balance_check_rejects_unknown_operation
           Sample.PKID Sample.ZeroPKID String.eqb Sample.UtxoView
           Sample.GetAugmentedUniversalView Sample.GetPubKeyBytesFromBase58Check
           Sample.GetPKIDForPublicKey Sample.Base58CheckDecode
           (Sample.GetDeSoBalanceNanosForPublicKey 5000000000)
           (Sample.GetBalanceEntryForHODLerPubKeyAndCreatorPubKey 5000000000)
           (Sample.GetAllDAOCoinLimitOrdersForThisTransactor [])
           Sample.ComputeBaseUnitsToSellUint256 Sample.BaseUnitsToSellUint256
           Sample.SafeUint256Add).
  - apply String.eqb_neq. reflexivity.
  - apply String.eqb_neq. reflexivity.
Defined.

(** ** The listing handlers *)

Section Handlers.

Variable ParseFloat : string -> result float64.
Variable PKID : Type.
Variable ZeroPKID : PKID.
Variable IsZeroPKID : PKID -> bool.
Variable UtxoView : Type.
Variable GetAugmentedUniversalView : result UtxoView.
Variable GetPubKeyBytesFromBase58Check : string -> result string.
Variable GetPKIDForPublicKey : UtxoView -> string -> PKID.
Variable GetPublicKeyForPKID : UtxoView -> PKID -> string.
Variable Base58CheckEncode : string -> string.
Variable GetAllDAOCoinLimitOrdersForThisTransactor
  : UtxoView -> PKID -> result (list (Current.DAOCoinLimitOrderEntry PKID)).
Variable GetAllDAOCoinLimitOrdersForThisDAOCoinPair
  : UtxoView -> PKID -> PKID
    -> result (list (Current.DAOCoinLimitOrderEntry PKID)).
Variable RequestBody : Type.
Variable DecodeGetDAOCoinLimitOrdersRequest
  : RequestBody -> result Current.GetDAOCoinLimitOrdersRequest.
Variable DecodeGetTransactorDAOCoinLimitOrdersRequest
  : RequestBody -> result string.
Variable EncodeResponse
  : list Current.DAOCoinLimitOrderEntryResponse -> option error.

Local Abbreviation getPKID :=
  (Current.getPKIDFromPublicKeyBase58Check PKID UtxoView
     GetPubKeyBytesFromBase58Check GetPKIDForPublicKey).
Local Abbreviation listPair :=
  (Current.GetDAOCoinLimitOrders ParseFloat PKID ZeroPKID UtxoView
     GetAugmentedUniversalView GetPubKeyBytesFromBase58Check
     GetPKIDForPublicKey GetPublicKeyForPKID Base58CheckEncode
     GetAllDAOCoinLimitOrdersForThisDAOCoinPair RequestBody
     DecodeGetDAOCoinLimitOrdersRequest EncodeResponse).
Local Abbreviation listTransactor :=
  (Current.GetTransactorDAOCoinLimitOrders ParseFloat PKID IsZeroPKID UtxoView
     GetAugmentedUniversalView GetPubKeyBytesFromBase58Check
     GetPKIDForPublicKey GetPublicKeyForPKID Base58CheckEncode
     GetAllDAOCoinLimitOrdersForThisTransactor RequestBody
     DecodeGetTransactorDAOCoinLimitOrdersRequest EncodeResponse).
Local Abbreviation encodeIn := (fun view pkid =>
  Base58CheckEncode (GetPublicKeyForPKID view pkid)).
Local Abbreviation responsesFor := (fun view buying selling orders =>
  builtResponses
    (fun order =>
       Current.buildDAOCoinLimitOrderResponse ParseFloat PKID
         (encodeIn view (Current.TransactorPKID PKID order))
         buying selling order)
    orders).

Ltac destruct_lookup :=
  match goal with
  | |- context [match ?x with Ok _ => _ | Err _ => _ end] =>
      destruct x eqn:?
  end.

Lemma pair_listing_returns (body : RequestBody) :
  exists outcome, listPair body = Some outcome.
Proof.
  unfold Current.GetDAOCoinLimitOrders. destruct_lookup; [|eauto]. cbv zeta.
  destruct (_ && _); [eauto|].
  destruct_lookup; [|eauto]. destruct_lookup; [|eauto].
  destruct_lookup; [|eauto]. destruct_lookup; [|eauto].
  destruct_lookup; [|eauto].
  rewrite !coinPair_builder_result. cbn [obind fst].
  destruct (EncodeResponse _); eauto.
Qed.

Lemma pair_listing_both_native (body : RequestBody) request :
  DecodeGetDAOCoinLimitOrdersRequest body = Ok request ->
  Current.DAOCoin1CreatorPublicKeyBase58Check request = "DESO" ->
  Current.DAOCoin2CreatorPublicKeyBase58Check request = "DESO" ->
  listPair body = Some (Current.BadRequest Current.MustProvideEitherCoin).
Proof.
  intros Hreq H1 H2. unfold Current.GetDAOCoinLimitOrders.
  rewrite Hreq. cbv zeta. rewrite H1, H2. reflexivity.
Qed.

Lemma pair_listing_responded (body : RequestBody) responses :
  listPair body = Some (Current.Responded responses) ->
  exists request view coin1PKID coin2PKID orders1 orders2,
    DecodeGetDAOCoinLimitOrdersRequest body = Ok request /\
    GetAugmentedUniversalView = Ok view /\
    (let coin1 := Current.DAOCoin1CreatorPublicKeyBase58Check request in
     let coin2 := Current.DAOCoin2CreatorPublicKeyBase58Check request in
     (coin1 <> "DESO" \/ coin2 <> "DESO") /\
     (if String.eqb coin1 "DESO" then coin1PKID = ZeroPKID
      else getPKID view coin1 = Ok coin1PKID) /\
     (if String.eqb coin2 "DESO" then coin2PKID = ZeroPKID
      else getPKID view coin2 = Ok coin2PKID) /\
     GetAllDAOCoinLimitOrdersForThisDAOCoinPair view coin1PKID coin2PKID
     = Ok orders1 /\
     GetAllDAOCoinLimitOrdersForThisDAOCoinPair view coin2PKID coin1PKID
     = Ok orders2 /\
     responses
     = (responsesFor view coin1 coin2 orders1
        ++ responsesFor view coin2 coin1 orders2)%list).
Proof.
  unfold Current.GetDAOCoinLimitOrders, Current.DESOCoinIdentifierString.
  destruct (DecodeGetDAOCoinLimitOrdersRequest body) as [request|e] eqn:Hreq;
    [|discriminate]. cbv zeta.
  destruct (String.eqb (Current.DAOCoin1CreatorPublicKeyBase58Check request)
              "DESO") eqn:E1;
    destruct (String.eqb (Current.DAOCoin2CreatorPublicKeyBase58Check request)
                "DESO") eqn:E2;
    cbn [andb negb]; [discriminate| | |].
  all: destruct GetAugmentedUniversalView as [view|]; [|discriminate].
  all: repeat
    match goal with
    | |- context [match getPKID ?v ?c with Ok _ => _ | Err _ => _ end] =>
        destruct (getPKID v c) eqn:?; [|discriminate]
    end.
  all: match goal with
    | |- context [GetAllDAOCoinLimitOrdersForThisDAOCoinPair ?v ?a ?b] =>
        destruct (GetAllDAOCoinLimitOrdersForThisDAOCoinPair v a b)
          as [orders1|] eqn:Ho1; [|discriminate];
        destruct (GetAllDAOCoinLimitOrdersForThisDAOCoinPair v b a)
          as [orders2|] eqn:Ho2; [|discriminate]
    end.
  all: rewrite !coinPair_builder_result; cbn [obind fst].
  all: destruct (EncodeResponse _); [discriminate|].
  all: intros [= <-].
  all: match goal with v : UtxoView |- _ =>
         eexists request, v, _, _, _, _ end.
  all: split; [reflexivity|]; split; [reflexivity|]; cbv zeta;
    rewrite E1, E2.
  all: try apply String.eqb_neq in E1; try apply String.eqb_neq in E2.
  all: repeat split; try eassumption; auto.
Qed.

(** X13. [GetDAOCoinLimitOrders] always writes an outcome. A request that
    names the native coin on both sides is rejected as a bad request
    whatever the chain state; a native side is never looked up as a public
    key; and a listing that is written holds the responses of the orders
    buying coin 1 for coin 2 followed by those of the orders buying coin 2
    for coin 1, each without the entries that fail to build. *)
Theorem pair_listing_outcome (body : RequestBody) :
  (exists outcome, listPair body = Some outcome) /\
  (forall request,
     DecodeGetDAOCoinLimitOrdersRequest body = Ok request ->
     Current.DAOCoin1CreatorPublicKeyBase58Check request = "DESO" ->
     Current.DAOCoin2CreatorPublicKeyBase58Check request = "DESO" ->
     listPair body = Some (Current.BadRequest Current.MustProvideEitherCoin)) /\
  (forall responses,
     listPair body = Some (Current.Responded responses) ->
     exists request view coin1PKID coin2PKID orders1 orders2,
       DecodeGetDAOCoinLimitOrdersRequest body = Ok request /\
       GetAugmentedUniversalView = Ok view /\
       (let coin1 := Current.DAOCoin1CreatorPublicKeyBase58Check request in
        let coin2 := Current.DAOCoin2CreatorPublicKeyBase58Check request in
        (coin1 <> "DESO" \/ coin2 <> "DESO") /\
        (if String.eqb coin1 "DESO" then coin1PKID = ZeroPKID
         else getPKID view coin1 = Ok coin1PKID) /\
        (if String.eqb coin2 "DESO" then coin2PKID = ZeroPKID
         else getPKID view coin2 = Ok coin2PKID) /\
        GetAllDAOCoinLimitOrdersForThisDAOCoinPair view coin1PKID coin2PKID
        = Ok orders1 /\
        GetAllDAOCoinLimitOrdersForThisDAOCoinPair view coin2PKID coin1PKID
        = Ok orders2 /\
        responses
        = (responsesFor view coin1 coin2 orders1
           ++ responsesFor view coin2 coin1 orders2)%list)).
Proof.
  split; [apply pair_listing_returns|].
  split; [apply pair_listing_both_native|apply pair_listing_responded].
Qed.

(** X14. [GetTransactorDAOCoinLimitOrders] always writes an outcome, and a
    listing that is written holds exactly the responses of the transactor's
    orders that build, in the order in which the view returns them, each
    built for the coin identifiers that
    [getPublicKeyBase58CheckOrCoinIdentifierForPKID] gives of the order's two
    coins; it is written only after the body was decoded, the transactor's
    key resolved, the orders fetched and the listing encoded. *)
Theorem transactor_listing_outcome (body : RequestBody) :
  (exists outcome, listTransactor body = Some outcome) /\
  (forall responses,
     listTransactor body = Some (Current.Responded responses) ->
     exists transactor view transactorPKID orders,
       DecodeGetTransactorDAOCoinLimitOrdersRequest body = Ok transactor /\
       GetAugmentedUniversalView = Ok view /\
       getPKID view transactor = Ok transactorPKID /\
       GetAllDAOCoinLimitOrdersForThisTransactor view transactorPKID
       = Ok orders /\
       EncodeResponse responses = None /\
       responses
       = builtResponses
           (fun order =>
              Current.buildDAOCoinLimitOrderResponse ParseFloat PKID transactor
                (Current.getPublicKeyBase58CheckOrCoinIdentifierForPKID PKID
                   IsZeroPKID (encodeIn view)
                   (Current.BuyingDAOCoinCreatorPKID PKID order))
                (Current.getPublicKeyBase58CheckOrCoinIdentifierForPKID PKID
                   IsZeroPKID (encodeIn view)
                   (Current.SellingDAOCoinCreatorPKID PKID order))
                order)
           orders).
Proof.
  unfold Current.GetTransactorDAOCoinLimitOrders.
  destruct (DecodeGetTransactorDAOCoinLimitOrdersRequest body)
    as [transactor|]; [|split; [eauto|discriminate]].
  destruct GetAugmentedUniversalView as [view|]; [|split; [eauto|discriminate]].
  destruct (getPKID view transactor) as [transactorPKID|] eqn:Hpk;
    [|split; [eauto|discriminate]].
  destruct (GetAllDAOCoinLimitOrdersForThisTransactor view transactorPKID)
    as [orders|] eqn:Ho; [|split; [eauto|discriminate]].
  rewrite transactor_builder_result. cbn [obind fst].
  destruct (EncodeResponse _) eqn:He; [split; [eauto|discriminate]|].
  split; [eauto|]. intros responses [= <-].
  exists transactor, view, transactorPKID, orders. auto 10.
Qed.

End Handlers.

Lemma pair_listing_outcome_witness :
  let order :=
    Current.Build_DAOCoinLimitOrderEntry Sample.PKID "order-1"
      "BC1YLtransactor" "DAOCoinX" Sample.ZeroPKID
      (15 * 10 ^ 28) 1000000000 Lib.DAOCoinLimitOrderOperationTypeASK in
  let handler :=
    Current.GetDAOCoinLimitOrders LibModel.acceptParseFloat
      Sample.PKID Sample.ZeroPKID Sample.UtxoView
      Sample.GetAugmentedUniversalView Sample.GetPubKeyBytesFromBase58Check
      Sample.GetPKIDForPublicKey Sample.GetPublicKeyForPKID
      Sample.Base58CheckEncode
      (fun _ buying _ =>
         if String.eqb buying "DAOCoinX" then Ok [order] else Ok [])
      Current.GetDAOCoinLimitOrdersRequest (fun request => Ok request)
      (fun _ => None) in
  handler (Current.Build_GetDAOCoinLimitOrdersRequest "DESO" "DESO")
  = Some (Current.BadRequest Current.MustProvideEitherCoin) /\
  (exists responses request,
     handler (Current.Build_GetDAOCoinLimitOrdersRequest "DAOCoinX" "DESO")
     = Some (Current.Responded responses) /\
     request = Current.Build_GetDAOCoinLimitOrdersRequest "DAOCoinX" "DESO").
Proof.
  intros order handler. split.
  - destruct (pair_listing_outcome LibModel.acceptParseFloat
                Sample.PKID Sample.ZeroPKID Sample.UtxoView
                Sample.GetAugmentedUniversalView
                Sample.GetPubKeyBytesFromBase58Check
                Sample.GetPKIDForPublicKey Sample.GetPublicKeyForPKID
                Sample.Base58CheckEncode
                (fun _ buying _ =>
                   if String.eqb buying "DAOCoinX" then Ok [order] else Ok [])
                Current.GetDAOCoinLimitOrdersRequest (fun request => Ok request)
                (fun _ => None)
                (Current.Build_GetDAOCoinLimitOrdersRequest "DESO" "DESO"))
      as (_ & H & _).
    apply (H (Current.Build_GetDAOCoinLimitOrdersRequest "DESO" "DESO"));
      reflexivity.
  - destruct (handler (Current.Build_GetDAOCoinLimitOrdersRequest
                         "DAOCoinX" "DESO"))
      as [[e|e|responses]|] eqn:Hh;
      [vm_compute in Hh; discriminate Hh..| |vm_compute in Hh; discriminate Hh].
    destruct (pair_listing_outcome LibModel.acceptParseFloat
                Sample.PKID Sample.ZeroPKID Sample.UtxoView
                Sample.GetAugmentedUniversalView
                Sample.GetPubKeyBytesFromBase58Check
                Sample.GetPKIDForPublicKey Sample.GetPublicKeyForPKID
                Sample.Base58CheckEncode
                (fun _ buying _ =>
                   if String.eqb buying "DAOCoinX" then Ok [order] else Ok [])
                Current.GetDAOCoinLimitOrdersRequest (fun request => Ok request)
                (fun _ => None)
                (Current.Build_GetDAOCoinLimitOrdersRequest "DAOCoinX" "DESO"))
      as (_ & _ & H).
    destruct (H responses Hh) as (request & _ & _ & _ & _ & _ & Hreq & _).
    exists responses, request. split; [reflexivity|].
    now injection Hreq.
Defined.

Lemma transactor_listing_outcome_witness :
  let order :=
    Current.Build_DAOCoinLimitOrderEntry Sample.PKID "order-1"
      "BC1YLtransactor" "DAOCoinX" Sample.ZeroPKID
      (15 * 10 ^ 28) 1000000000 Lib.DAOCoinLimitOrderOperationTypeASK in
  let handler :=
    Current.GetTransactorDAOCoinLimitOrders LibModel.acceptParseFloat
      Sample.PKID (String.eqb Sample.ZeroPKID) Sample.UtxoView
      Sample.GetAugmentedUniversalView Sample.GetPubKeyBytesFromBase58Check
      Sample.GetPKIDForPublicKey Sample.GetPublicKeyForPKID
      Sample.Base58CheckEncode
      (Sample.GetAllDAOCoinLimitOrdersForThisTransactor [order])
      string (fun transactor => Ok transactor) (fun _ => None) in
  exists responses transactor,
    handler "BC1YLtransactor" = Some (Current.Responded responses) /\
    transactor = "BC1YLtransactor".
Proof.
  intros order handler.
  destruct (handler "BC1YLtransactor") as [[e|e|responses]|] eqn:Hh;
    [vm_compute in Hh; discriminate Hh..| |vm_compute in Hh; discriminate Hh].
  destruct (transactor_listing_outcome LibModel.acceptParseFloat
              Sample.PKID (String.eqb Sample.ZeroPKID) Sample.UtxoView
              Sample.GetAugmentedUniversalView
              Sample.GetPubKeyBytesFromBase58Check
              Sample.GetPKIDForPublicKey Sample.GetPublicKeyForPKID
              Sample.Base58CheckEncode
              (Sample.GetAllDAOCoinLimitOrdersForThisTransactor [order])
              string (fun transactor => Ok transactor) (fun _ => None)
              "BC1YLtransactor") as (_ & H).
  destruct (H responses Hh) as (transactor & _ & _ & _ & Hreq & _).
  exists responses, transactor. split; [reflexivity|]. now injection Hreq.
Defined.

(** ** The two write paths of the exchange rate *)

Section WrittenRates.

Variable parse : string -> result Z.

Lemma float_path_is_bid_path buying selling f str op :
  Current.formatFloatAsString f = Some str ->
  op <> Lib.DAOCoinLimitOrderOperationTypeASK ->
  Current.CalculateScaledExchangeRateFromPriceString
    parse buying selling str op
  = Current.CalculateScaledExchangeRateFromFloat parse buying selling f.
Proof.
  intros Hf Hop.
  unfold Current.CalculateScaledExchangeRateFromPriceString,
    Current.CalculateScaledExchangeRateFromFloat.
  rewrite Hf. cbn [obind]. destruct (parse str) as [r|e]; [|reflexivity].
  cbn [rbind]. destruct (U256.IsZero r); [reflexivity|].
  destruct op as [| |code]; [contradiction|reflexivity|reflexivity].
Qed.

Lemma adjusted_in_range bn sn x w :
  U256.inRange x -> adjusted bn sn x = Ok w ->
  U256.inRange w /\ (w = 0 -> x = 0).
Proof.
  unfold U256.inRange, adjusted. intros Hx H.
  destruct bn.
  - destruct (Z.leb_spec U256.modulus (x * 10 ^ 9)); [discriminate|].
    injection H as <-. split; lia.
  - destruct sn.
    + destruct (Z.eqb_spec (x / 10 ^ 9) 0); [discriminate|].
      injection H as <-. split; [|contradiction].
      assert (0 <= x / 10 ^ 9 <= x); [|lia].
      split; [apply Z.div_pos; lia|].
      apply Z.div_le_upper_bound; lia.
    + injection H as <-. split; [assumption|auto].
Qed.

Hypothesis parse_in_range : forall s r, parse s = Ok r -> U256.inRange r.

Lemma float_path_rate buying selling f w :
  Current.CalculateScaledExchangeRateFromFloat parse buying selling f
  = Some (Ok w) ->
  0 < w < U256.modulus.
Proof.
  intros H. destruct (Current.formatFloatAsString f) as [str|] eqn:Hf;
    [|unfold Current.CalculateScaledExchangeRateFromFloat in H;
      rewrite Hf in H; discriminate H].
  destruct (parse str) as [r|e] eqn:Hp;
    [|unfold Current.CalculateScaledExchangeRateFromFloat in H;
      rewrite Hf in H; cbn [obind] in H; rewrite Hp in H; discriminate H].
  pose proof (parse_in_range _ _ Hp) as Hr.
  rewrite (fromFloat_parsed parse buying selling f str r Hf Hp) in H
    by apply Hr.
  destruct (Z.eqb_spec r 0) as [|Hne]; [discriminate|].
  assert (adjusted (String.eqb buying "DESO") (String.eqb selling "DESO") r
          = Ok w) as Ha by congruence.
  destruct (adjusted_in_range _ _ _ _ Hr Ha) as [Hw Hz].
  unfold U256.inRange in Hw. assert (w <> 0) by auto. lia.
Qed.

Lemma price_path_rate buying selling price op w :
  Current.CalculateScaledExchangeRateFromPriceString
    parse buying selling price op = Some (Ok w) ->
  0 <= w < U256.modulus /\
  (w = 0 ->
   op = Lib.DAOCoinLimitOrderOperationTypeASK /\
   String.eqb selling "DESO" && negb (String.eqb buying "DESO") = false /\
   exists r, parse price = Ok r /\ 10 ^ 76 < r).
Proof.
  intros H. destruct (parse price) as [r|e] eqn:Hp;
    [|unfold Current.CalculateScaledExchangeRateFromPriceString in H;
      rewrite Hp in H; discriminate H].
  pose proof (parse_in_range _ _ Hp) as Hr.
  rewrite (fromPriceString_parsed parse buying selling price op r Hp) in H
    by apply Hr.
  destruct (Z.eqb_spec r 0) as [|Hne]; [discriminate|].
  assert (0 < r) as Hpos by (unfold U256.inRange in Hr; lia).
  assert (10 ^ 76 < U256.modulus) as Hm by reflexivity.
  assert (0 <= 10 ^ 76 / r <= 10 ^ 76) as Hq.
  { split; [apply Z.div_pos; lia|].
    apply Z.div_le_upper_bound; [assumption|]. nia. }
  assert (forall x, U256.inRange x ->
            adjusted (String.eqb buying "DESO") (String.eqb selling "DESO") x
            = Ok w -> U256.inRange w /\ (w = 0 -> x = 0)) as Hadj
    by (intros x; apply adjusted_in_range).
  destruct op as [| |code].
  - assert (adjusted (String.eqb buying "DESO") (String.eqb selling "DESO")
              (10 ^ 76 / r) = Ok w) as Ha by congruence.
    destruct (Hadj (10 ^ 76 / r)) as [Hw Hz];
      [unfold U256.inRange; lia|assumption|].
    split; [exact Hw|]. intros Hw0. split; [reflexivity|]. split.
    + subst w. unfold adjusted in Ha.
      destruct (String.eqb buying "DESO"); [apply Bool.andb_false_r|].
      destruct (String.eqb selling "DESO"); [|reflexivity].
      destruct (Z.eqb_spec (10 ^ 76 / r / 10 ^ 9) 0);
        [discriminate|congruence].
    + exists r. split; [reflexivity|].
      specialize (Hz Hw0). apply Z.div_small_iff in Hz; lia.
  - assert (adjusted (String.eqb buying "DESO") (String.eqb selling "DESO") r
            = Ok w) as Ha by congruence.
    destruct (Hadj r Hr Ha) as [Hw Hz]. split; [exact Hw|].
    intros Hw0. elim Hne. auto.
  - assert (adjusted (String.eqb buying "DESO") (String.eqb selling "DESO") r
            = Ok w) as Ha by congruence.
    destruct (Hadj r Hr Ha) as [Hw Hz]. split; [exact Hw|].
    intros Hw0. elim Hne. auto.
Qed.

End WrittenRates.

(** X15. The float write path is the price-string write path of a BID: on
    the string that [formatFloatAsString] makes of the float,
    [CalculateScaledExchangeRateFromPriceString] with any operation type
    other than ASK returns what [CalculateScaledExchangeRateFromFloat]
    returns on the float, error or rate, for every parser of the core
    library. In particular an operation type that is neither ASK nor BID is
    priced as a BID. *)
Theorem float_path_agrees_with_bid_price_path :
  forall (parse : string -> result Z) buying selling f str op,
    Current.formatFloatAsString f = Some str ->
    op <> Lib.DAOCoinLimitOrderOperationTypeASK ->
    Current.CalculateScaledExchangeRateFromPriceString
      parse buying selling str op
    = Current.CalculateScaledExchangeRateFromFloat parse buying selling f.
Proof. exact float_path_is_bid_path. Qed.

Lemma float_path_agrees_with_bid_price_path_witness :
  let f := Float64.Finite false 3 (-1) in
  let parse := LibModel.CalculateScaledExchangeRateFromString in
  Current.CalculateScaledExchangeRateFromPriceString
    parse "DAOCoinX" "DESO" "1.50000000000000"
    (Lib.DAOCoinLimitOrderOperationTypeOther 7)
  = Current.CalculateScaledExchangeRateFromFloat parse "DAOCoinX" "DESO" f.
Proof.
  intros f parse.
  apply (float_path_agrees_with_bid_price_path parse "DAOCoinX" "DESO" f
           "1.50000000000000" (Lib.DAOCoinLimitOrderOperationTypeOther 7)).
  - vm_compute; reflexivity.
  - discriminate.
Defined.

(** X16. Over a parser of the core library that returns 256-bit values, every
    rate that a write path returns is a 256-bit value. A rate returned by
    [CalculateScaledExchangeRateFromFloat] is never zero; a rate returned by
    [CalculateScaledExchangeRateFromPriceString] is zero only for an ASK
    whose raw rate exceeds 10^76, on a pair other than one that sells the
    native coin for a DAO coin. *)
Theorem written_rates_in_range :
  forall (parse : string -> result Z) buying selling,
    (forall s r, parse s = Ok r -> U256.inRange r) ->
    (forall f w,
       Current.CalculateScaledExchangeRateFromFloat parse buying selling f
       = Some (Ok w) ->
       0 < w < U256.modulus) /\
    (forall price op w,
       Current.CalculateScaledExchangeRateFromPriceString
         parse buying selling price op = Some (Ok w) ->
       0 <= w < U256.modulus /\
       (w = 0 ->
        op = Lib.DAOCoinLimitOrderOperationTypeASK /\
        String.eqb selling "DESO" && negb (String.eqb buying "DESO") = false /\
        exists r, parse price = Ok r /\ 10 ^ 76 < r)).
Proof.
  intros parse buying selling Hparse. split.
  - intros f w. now apply float_path_rate.
  - intros price op w. now apply price_path_rate.
Qed.

(** X17. For an ASK on a pair of two DAO coins whose price parses to a raw
    rate [r > 0], [CalculateScaledExchangeRateFromPriceString] returns the
    rate [w] that is the reciprocal of [r] at the precision 10^38, rounded
    down: [w * r <= 10^76 < (w + 1) * r]; the inversion never overflows. *)
Theorem ask_rate_is_floored_reciprocal :
  forall (parse : string -> result Z) buying selling price r,
    parse price = Ok r -> 0 < r ->
    String.eqb buying "DESO" = false -> String.eqb selling "DESO" = false ->
    exists w,
      Current.CalculateScaledExchangeRateFromPriceString
        parse buying selling price Lib.DAOCoinLimitOrderOperationTypeASK
      = Some (Ok w) /\
      w * r <= 10 ^ 76 < (w + 1) * r /\ 0 <= w < U256.modulus.
Proof.
  intros parse buying selling price r Hp Hr Hb Hs.
  exists (10 ^ 76 / r). split.
  - rewrite (ask_inversion parse buying selling price r Hp Hr).
    unfold adjusted. now rewrite Hb, Hs.
  - pose proof (Z.div_mod (10 ^ 76) r ltac:(lia)) as Hdm.
    pose proof (Z.mod_pos_bound (10 ^ 76) r Hr) as Hmod.
    assert (10 ^ 76 < U256.modulus) as Hm by reflexivity.
    assert (0 <= 10 ^ 76 / r) by (apply Z.div_pos; lia).
    split; [nia|]. split; [assumption|].
    assert (10 ^ 76 / r <= 10 ^ 76); [|lia].
    apply Z.div_le_upper_bound; [assumption|nia].
Qed.

Section ModelParser.

Lemma model_digits_nonneg s : forall acc v,
  0 <= acc -> LibModel.digitsValue s acc = Some v -> 0 <= v.
Proof.
  induction s as [|c s IH]; intros acc v Hacc H; cbn [LibModel.digitsValue] in H.
  - injection H as <-. assumption.
  - destruct (Fmt.isDigit c) eqn:Hc; [|discriminate].
    refine (IH _ _ _ H). unfold Fmt.isDigit in Hc. lia.
Qed.

Lemma model_parser_in_range s r :
  LibModel.CalculateScaledExchangeRateFromString s = Ok r -> U256.inRange r.
Proof.
  unfold LibModel.CalculateScaledExchangeRateFromString,
    LibModel.ScaleFloatFormatStringToUint256.
  destruct (Str.beforePoint s) as [|c whole] eqn:Hb; [discriminate|].
  set (frac := match Str.afterPoint s with Some t => t | None => EmptyString end).
  destruct (LibModel.digitsValue (String c whole) 0) as [w|] eqn:Hw;
    [|discriminate].
  destruct (LibModel.digitsValue frac 0) as [fr|] eqn:Hfr; [|discriminate].
  destruct (Z.leb_spec U256.modulus
              ((w * 10 ^ Fmt.len frac + fr) * Lib.OneE38 / 10 ^ Fmt.len frac))
    as [|Hlt]; [discriminate|].
  intros Hok. injection Hok as <-. split; [|assumption].
  pose proof (model_digits_nonneg _ _ _ (Z.le_refl 0) Hw).
  pose proof (model_digits_nonneg _ _ _ (Z.le_refl 0) Hfr).
  assert (0 < 10 ^ Fmt.len frac)
    by (apply Z.pow_pos_nonneg; [lia|apply FmtFacts.len_nonneg]).
  apply Z.div_pos; [|assumption].
  assert (0 < Lib.OneE38) by reflexivity. nia.
Qed.

End ModelParser.

Lemma written_rates_in_range_witness :
  let parse := LibModel.CalculateScaledExchangeRateFromString in
  0 < 150000000000000000000000000000 < U256.modulus /\
  (0 <= 0 < U256.modulus /\
   (0 = 0 ->
    Lib.DAOCoinLimitOrderOperationTypeASK
    = Lib.DAOCoinLimitOrderOperationTypeASK /\
    String.eqb "DAOCoinY" "DESO" && negb (String.eqb "DESO" "DESO") = false /\
    exists r,
      parse "200000000000000000000000000000000000000" = Ok r /\ 10 ^ 76 < r)).
Proof.
  intros parse. split.
  - destruct (written_rates_in_range parse "DAOCoinX" "DESO"
                model_parser_in_range) as [H _].
    apply (H (Float64.Finite false 3 (-1))). vm_compute; reflexivity.
  - destruct (written_rates_in_range parse "DESO" "DAOCoinY"
                model_parser_in_range) as [_ H].
    apply (H "200000000000000000000000000000000000000"
             Lib.DAOCoinLimitOrderOperationTypeASK 0).
    vm_compute; reflexivity.
Defined.

Lemma ask_rate_is_floored_reciprocal_witness :
  exists w,
    Current.CalculateScaledExchangeRateFromPriceString
      LibModel.CalculateScaledExchangeRateFromString
      "DAOCoinX" "DAOCoinY" "3" Lib.DAOCoinLimitOrderOperationTypeASK
    = Some (Ok w) /\
    w * (3 * 10 ^ 38) <= 10 ^ 76 < (w + 1) * (3 * 10 ^ 38) /\
    0 <= w < U256.modulus.
Proof.
  apply (ask_rate_is_floored_reciprocal
           LibModel.CalculateScaledExchangeRateFromString
           "DAOCoinX" "DAOCoinY" "3" (3 * 10 ^ 38)).
  - vm_compute; reflexivity.
  - lia.
  - reflexivity.
  - reflexivity.
Defined.
